(** * SimpleMicroservices: the in-memory resource service of [main.py]

    A shallow embedding of the FastAPI service of [main.py] and of the
    pydantic models of [models/allergy.py] and [models/medication.py]:
    the four module-level dictionaries, the create / list / get / update
    endpoints of each resource kind, and the properties of the
    specification that concern them. *)

From Stdlib Require Import List String Ascii Bool ZArith NArith PeanoNat Lia.
From Stdlib Require Import PrimFloat.
Import ListNotations.

Open Scope string_scope.
Open Scope list_scope.

Set Implicit Arguments.

(** ** Python values *)

(** [uuid.UUID]: a 128-bit identifier, taken by its integer value. *)
Definition UUID := N.

(** [datetime.datetime] as [datetime.utcnow] returns it (naive, UTC):
    microseconds since the epoch. *)
Definition datetime := Z.

(** [datetime.date]. *)
Record date := mkdate { year : nat; month : nat; day : nat }.

Definition digit (n : nat) : ascii := ascii_of_nat (48 + n mod 10).

Definition pad2 (n : nat) : string :=
  String (digit (n / 10)) (String (digit n) EmptyString).

Definition pad4 (n : nat) : string :=
  String (digit (n / 1000)) (String (digit (n / 100)) (pad2 n)).

(** [str(d)] for a [date] is [d.isoformat()], that is ["%04d-%02d-%02d"]. *)
Definition date_str (d : date) : string :=
  pad4 (year d) ++ "-" ++ pad2 (month d) ++ "-" ++ pad2 (day d).

(** The objects that occur as values of a dumped model
    ([BaseModel.model_dump()], python mode) or of keyword arguments. *)
#[warnings="-register-all"]
Inductive value :=
| VNone
| VBool (b : bool)
| VStr (s : string)
| VFloat (f : float)
| VUUID (u : UUID)
| VDate (d : date)
| VDatetime (t : datetime)
| VList (l : list value)
| VDict (d : list (string * value)).

(** Truth value of an object in a condition.  [UUID] and [date] define
    neither [__bool__] nor [__len__], so their instances are always true. *)
Definition truthy_uuid (_ : UUID) : bool := true.
Definition truthy_date (_ : date) : bool := true.

(** [x and e] where [x] is an [Optional[date]] and [e] a [bool], used as the
    condition of a comprehension: [None] is false, a date is true and the
    value is then that of [e]. *)
Definition date_and (x : option date) (e : date -> bool) : bool :=
  match x with
  | None => false
  | Some d => if truthy_date d then e d else false
  end.

(** ** Dictionaries

    A Python [dict] keeps its keys in insertion order; assigning to a key
    that is present replaces the value where it stands, assigning to a new
    key adds it at the end. *)
Section Dict.
Variables K V : Type.
Variable eqb : K -> K -> bool.

Definition dict := list (K * V).

Fixpoint dict_get (k : K) (d : dict) : option V :=
  match d with
  | [] => None
  | (k', v) :: r => if eqb k k' then Some v else dict_get k r
  end.

(** [k in d] *)
Definition dict_contains (k : K) (d : dict) : bool :=
  match dict_get k d with Some _ => true | None => false end.

(** [d[k] = v] *)
Fixpoint dict_set (k : K) (v : V) (d : dict) : dict :=
  match d with
  | [] => [(k, v)]
  | (k', v') :: r =>
      if eqb k k' then (k', v) :: r else (k', v') :: dict_set k v r
  end.

(** [d.update(other)] *)
Definition dict_update (d other : dict) : dict :=
  fold_left (fun acc kv => dict_set (fst kv) (snd kv) acc) other d.

(** [d.keys()] and [d.values()], in iteration order. *)
Definition dict_keys (d : dict) : list K := map fst d.
Definition dict_values (d : dict) : list V := map snd d.
End Dict.

Arguments dict_get {K V} eqb k d.
Arguments dict_contains {K V} eqb k d.
Arguments dict_set {K V} eqb k v d.
Arguments dict_update {K V} eqb d other.
Arguments dict_keys {K V} d.
Arguments dict_values {K V} d.

(** A dumped model, or the keyword arguments of a constructor. *)
Definition pydict := dict string value.

Definition kw_get (k : string) (d : pydict) : option value :=
  dict_get String.eqb k d.

(** ** Exceptions, the clock and the identifier source *)

Inductive exn :=
| HTTPException (status_code : nat) (detail : string)
| ValidationError
| KeyError.

Inductive result (A : Type) :=
| Ok (a : A)
| Raise (e : exn).

Arguments Ok {A} a.
Arguments Raise {A} e.

(** What the process reads from outside: the clock behind
    [datetime.utcnow] and the random source behind [uuid4].  [ticks] gives,
    for each coming reading of the clock, by how much it has advanced since
    the reading before (the clock does not run backwards); [uuids] gives the
    coming results of [uuid4]. *)
Record Env := mkEnv {
  now : datetime;
  ticks : list N;
  uuids : list UUID
}.

(** Computations that read and change a state [S] and may raise. *)
Definition ST (S A : Type) : Type := S -> result A * S.

Definition ret {S A} (a : A) : ST S A := fun s => (Ok a, s).

Definition raise {S A} (e : exn) : ST S A := fun s => (Raise e, s).

Definition bind {S A B} (m : ST S A) (f : A -> ST S B) : ST S B :=
  fun s =>
    match m s with
    | (Ok a, s') => f a s'
    | (Raise e, s') => (Raise e, s')
    end.

Declare Scope st_scope.
Delimit Scope st_scope with st.
Notation "x <- m ;; k" := (bind m (fun x => k))
  (at level 100, m at next level, right associativity) : st_scope.
Notation "m ;;; k" := (bind m (fun _ => k))
  (at level 100, right associativity) : st_scope.
Open Scope st_scope.

Definition lift_result {S A} (r : result A) : ST S A := fun s => (r, s).

(** [datetime.utcnow()] *)
Definition utcnow : ST Env datetime :=
  fun e =>
    match ticks e with
    | [] => (Ok (now e), e)
    | d :: r =>
        let t := (now e + Z.of_N d)%Z in
        (Ok t, {| now := t; ticks := r; uuids := uuids e |})
    end.

(** [uuid4()] *)
Definition uuid4 : ST Env UUID :=
  fun e =>
    match uuids e with
    | [] => (Ok 0%N, e)
    | u :: r => (Ok u, {| now := now e; ticks := ticks e; uuids := r |})
    end.

(** ** pydantic field validation

    The keyword arguments of a constructor reach it either from the dump of
    a model (each value then has the Python type of its field) or from a
    validated update payload (that type, or [None]).  The validators below
    decide these inputs as pydantic does; its conversions from other Python
    types (a string for a [UUID] or a [date], an [int] for a [float]) do not
    arise and are not modelled: such an input is refused here. *)

Definition as_uuid (v : value) : result UUID :=
  match v with VUUID u => Ok u | _ => Raise ValidationError end.

Definition as_str (v : value) : result string :=
  match v with VStr s => Ok s | _ => Raise ValidationError end.

Definition as_bool (v : value) : result bool :=
  match v with VBool b => Ok b | _ => Raise ValidationError end.

Definition as_float (v : value) : result float :=
  match v with VFloat f => Ok f | _ => Raise ValidationError end.

Definition as_date (v : value) : result date :=
  match v with VDate d => Ok d | _ => Raise ValidationError end.

Definition as_datetime (v : value) : result datetime :=
  match v with VDatetime t => Ok t | _ => Raise ValidationError end.

(** [Literal[...]]: a string that is one of the listed ones. *)
Definition as_literal {A} (of_str : string -> option A) (v : value)
  : result A :=
  match v with
  | VStr s =>
      match of_str s with Some a => Ok a | None => Raise ValidationError end
  | _ => Raise ValidationError
  end.

(** [Optional[T]] *)
Definition as_optional {A} (f : value -> result A) (v : value)
  : result (option A) :=
  match v with
  | VNone => Ok None
  | _ => match f v with Ok a => Ok (Some a) | Raise e => Raise e end
  end.

(** One field of a constructor call: the keyword argument when it is given,
    the field's default (or default factory) when it is not. *)
Definition field {A} (kw : pydict) (name : string)
    (validate : value -> result A) (default : ST Env A) : ST Env A :=
  match kw_get name kw with
  | Some v => lift_result (validate v)
  | None => default
  end.

(** [Field(...)]: no default, the argument is required. *)
Definition required {A} : ST Env A := raise ValidationError.

(** The dumped form of an optional value. *)
Definition dump_opt {A} (f : A -> value) (o : option A) : value :=
  match o with Some a => f a | None => VNone end.

(** Membership of a field name in [model_fields_set]. *)
Definition is_set (name : string) (fields_set : list string) : bool :=
  existsb (String.eqb name) fields_set.

(** [model_dump(exclude_unset=True)]: the dump without the fields that were
    not given to the constructor. *)
Definition exclude_unset (fields_set : list string) (d : pydict) : pydict :=
  filter (fun kv => is_set (fst kv) fields_set) d.

(** One field of an update payload, every one [Optional[...] = None]: the
    value, and whether the field was given. *)
Definition opt_field {A} (kw : pydict) (name : string)
    (validate : value -> result A) : result (option A * list string) :=
  match kw_get name kw with
  | Some v =>
      match as_optional validate v with
      | Ok o => Ok (o, [name])
      | Raise e => Raise e
      end
  | None => Ok (None, [])
  end.

(** ** models/allergy.py *)

(** [AllergySeverity = Literal["mild", "moderate", "severe"]] *)
Module AllergySeverity.
Inductive t := mild | moderate | severe.

Definition str (x : t) : string :=
  match x with mild => "mild" | moderate => "moderate" | severe => "severe" end.

Definition of_str (s : string) : option t :=
  if String.eqb s "mild" then Some mild
  else if String.eqb s "moderate" then Some moderate
  else if String.eqb s "severe" then Some severe
  else None.
End AllergySeverity.

(** [AllergyType = Literal["drug", "food", "environment", "other"]] *)
Module AllergyType.
Inductive t := drug | food | environment | other.

Definition str (x : t) : string :=
  match x with
  | drug => "drug" | food => "food"
  | environment => "environment" | other => "other"
  end.

Definition of_str (s : string) : option t :=
  if String.eqb s "drug" then Some drug
  else if String.eqb s "food" then Some food
  else if String.eqb s "environment" then Some environment
  else if String.eqb s "other" then Some other
  else None.
End AllergyType.

(** [class AllergyBase(BaseModel)]; [AllergyCreate] adds nothing to it. *)
Module AllergyBase.
Record t := mk {
  id : UUID;
  person_id : UUID;
  allergen : string;
  allergy_type : AllergyType.t;
  reaction : option string;
  severity : AllergySeverity.t;
  noted_date : option date
}.

Definition model_dump (a : t) : pydict :=
  [ ("id", VUUID (id a));
    ("person_id", VUUID (person_id a));
    ("allergen", VStr (allergen a));
    ("allergy_type", VStr (AllergyType.str (allergy_type a)));
    ("reaction", dump_opt VStr (reaction a));
    ("severity", VStr (AllergySeverity.str (severity a)));
    ("noted_date", dump_opt VDate (noted_date a)) ].

(** The constructor [AllergyBase], called with the keyword arguments
    [kw]: the fields in the order of their declaration. *)
Definition init (kw : pydict) : ST Env t :=
  id <- field kw "id" as_uuid uuid4 ;;
  person_id <- field kw "person_id" as_uuid required ;;
  allergen <- field kw "allergen" as_str required ;;
  allergy_type <- field kw "allergy_type"
                    (as_literal AllergyType.of_str) (ret AllergyType.food) ;;
  reaction <- field kw "reaction" (as_optional as_str) (ret None) ;;
  severity <- field kw "severity"
                (as_literal AllergySeverity.of_str)
                (ret AllergySeverity.moderate) ;;
  noted_date <- field kw "noted_date" (as_optional as_date) (ret None) ;;
  ret (mk id person_id allergen allergy_type reaction severity noted_date).
End AllergyBase.

Definition AllergyCreate := AllergyBase.t.

(** [class AllergyUpdate(BaseModel)]: every field [Optional[...] = None];
    [model_fields_set] holds the names of the fields the payload gave. *)
Module AllergyUpdate.
Record t := mk {
  allergen : option string;
  allergy_type : option AllergyType.t;
  reaction : option string;
  severity : option AllergySeverity.t;
  noted_date : option date;
  model_fields_set : list string
}.

Definition model_dump (u : t) : pydict :=
  [ ("allergen", dump_opt VStr (allergen u));
    ("allergy_type",
      dump_opt (fun x => VStr (AllergyType.str x)) (allergy_type u));
    ("reaction", dump_opt VStr (reaction u));
    ("severity",
      dump_opt (fun x => VStr (AllergySeverity.str x)) (severity u));
    ("noted_date", dump_opt VDate (noted_date u)) ].

Definition model_dump_exclude_unset (u : t) : pydict :=
  exclude_unset (model_fields_set u) (model_dump u).

(** The constructor [AllergyUpdate], called with keyword arguments that
    are [None] or have the Python type of their field, as the dump of a
    payload gives them.  The conversions pydantic makes from other Python
    values (an ISO string for a [date]) are not modelled, such an argument
    is refused here, and the constructor is used on typed arguments only. *)
Definition init (kw : pydict) : result t :=
  match opt_field kw "allergen" as_str,
        opt_field kw "allergy_type" (as_literal AllergyType.of_str),
        opt_field kw "reaction" as_str,
        opt_field kw "severity" (as_literal AllergySeverity.of_str),
        opt_field kw "noted_date" as_date with
  | Ok (a, sa), Ok (ty, sty), Ok (r, sr), Ok (s, ss), Ok (n, sn) =>
      Ok (mk a ty r s n (sa ++ sty ++ sr ++ ss ++ sn))
  | _, _, _, _, _ => Raise ValidationError
  end.
End AllergyUpdate.

(** [class AllergyRead(AllergyBase)]: the inherited fields, then the two
    timestamps, each with [default_factory=datetime.utcnow]. *)
Module AllergyRead.
Record t := mk {
  base : AllergyBase.t;
  created_at : datetime;
  updated_at : datetime
}.

Definition model_dump (r : t) : pydict :=
  AllergyBase.model_dump (base r)
  ++ [ ("created_at", VDatetime (created_at r));
       ("updated_at", VDatetime (updated_at r)) ].

(** The constructor [AllergyRead], called with keyword arguments. *)
Definition init (kw : pydict) : ST Env t :=
  b <- AllergyBase.init kw ;;
  created_at <- field kw "created_at" as_datetime utcnow ;;
  updated_at <- field kw "updated_at" as_datetime utcnow ;;
  ret (mk b created_at updated_at).
End AllergyRead.

(** ** models/medication.py *)

(** [DoseUnit = Literal["mg", "mcg", "g", "mL", "units", "puffs", "drops"]] *)
Module DoseUnit.
Inductive t := mg | mcg | g | mL | units | puffs | drops.

Definition str (x : t) : string :=
  match x with
  | mg => "mg" | mcg => "mcg" | g => "g" | mL => "mL"
  | units => "units" | puffs => "puffs" | drops => "drops"
  end.

Definition of_str (s : string) : option t :=
  if String.eqb s "mg" then Some mg
  else if String.eqb s "mcg" then Some mcg
  else if String.eqb s "g" then Some g
  else if String.eqb s "mL" then Some mL
  else if String.eqb s "units" then Some units
  else if String.eqb s "puffs" then Some puffs
  else if String.eqb s "drops" then Some drops
  else None.
End DoseUnit.

(** [Frequency = Literal["once_daily", "twice_daily", "three_times_daily",
    "as_needed", "other"]] *)
Module Frequency.
Inductive t :=
  once_daily | twice_daily | three_times_daily | as_needed | other.

Definition str (x : t) : string :=
  match x with
  | once_daily => "once_daily" | twice_daily => "twice_daily"
  | three_times_daily => "three_times_daily"
  | as_needed => "as_needed" | other => "other"
  end.

Definition of_str (s : string) : option t :=
  if String.eqb s "once_daily" then Some once_daily
  else if String.eqb s "twice_daily" then Some twice_daily
  else if String.eqb s "three_times_daily" then Some three_times_daily
  else if String.eqb s "as_needed" then Some as_needed
  else if String.eqb s "other" then Some other
  else None.
End Frequency.

(** [class MedicationBase(BaseModel)]; [MedicationCreate] adds nothing. *)
Module MedicationBase.
Record t := mk {
  id : UUID;
  person_id : UUID;
  name : string;
  dose : option float;
  dose_unit : option DoseUnit.t;
  frequency : Frequency.t;
  instructions : option string;
  start_date : option date;
  end_date : option date;
  is_current : bool
}.

Definition model_dump (m : t) : pydict :=
  [ ("id", VUUID (id m));
    ("person_id", VUUID (person_id m));
    ("name", VStr (name m));
    ("dose", dump_opt VFloat (dose m));
    ("dose_unit", dump_opt (fun x => VStr (DoseUnit.str x)) (dose_unit m));
    ("frequency", VStr (Frequency.str (frequency m)));
    ("instructions", dump_opt VStr (instructions m));
    ("start_date", dump_opt VDate (start_date m));
    ("end_date", dump_opt VDate (end_date m));
    ("is_current", VBool (is_current m)) ].

Definition init (kw : pydict) : ST Env t :=
  id <- field kw "id" as_uuid uuid4 ;;
  person_id <- field kw "person_id" as_uuid required ;;
  name <- field kw "name" as_str required ;;
  dose <- field kw "dose" (as_optional as_float) (ret None) ;;
  dose_unit <- field kw "dose_unit"
                 (as_optional (as_literal DoseUnit.of_str)) (ret None) ;;
  frequency <- field kw "frequency"
                 (as_literal Frequency.of_str) (ret Frequency.as_needed) ;;
  instructions <- field kw "instructions" (as_optional as_str) (ret None) ;;
  start_date <- field kw "start_date" (as_optional as_date) (ret None) ;;
  end_date <- field kw "end_date" (as_optional as_date) (ret None) ;;
  is_current <- field kw "is_current" as_bool (ret false) ;;
  ret (mk id person_id name dose dose_unit frequency instructions
          start_date end_date is_current).
End MedicationBase.

Definition MedicationCreate := MedicationBase.t.

(** [class MedicationUpdate(BaseModel)] *)
Module MedicationUpdate.
Record t := mk {
  name : option string;
  dose : option float;
  dose_unit : option DoseUnit.t;
  frequency : option Frequency.t;
  instructions : option string;
  start_date : option date;
  end_date : option date;
  is_current : option bool;
  model_fields_set : list string
}.

Definition model_dump (u : t) : pydict :=
  [ ("name", dump_opt VStr (name u));
    ("dose", dump_opt VFloat (dose u));
    ("dose_unit", dump_opt (fun x => VStr (DoseUnit.str x)) (dose_unit u));
    ("frequency", dump_opt (fun x => VStr (Frequency.str x)) (frequency u));
    ("instructions", dump_opt VStr (instructions u));
    ("start_date", dump_opt VDate (start_date u));
    ("end_date", dump_opt VDate (end_date u));
    ("is_current", dump_opt VBool (is_current u)) ].

Definition model_dump_exclude_unset (u : t) : pydict :=
  exclude_unset (model_fields_set u) (model_dump u).
End MedicationUpdate.

(** [class MedicationRead(MedicationBase)] *)
Module MedicationRead.
Record t := mk {
  base : MedicationBase.t;
  created_at : datetime;
  updated_at : datetime
}.

Definition model_dump (r : t) : pydict :=
  MedicationBase.model_dump (base r)
  ++ [ ("created_at", VDatetime (created_at r));
       ("updated_at", VDatetime (updated_at r)) ].

Definition init (kw : pydict) : ST Env t :=
  b <- MedicationBase.init kw ;;
  created_at <- field kw "created_at" as_datetime utcnow ;;
  updated_at <- field kw "updated_at" as_datetime utcnow ;;
  ret (mk b created_at updated_at).
End MedicationRead.

(** ** models/address.py and models/person.py *)

(** [x == s] where [s] is a string and [x] a string or [None]. *)
Definition opt_str_eqb (x : option string) (s : string) : bool :=
  match x with Some s' => String.eqb s' s | None => false end.

(** [str(x)] where [x] is a date or [None]. *)
Definition opt_date_str (x : option date) : string :=
  match x with Some d => date_str d | None => "None" end.

Fixpoint mapM {S A B} (f : A -> ST S B) (l : list A) : ST S (list B) :=
  match l with
  | [] => ret []
  | a :: r => b <- f a ;; bs <- mapM f r ;; ret (b :: bs)
  end.

(** Modelled from the spec: [models/address.py] is not among the sources.
    An Address has an identifier, which the create payload may supply and
    which is generated otherwise, and the free-text attributes that
    [main.py] reads from it; their declared types are unknown, so each is
    taken as a string that may be [None], which covers a required string as
    the case where it never is. *)
Module AddressBase.
(** Modelled from the spec: the attributes of an Address that [main.py]
    reads, and its identifier. *)
Record t := mk {
  id : UUID;
  street : option string;
  city : option string;
  state : option string;
  postal_code : option string;
  country : option string
}.

Definition model_dump (a : t) : pydict :=
  [ ("id", VUUID (id a));
    ("street", dump_opt VStr (street a));
    ("city", dump_opt VStr (city a));
    ("state", dump_opt VStr (state a));
    ("postal_code", dump_opt VStr (postal_code a));
    ("country", dump_opt VStr (country a)) ].

Definition init (kw : pydict) : ST Env t :=
  id <- field kw "id" as_uuid uuid4 ;;
  street <- field kw "street" (as_optional as_str) (ret None) ;;
  city <- field kw "city" (as_optional as_str) (ret None) ;;
  state <- field kw "state" (as_optional as_str) (ret None) ;;
  postal_code <- field kw "postal_code" (as_optional as_str) (ret None) ;;
  country <- field kw "country" (as_optional as_str) (ret None) ;;
  ret (mk id street city state postal_code country).
End AddressBase.

Definition AddressCreate := AddressBase.t.

(** Modelled from the spec: the update payload of an Address, not among the
    sources; it has every attribute but the identifier and the timestamps,
    each one optional. *)
Module AddressUpdate.
(** Modelled from the spec: the fields of the update payload of an
    Address, and which of them the payload gave. *)
Record t := mk {
  street : option string;
  city : option string;
  state : option string;
  postal_code : option string;
  country : option string;
  model_fields_set : list string
}.

Definition model_dump (u : t) : pydict :=
  [ ("street", dump_opt VStr (street u));
    ("city", dump_opt VStr (city u));
    ("state", dump_opt VStr (state u));
    ("postal_code", dump_opt VStr (postal_code u));
    ("country", dump_opt VStr (country u)) ].

Definition model_dump_exclude_unset (u : t) : pydict :=
  exclude_unset (model_fields_set u) (model_dump u).
End AddressUpdate.

(** Modelled from the spec: the stored form of an Address, not among the
    sources; as for the two kinds whose models are, the attributes of the
    base and two timestamps set at creation. *)
Module AddressRead.
(** Modelled from the spec: a stored Address. *)
Record t := mk {
  base : AddressBase.t;
  created_at : datetime;
  updated_at : datetime
}.

Definition model_dump (r : t) : pydict :=
  AddressBase.model_dump (base r)
  ++ [ ("created_at", VDatetime (created_at r));
       ("updated_at", VDatetime (updated_at r)) ].

Definition init (kw : pydict) : ST Env t :=
  b <- AddressBase.init kw ;;
  created_at <- field kw "created_at" as_datetime utcnow ;;
  updated_at <- field kw "updated_at" as_datetime utcnow ;;
  ret (mk b created_at updated_at).
End AddressRead.

(** Modelled from the spec: [models/person.py] is not among the sources.
    A Person has an identifier, which the create payload may supply and
    which is generated otherwise, the attributes that [main.py] reads from
    it (each taken as nullable, as for an Address) and an embedded sequence
    of Address-shaped values. *)
Module PersonBase.
(** Modelled from the spec: the attributes of a Person that [main.py]
    reads, its identifier and its embedded addresses. *)
Record t := mk {
  id : UUID;
  uni : option string;
  first_name : option string;
  last_name : option string;
  email : option string;
  phone : option string;
  birth_date : option date;
  addresses : list AddressBase.t
}.

Definition model_dump (p : t) : pydict :=
  [ ("id", VUUID (id p));
    ("uni", dump_opt VStr (uni p));
    ("first_name", dump_opt VStr (first_name p));
    ("last_name", dump_opt VStr (last_name p));
    ("email", dump_opt VStr (email p));
    ("phone", dump_opt VStr (phone p));
    ("birth_date", dump_opt VDate (birth_date p));
    ("addresses",
      VList (map (fun a => VDict (AddressBase.model_dump a)) (addresses p))) ].

Definition as_addresses (v : value) : ST Env (list AddressBase.t) :=
  match v with
  | VList l =>
      mapM (fun x =>
              match x with
              | VDict d => AddressBase.init d
              | _ => raise ValidationError
              end) l
  | _ => raise ValidationError
  end.

Definition init (kw : pydict) : ST Env t :=
  id <- field kw "id" as_uuid uuid4 ;;
  uni <- field kw "uni" (as_optional as_str) (ret None) ;;
  first_name <- field kw "first_name" (as_optional as_str) (ret None) ;;
  last_name <- field kw "last_name" (as_optional as_str) (ret None) ;;
  email <- field kw "email" (as_optional as_str) (ret None) ;;
  phone <- field kw "phone" (as_optional as_str) (ret None) ;;
  birth_date <- field kw "birth_date" (as_optional as_date) (ret None) ;;
  addresses <- match kw_get "addresses" kw with
               | Some v => as_addresses v
               | None => ret []
               end ;;
  ret (mk id uni first_name last_name email phone birth_date addresses).
End PersonBase.

Definition PersonCreate := PersonBase.t.

(** Modelled from the spec: the update payload of a Person, not among the
    sources; every attribute but the identifier and the timestamps. *)
Module PersonUpdate.
(** Modelled from the spec: the fields of the update payload of a
    Person, and which of them the payload gave. *)
Record t := mk {
  uni : option string;
  first_name : option string;
  last_name : option string;
  email : option string;
  phone : option string;
  birth_date : option date;
  addresses : option (list AddressBase.t);
  model_fields_set : list string
}.

Definition model_dump (u : t) : pydict :=
  [ ("uni", dump_opt VStr (uni u));
    ("first_name", dump_opt VStr (first_name u));
    ("last_name", dump_opt VStr (last_name u));
    ("email", dump_opt VStr (email u));
    ("phone", dump_opt VStr (phone u));
    ("birth_date", dump_opt VDate (birth_date u));
    ("addresses",
      dump_opt
        (fun l => VList (map (fun a => VDict (AddressBase.model_dump a)) l))
        (addresses u)) ].

Definition model_dump_exclude_unset (u : t) : pydict :=
  exclude_unset (model_fields_set u) (model_dump u).
End PersonUpdate.

(** Modelled from the spec: the stored form of a Person, not among the
    sources. *)
Module PersonRead.
(** Modelled from the spec: a stored Person. *)
Record t := mk {
  base : PersonBase.t;
  created_at : datetime;
  updated_at : datetime
}.

Definition id (r : t) : UUID := PersonBase.id (base r).

Definition model_dump (r : t) : pydict :=
  PersonBase.model_dump (base r)
  ++ [ ("created_at", VDatetime (created_at r));
       ("updated_at", VDatetime (updated_at r)) ].

Definition init (kw : pydict) : ST Env t :=
  b <- PersonBase.init kw ;;
  created_at <- field kw "created_at" as_datetime utcnow ;;
  updated_at <- field kw "updated_at" as_datetime utcnow ;;
  ret (mk b created_at updated_at).
End PersonRead.

(** ** main.py: the four in-memory stores *)

Record DB := mkDB {
  persons : dict UUID PersonRead.t;
  addresses : dict UUID AddressRead.t;
  allergies : dict UUID AllergyRead.t;
  medications : dict UUID MedicationRead.t
}.

(** The state of the process: the stores, and what it reads from outside. *)
Record World := mkWorld { db : DB; env : Env }.

Definition M := ST World.

Definition with_env {A} (m : ST Env A) : M A :=
  fun w => let (r, e) := m (env w) in (r, mkWorld (db w) e).

Definition get_db : M DB := fun w => (Ok (db w), w).

Definition put_db (d : DB) : M unit := fun w => (Ok tt, mkWorld d (env w)).

(** [k in d] and [d[k]] on a store; the subscript of a missing key raises. *)
Definition contains {V} (k : UUID) (d : dict UUID V) : bool :=
  dict_contains N.eqb k d.

Definition subscript {V} (d : dict UUID V) (k : UUID) : M V :=
  match dict_get N.eqb k d with
  | Some v => ret v
  | None => raise KeyError
  end.

(** [persons[k] = v] and its three siblings. *)
Definition set_person (k : UUID) (v : PersonRead.t) : M unit :=
  d <- get_db ;;
  put_db (mkDB (dict_set N.eqb k v (persons d)) (addresses d)
               (allergies d) (medications d)).

Definition set_address (k : UUID) (v : AddressRead.t) : M unit :=
  d <- get_db ;;
  put_db (mkDB (persons d) (dict_set N.eqb k v (addresses d))
               (allergies d) (medications d)).

Definition set_allergy (k : UUID) (v : AllergyRead.t) : M unit :=
  d <- get_db ;;
  put_db (mkDB (persons d) (addresses d)
               (dict_set N.eqb k v (allergies d)) (medications d)).

Definition set_medication (k : UUID) (v : MedicationRead.t) : M unit :=
  d <- get_db ;;
  put_db (mkDB (persons d) (addresses d) (allergies d)
               (dict_set N.eqb k v (medications d))).

(** [results = [x for x in results if p x]] when the query parameter is
    given, [results] as it is when the parameter is [None]. *)
Definition where_ {A P} (param : option P) (p : P -> A -> bool)
    (results : list A) : list A :=
  match param with
  | Some v => filter (p v) results
  | None => results
  end.

(** ** main.py: Address endpoints *)

Definition create_address (address : AddressCreate) : M AddressRead.t :=
  d <- get_db ;;
  if contains (AddressBase.id address) (addresses d) then
    raise (HTTPException 400 "Address with this ID already exists")
  else
    r <- with_env (AddressRead.init (AddressBase.model_dump address)) ;;
    set_address (AddressBase.id address) r ;;;
    d <- get_db ;;
    subscript (addresses d) (AddressBase.id address).

Definition list_addresses
    (street city state postal_code country : option string) (d : DB)
  : list AddressRead.t :=
  let results := dict_values (addresses d) in
  let results :=
    where_ street
      (fun v a => opt_str_eqb (AddressBase.street (AddressRead.base a)) v)
      results in
  let results :=
    where_ city
      (fun v a => opt_str_eqb (AddressBase.city (AddressRead.base a)) v)
      results in
  let results :=
    where_ state
      (fun v a => opt_str_eqb (AddressBase.state (AddressRead.base a)) v)
      results in
  let results :=
    where_ postal_code
      (fun v a => opt_str_eqb (AddressBase.postal_code (AddressRead.base a)) v)
      results in
  let results :=
    where_ country
      (fun v a => opt_str_eqb (AddressBase.country (AddressRead.base a)) v)
      results in
  results.

Definition get_address (address_id : UUID) : M AddressRead.t :=
  d <- get_db ;;
  if negb (contains address_id (addresses d)) then
    raise (HTTPException 404 "Address not found")
  else subscript (addresses d) address_id.

Definition update_address (address_id : UUID) (update : AddressUpdate.t)
  : M AddressRead.t :=
  d <- get_db ;;
  if negb (contains address_id (addresses d)) then
    raise (HTTPException 404 "Address not found")
  else
    r <- subscript (addresses d) address_id ;;
    let stored := AddressRead.model_dump r in
    let stored :=
      dict_update String.eqb stored
        (AddressUpdate.model_dump_exclude_unset update) in
    r' <- with_env (AddressRead.init stored) ;;
    set_address address_id r' ;;;
    d <- get_db ;;
    subscript (addresses d) address_id.

(** ** main.py: Person endpoints *)

Definition create_person (person : PersonCreate) : M PersonRead.t :=
  person_read <- with_env (PersonRead.init (PersonBase.model_dump person)) ;;
  set_person (PersonRead.id person_read) person_read ;;;
  ret person_read.

Definition list_persons
    (uni first_name last_name email phone birth_date city country
       : option string) (d : DB)
  : list PersonRead.t :=
  let results := dict_values (persons d) in
  let results :=
    where_ uni
      (fun v p => opt_str_eqb (PersonBase.uni (PersonRead.base p)) v)
      results in
  let results :=
    where_ first_name
      (fun v p => opt_str_eqb (PersonBase.first_name (PersonRead.base p)) v)
      results in
  let results :=
    where_ last_name
      (fun v p => opt_str_eqb (PersonBase.last_name (PersonRead.base p)) v)
      results in
  let results :=
    where_ email
      (fun v p => opt_str_eqb (PersonBase.email (PersonRead.base p)) v)
      results in
  let results :=
    where_ phone
      (fun v p => opt_str_eqb (PersonBase.phone (PersonRead.base p)) v)
      results in
  let results :=
    where_ birth_date
      (fun v p =>
         String.eqb
           (opt_date_str (PersonBase.birth_date (PersonRead.base p))) v)
      results in
  (* nested address filtering *)
  let results :=
    where_ city
      (fun v p =>
         existsb (fun addr => opt_str_eqb (AddressBase.city addr) v)
           (PersonBase.addresses (PersonRead.base p)))
      results in
  let results :=
    where_ country
      (fun v p =>
         existsb (fun addr => opt_str_eqb (AddressBase.country addr) v)
           (PersonBase.addresses (PersonRead.base p)))
      results in
  results.

Definition get_person (person_id : UUID) : M PersonRead.t :=
  d <- get_db ;;
  if negb (contains person_id (persons d)) then
    raise (HTTPException 404 "Person not found")
  else subscript (persons d) person_id.

Definition update_person (person_id : UUID) (update : PersonUpdate.t)
  : M PersonRead.t :=
  d <- get_db ;;
  if negb (contains person_id (persons d)) then
    raise (HTTPException 404 "Person not found")
  else
    r <- subscript (persons d) person_id ;;
    let stored := PersonRead.model_dump r in
    let stored :=
      dict_update String.eqb stored
        (PersonUpdate.model_dump_exclude_unset update) in
    r' <- with_env (PersonRead.init stored) ;;
    set_person person_id r' ;;;
    d <- get_db ;;
    subscript (persons d) person_id.

(** ** main.py: Allergy endpoints *)

Definition create_allergy (allergy : AllergyCreate) : M AllergyRead.t :=
  d <- get_db ;;
  (* Optional FK presence check *)
  if truthy_uuid (AllergyBase.person_id allergy)
     && negb (contains (AllergyBase.person_id allergy) (persons d)) then
    raise (HTTPException 400 "person_id does not exist")
  else if contains (AllergyBase.id allergy) (allergies d) then
    raise (HTTPException 400 "Allergy with this ID already exists")
  else
    r <- with_env (AllergyRead.init (AllergyBase.model_dump allergy)) ;;
    set_allergy (AllergyBase.id allergy) r ;;;
    d <- get_db ;;
    subscript (allergies d) (AllergyBase.id allergy).

Definition list_allergies
    (person_id : option UUID)
    (allergen allergy_type severity noted_date : option string) (d : DB)
  : list AllergyRead.t :=
  let results := dict_values (allergies d) in
  let results :=
    where_ person_id
      (fun v a => N.eqb (AllergyBase.person_id (AllergyRead.base a)) v)
      results in
  let results :=
    where_ allergen
      (fun v a => String.eqb (AllergyBase.allergen (AllergyRead.base a)) v)
      results in
  let results :=
    where_ allergy_type
      (fun v a =>
         String.eqb
           (AllergyType.str (AllergyBase.allergy_type (AllergyRead.base a))) v)
      results in
  let results :=
    where_ severity
      (fun v a =>
         String.eqb
           (AllergySeverity.str (AllergyBase.severity (AllergyRead.base a))) v)
      results in
  let results :=
    where_ noted_date
      (fun v a =>
         date_and (AllergyBase.noted_date (AllergyRead.base a))
           (fun x => String.eqb (date_str x) v))
      results in
  results.

Definition get_allergy (allergy_id : UUID) : M AllergyRead.t :=
  d <- get_db ;;
  if negb (contains allergy_id (allergies d)) then
    raise (HTTPException 404 "Allergy not found")
  else subscript (allergies d) allergy_id.

Definition update_allergy (allergy_id : UUID) (update : AllergyUpdate.t)
  : M AllergyRead.t :=
  d <- get_db ;;
  if negb (contains allergy_id (allergies d)) then
    raise (HTTPException 404 "Allergy not found")
  else
    r <- subscript (allergies d) allergy_id ;;
    let stored := AllergyRead.model_dump r in
    let stored :=
      dict_update String.eqb stored
        (AllergyUpdate.model_dump_exclude_unset update) in
    r' <- with_env (AllergyRead.init stored) ;;
    set_allergy allergy_id r' ;;;
    d <- get_db ;;
    subscript (allergies d) allergy_id.

(** ** main.py: Medication endpoints *)

Definition create_medication (med : MedicationCreate) : M MedicationRead.t :=
  d <- get_db ;;
  if truthy_uuid (MedicationBase.person_id med)
     && negb (contains (MedicationBase.person_id med) (persons d)) then
    raise (HTTPException 400 "person_id does not exist")
  else if contains (MedicationBase.id med) (medications d) then
    raise (HTTPException 400 "Medication with this ID already exists")
  else
    r <- with_env (MedicationRead.init (MedicationBase.model_dump med)) ;;
    set_medication (MedicationBase.id med) r ;;;
    d <- get_db ;;
    subscript (medications d) (MedicationBase.id med).

Definition list_medications
    (person_id : option UUID) (name frequency : option string)
    (is_current : option bool) (start_date end_date : option string) (d : DB)
  : list MedicationRead.t :=
  let results := dict_values (medications d) in
  let results :=
    where_ person_id
      (fun v m => N.eqb (MedicationBase.person_id (MedicationRead.base m)) v)
      results in
  let results :=
    where_ name
      (fun v m => String.eqb (MedicationBase.name (MedicationRead.base m)) v)
      results in
  let results :=
    where_ frequency
      (fun v m =>
         String.eqb
           (Frequency.str (MedicationBase.frequency (MedicationRead.base m))) v)
      results in
  let results :=
    where_ is_current
      (fun v m =>
         Bool.eqb (MedicationBase.is_current (MedicationRead.base m)) v)
      results in
  let results :=
    where_ start_date
      (fun v m =>
         date_and (MedicationBase.start_date (MedicationRead.base m))
           (fun x => String.eqb (date_str x) v))
      results in
  let results :=
    where_ end_date
      (fun v m =>
         date_and (MedicationBase.end_date (MedicationRead.base m))
           (fun x => String.eqb (date_str x) v))
      results in
  results.

Definition get_medication (medication_id : UUID) : M MedicationRead.t :=
  d <- get_db ;;
  if negb (contains medication_id (medications d)) then
    raise (HTTPException 404 "Medication not found")
  else subscript (medications d) medication_id.

Definition update_medication (medication_id : UUID)
    (update : MedicationUpdate.t) : M MedicationRead.t :=
  d <- get_db ;;
  if negb (contains medication_id (medications d)) then
    raise (HTTPException 404 "Medication not found")
  else
    r <- subscript (medications d) medication_id ;;
    let stored := MedicationRead.model_dump r in
    let stored :=
      dict_update String.eqb stored
        (MedicationUpdate.model_dump_exclude_unset update) in
    r' <- with_env (MedicationRead.init stored) ;;
    set_medication medication_id r' ;;;
    d <- get_db ;;
    subscript (medications d) medication_id.


(** ** Notions used to state the properties *)

(** [l1] is [l2] with some elements left out, the others in their order. *)
Inductive subseq {A} : list A -> list A -> Prop :=
| subseq_nil : subseq [] []
| subseq_skip x l1 l2 : subseq l1 l2 -> subseq l1 (x :: l2)
| subseq_keep x l1 l2 : subseq l1 l2 -> subseq (x :: l1) (x :: l2).

(** A query parameter as a test on one record: no constraint when the
    parameter is not supplied. *)
Definition holds {A P} (param : option P) (p : P -> A -> bool) (a : A) : bool :=
  match param with Some v => p v a | None => true end.

(** The outcome of one field of a merged record: the payload's value when
    the payload gave the field, the stored one otherwise. *)
Definition choose {A} (name : string) (fields_set : list string)
    (new : result A) (old : A) : result A :=
  if is_set name fields_set then new else Ok old.

(** A field whose type does not admit [None]. *)
Definition nonnull {A} (o : option A) : result A :=
  match o with Some a => Ok a | None => Raise ValidationError end.

Definition and_then {A B} (r : result A) (f : A -> result B) : result B :=
  match r with Ok a => f a | Raise e => Raise e end.

Notation "x <~ r ;; k" := (and_then r (fun x => k))
  (at level 100, r at next level, right associativity) : st_scope.

(** The record that [update_allergy] builds from the stored record [r] and
    the payload [u], field by field (see [AllergyRead_init_merged]). *)
Definition AllergyRead_merge (r : AllergyRead.t) (u : AllergyUpdate.t)
  : result AllergyRead.t :=
  let b := AllergyRead.base r in
  let fs := AllergyUpdate.model_fields_set u in
  allergen <~ choose "allergen" fs
                (nonnull (AllergyUpdate.allergen u)) (AllergyBase.allergen b) ;;
  allergy_type <~ choose "allergy_type" fs
                    (nonnull (AllergyUpdate.allergy_type u))
                    (AllergyBase.allergy_type b) ;;
  reaction <~ choose "reaction" fs
                (Ok (AllergyUpdate.reaction u)) (AllergyBase.reaction b) ;;
  severity <~ choose "severity" fs
                (nonnull (AllergyUpdate.severity u)) (AllergyBase.severity b) ;;
  noted_date <~ choose "noted_date" fs
                  (Ok (AllergyUpdate.noted_date u))
                  (AllergyBase.noted_date b) ;;
  Ok (AllergyRead.mk
        (AllergyBase.mk (AllergyBase.id b) (AllergyBase.person_id b)
           allergen allergy_type reaction severity noted_date)
        (AllergyRead.created_at r) (AllergyRead.updated_at r)).

(** The same for [update_medication] (see [MedicationRead_init_merged]). *)
Definition MedicationRead_merge (r : MedicationRead.t) (u : MedicationUpdate.t)
  : result MedicationRead.t :=
  let b := MedicationRead.base r in
  let fs := MedicationUpdate.model_fields_set u in
  name <~ choose "name" fs
            (nonnull (MedicationUpdate.name u)) (MedicationBase.name b) ;;
  dose <~ choose "dose" fs
            (Ok (MedicationUpdate.dose u)) (MedicationBase.dose b) ;;
  dose_unit <~ choose "dose_unit" fs
                 (Ok (MedicationUpdate.dose_unit u))
                 (MedicationBase.dose_unit b) ;;
  frequency <~ choose "frequency" fs
                 (nonnull (MedicationUpdate.frequency u))
                 (MedicationBase.frequency b) ;;
  instructions <~ choose "instructions" fs
                    (Ok (MedicationUpdate.instructions u))
                    (MedicationBase.instructions b) ;;
  start_date <~ choose "start_date" fs
                  (Ok (MedicationUpdate.start_date u))
                  (MedicationBase.start_date b) ;;
  end_date <~ choose "end_date" fs
                (Ok (MedicationUpdate.end_date u))
                (MedicationBase.end_date b) ;;
  is_current <~ choose "is_current" fs
                  (nonnull (MedicationUpdate.is_current u))
                  (MedicationBase.is_current b) ;;
  Ok (MedicationRead.mk
        (MedicationBase.mk (MedicationBase.id b) (MedicationBase.person_id b)
           name dose dose_unit frequency instructions start_date end_date
           is_current)
        (MedicationRead.created_at r) (MedicationRead.updated_at r)).

(** The world after [persons[k] = v], and after the same assignment to each
    of the three other stores. *)
Definition world_set_person (k : UUID) (v : PersonRead.t) (w : World) : World :=
  snd (set_person k v w).

Definition world_set_address (k : UUID) (v : AddressRead.t) (w : World)
  : World := snd (set_address k v w).

Definition world_set_allergy (k : UUID) (v : AllergyRead.t) (w : World)
  : World := snd (set_allergy k v w).

Definition world_set_medication (k : UUID) (v : MedicationRead.t) (w : World)
  : World := snd (set_medication k v w).

(** One field after a merge: the payload's value, [None] included, when the
    payload gave the field; what it was before when it did not.  A field
    whose type does not admit [None] is compared through [Some]. *)
Definition merged_field {A} (name : string) (fields_set : list string)
    (payload before after : option A) : Prop :=
  if is_set name fields_set then after = payload else after = before.

(** No field that the record requires is given as [None]. *)
Definition AllergyUpdate_admissible (u : AllergyUpdate.t) : Prop :=
  let fs := AllergyUpdate.model_fields_set u in
  (is_set "allergen" fs = true -> AllergyUpdate.allergen u <> None)
  /\ (is_set "allergy_type" fs = true -> AllergyUpdate.allergy_type u <> None)
  /\ (is_set "severity" fs = true -> AllergyUpdate.severity u <> None).

Definition MedicationUpdate_admissible (u : MedicationUpdate.t) : Prop :=
  let fs := MedicationUpdate.model_fields_set u in
  (is_set "name" fs = true -> MedicationUpdate.name u <> None)
  /\ (is_set "frequency" fs = true -> MedicationUpdate.frequency u <> None)
  /\ (is_set "is_current" fs = true -> MedicationUpdate.is_current u <> None).

(** What a successful merge makes of each field of an Allergy. *)
Definition allergy_fields_merged (u : AllergyUpdate.t)
    (r r' : AllergyRead.t) : Prop :=
  let fs := AllergyUpdate.model_fields_set u in
  let b := AllergyRead.base r in
  let b' := AllergyRead.base r' in
  merged_field "allergen" fs (AllergyUpdate.allergen u)
    (Some (AllergyBase.allergen b)) (Some (AllergyBase.allergen b'))
  /\ merged_field "allergy_type" fs (AllergyUpdate.allergy_type u)
       (Some (AllergyBase.allergy_type b)) (Some (AllergyBase.allergy_type b'))
  /\ merged_field "reaction" fs (AllergyUpdate.reaction u)
       (AllergyBase.reaction b) (AllergyBase.reaction b')
  /\ merged_field "severity" fs (AllergyUpdate.severity u)
       (Some (AllergyBase.severity b)) (Some (AllergyBase.severity b'))
  /\ merged_field "noted_date" fs (AllergyUpdate.noted_date u)
       (AllergyBase.noted_date b) (AllergyBase.noted_date b').

(** What a successful merge makes of each field of a Medication. *)
Definition medication_fields_merged (u : MedicationUpdate.t)
    (r r' : MedicationRead.t) : Prop :=
  let fs := MedicationUpdate.model_fields_set u in
  let b := MedicationRead.base r in
  let b' := MedicationRead.base r' in
  merged_field "name" fs (MedicationUpdate.name u)
    (Some (MedicationBase.name b)) (Some (MedicationBase.name b'))
  /\ merged_field "dose" fs (MedicationUpdate.dose u)
       (MedicationBase.dose b) (MedicationBase.dose b')
  /\ merged_field "dose_unit" fs (MedicationUpdate.dose_unit u)
       (MedicationBase.dose_unit b) (MedicationBase.dose_unit b')
  /\ merged_field "frequency" fs (MedicationUpdate.frequency u)
       (Some (MedicationBase.frequency b)) (Some (MedicationBase.frequency b'))
  /\ merged_field "instructions" fs (MedicationUpdate.instructions u)
       (MedicationBase.instructions b) (MedicationBase.instructions b')
  /\ merged_field "start_date" fs (MedicationUpdate.start_date u)
       (MedicationBase.start_date b) (MedicationBase.start_date b')
  /\ merged_field "end_date" fs (MedicationUpdate.end_date u)
       (MedicationBase.end_date b) (MedicationBase.end_date b')
  /\ merged_field "is_current" fs (MedicationUpdate.is_current u)
       (Some (MedicationBase.is_current b))
       (Some (MedicationBase.is_current b')).

(** The identifier, the owner reference and the creation timestamp of two
    records are the same. *)
Definition allergy_identity_kept (r r' : AllergyRead.t) : Prop :=
  AllergyBase.id (AllergyRead.base r') = AllergyBase.id (AllergyRead.base r)
  /\ AllergyBase.person_id (AllergyRead.base r')
     = AllergyBase.person_id (AllergyRead.base r)
  /\ AllergyRead.created_at r' = AllergyRead.created_at r.

Definition medication_identity_kept (r r' : MedicationRead.t) : Prop :=
  MedicationBase.id (MedicationRead.base r')
  = MedicationBase.id (MedicationRead.base r)
  /\ MedicationBase.person_id (MedicationRead.base r')
     = MedicationBase.person_id (MedicationRead.base r)
  /\ MedicationRead.created_at r' = MedicationRead.created_at r.

(** A payload that gives [None] for a field the Allergy record requires. *)
Definition AllergyUpdate_required_null (u : AllergyUpdate.t) : Prop :=
  let fs := AllergyUpdate.model_fields_set u in
  (is_set "allergen" fs = true /\ AllergyUpdate.allergen u = None)
  \/ (is_set "allergy_type" fs = true /\ AllergyUpdate.allergy_type u = None)
  \/ (is_set "severity" fs = true /\ AllergyUpdate.severity u = None).

(** ** Sample data *)

Module Sample.
(** The payloads [{"reaction": "Rash"}], [{"reaction": null}], [{}],
    [{"severity": null}] and [{"allergy_type": null}]. *)
Definition reaction_rash : AllergyUpdate.t :=
  AllergyUpdate.mk None None (Some "Rash") None None ["reaction"].
Definition reaction_null : AllergyUpdate.t :=
  AllergyUpdate.mk None None None None None ["reaction"].
Definition nothing : AllergyUpdate.t :=
  AllergyUpdate.mk None None None None None [].
Definition severity_null : AllergyUpdate.t :=
  AllergyUpdate.mk None None None None None ["severity"].
Definition allergy_type_null : AllergyUpdate.t :=
  AllergyUpdate.mk None None None None None ["allergy_type"].

Definition nyc : AddressBase.t :=
  AddressBase.mk 101%N (Some "1 Broadway") (Some "NYC") (Some "NY")
    (Some "10027") (Some "USA").
Definition sf : AddressBase.t :=
  AddressBase.mk 102%N (Some "2 Market St") (Some "SF") (Some "CA")
    (Some "94105") (Some "USA").

Definition ada : PersonCreate :=
  PersonBase.mk 1%N (Some "al1815") (Some "Ada") (Some "Lovelace")
    (Some "ada@example.com") None None [nyc; sf].

Definition peanuts : AllergyCreate :=
  AllergyBase.mk 11%N 1%N "Peanuts" AllergyType.food (Some "Hives, swelling")
    AllergySeverity.severe (Some (mkdate 2023 5 20)).

Definition loratadine : MedicationCreate :=
  MedicationBase.mk 21%N 1%N "Loratadine" (Some 10%float) (Some DoseUnit.mg)
    Frequency.once_daily (Some "Take in the morning.")
    (Some (mkdate 2025 3 1)) None true.

Definition dose_5ml : MedicationUpdate.t :=
  MedicationUpdate.mk None (Some 5%float) (Some DoseUnit.mL) None None None
    None None ["dose"; "dose_unit"].

(** A fresh process whose clock advances by one microsecond between any
    two of its first readings. *)
Definition start : World :=
  mkWorld (mkDB [] [] [] []) (mkEnv 0%Z [1; 1; 1; 1; 1; 1; 1; 1]%N []).

Definition after {A} (m : M A) (w : World) : World := snd (m w).

(** Ada is created, then her allergy and her medication. *)
Definition clinic : World :=
  after (create_medication loratadine)
    (after (create_allergy peanuts) (after (create_person ada) start)).

(** The same stores, read when the clock shows 1000. *)
Definition later : World :=
  mkWorld (db clinic) (mkEnv 1000%Z [1; 1]%N []).

(** A second allergy under the identifier of the first, whose owner
    reference resolves to no Person. *)
Definition orphan : AllergyCreate :=
  AllergyBase.mk 11%N 99%N "Latex" AllergyType.other None
    AllergySeverity.mild None.

(** A second allergy of Ada. *)
Definition pollen : AllergyCreate :=
  AllergyBase.mk 12%N 1%N "Pollen" AllergyType.environment None
    AllergySeverity.mild None.

(** A second Person under Ada's identifier. *)
Definition augusta : PersonCreate :=
  PersonBase.mk 1%N (Some "ab1815") (Some "Augusta") (Some "Byron")
    (Some "augusta@example.com") None None [].

(** Two medications of the same name, one current and one not. *)
Definition x_current : MedicationCreate :=
  MedicationBase.mk 31%N 1%N "X" None None Frequency.as_needed None None
    None true.
Definition x_stopped : MedicationCreate :=
  MedicationBase.mk 32%N 1%N "X" None None Frequency.as_needed None None
    None false.

Definition pharmacy : World :=
  after (create_medication x_stopped)
    (after (create_medication x_current) clinic).
End Sample.

(** ** The filters, as the specification words them

    A record is listed when it satisfies every supplied pair of a field and
    an expected value; a pair that is not supplied constrains nothing. *)

Definition supplied {P} (param : option P) (test : P -> bool) : bool :=
  match param with Some v => test v | None => true end.

(** An optional date equals an expected calendar-date string: never when
    the date is absent. *)
Definition date_is (x : option date) (v : string) : bool :=
  match x with Some d => String.eqb (date_str d) v | None => false end.

Definition allergy_matches
    (person_id : option UUID)
    (allergen allergy_type severity noted_date : option string)
    (r : AllergyRead.t) : bool :=
  let a := AllergyRead.base r in
  supplied person_id (N.eqb (AllergyBase.person_id a))
  && supplied allergen (String.eqb (AllergyBase.allergen a))
  && supplied allergy_type
       (String.eqb (AllergyType.str (AllergyBase.allergy_type a)))
  && supplied severity
       (String.eqb (AllergySeverity.str (AllergyBase.severity a)))
  && supplied noted_date (date_is (AllergyBase.noted_date a)).

Definition allergy_satisfies
    (person_id : option UUID)
    (allergen allergy_type severity noted_date : option string)
    (r : AllergyRead.t) : Prop :=
  let a := AllergyRead.base r in
  (forall v, person_id = Some v -> AllergyBase.person_id a = v)
  /\ (forall v, allergen = Some v -> AllergyBase.allergen a = v)
  /\ (forall v, allergy_type = Some v ->
        AllergyType.str (AllergyBase.allergy_type a) = v)
  /\ (forall v, severity = Some v ->
        AllergySeverity.str (AllergyBase.severity a) = v)
  /\ (forall v, noted_date = Some v ->
        exists d, AllergyBase.noted_date a = Some d /\ date_str d = v).

Definition medication_matches
    (person_id : option UUID) (name frequency : option string)
    (is_current : option bool) (start_date end_date : option string)
    (r : MedicationRead.t) : bool :=
  let m := MedicationRead.base r in
  supplied person_id (N.eqb (MedicationBase.person_id m))
  && supplied name (String.eqb (MedicationBase.name m))
  && supplied frequency
       (String.eqb (Frequency.str (MedicationBase.frequency m)))
  && supplied is_current (Bool.eqb (MedicationBase.is_current m))
  && supplied start_date (date_is (MedicationBase.start_date m))
  && supplied end_date (date_is (MedicationBase.end_date m)).

Definition medication_satisfies
    (person_id : option UUID) (name frequency : option string)
    (is_current : option bool) (start_date end_date : option string)
    (r : MedicationRead.t) : Prop :=
  let m := MedicationRead.base r in
  (forall v, person_id = Some v -> MedicationBase.person_id m = v)
  /\ (forall v, name = Some v -> MedicationBase.name m = v)
  /\ (forall v, frequency = Some v ->
        Frequency.str (MedicationBase.frequency m) = v)
  /\ (forall v, is_current = Some v -> MedicationBase.is_current m = v)
  /\ (forall v, start_date = Some v ->
        exists d, MedicationBase.start_date m = Some d /\ date_str d = v)
  /\ (forall v, end_date = Some v ->
        exists d, MedicationBase.end_date m = Some d /\ date_str d = v).

Definition address_matches
    (street city state postal_code country : option string)
    (r : AddressRead.t) : bool :=
  let a := AddressRead.base r in
  supplied street (opt_str_eqb (AddressBase.street a))
  && supplied city (opt_str_eqb (AddressBase.city a))
  && supplied state (opt_str_eqb (AddressBase.state a))
  && supplied postal_code (opt_str_eqb (AddressBase.postal_code a))
  && supplied country (opt_str_eqb (AddressBase.country a)).

Definition address_satisfies
    (street city state postal_code country : option string)
    (r : AddressRead.t) : Prop :=
  let a := AddressRead.base r in
  (forall v, street = Some v -> AddressBase.street a = Some v)
  /\ (forall v, city = Some v -> AddressBase.city a = Some v)
  /\ (forall v, state = Some v -> AddressBase.state a = Some v)
  /\ (forall v, postal_code = Some v -> AddressBase.postal_code a = Some v)
  /\ (forall v, country = Some v -> AddressBase.country a = Some v).

(** Some embedded address of the Person has the city, or the country. *)
Definition has_city (p : PersonRead.t) (v : string) : Prop :=
  exists addr, In addr (PersonBase.addresses (PersonRead.base p))
               /\ AddressBase.city addr = Some v.

Definition has_country (p : PersonRead.t) (v : string) : Prop :=
  exists addr, In addr (PersonBase.addresses (PersonRead.base p))
               /\ AddressBase.country addr = Some v.

(** ** Requests

    The routes of the service, and the state after one is served and after
    a sequence of them.  The four list routes only read the stores. *)
Inductive request :=
| POST_addresses (address : AddressCreate)
| GET_addresses (street city state postal_code country : option string)
| GET_address (address_id : UUID)
| PATCH_address (address_id : UUID) (update : AddressUpdate.t)
| POST_persons (person : PersonCreate)
| GET_persons (uni first_name last_name email phone birth_date city country
                 : option string)
| GET_person (person_id : UUID)
| PATCH_person (person_id : UUID) (update : PersonUpdate.t)
| POST_allergies (allergy : AllergyCreate)
| GET_allergies (person_id : option UUID)
    (allergen allergy_type severity noted_date : option string)
| GET_allergy (allergy_id : UUID)
| PATCH_allergy (allergy_id : UUID) (update : AllergyUpdate.t)
| POST_medications (med : MedicationCreate)
| GET_medications (person_id : option UUID) (name frequency : option string)
    (is_current : option bool) (start_date end_date : option string)
| GET_medication (medication_id : UUID)
| PATCH_medication (medication_id : UUID) (update : MedicationUpdate.t).

Definition serve (rq : request) (w : World) : World :=
  match rq with
  | POST_addresses a => snd (create_address a w)
  | GET_addresses _ _ _ _ _ => w
  | GET_address k => snd (get_address k w)
  | PATCH_address k u => snd (update_address k u w)
  | POST_persons p => snd (create_person p w)
  | GET_persons _ _ _ _ _ _ _ _ => w
  | GET_person k => snd (get_person k w)
  | PATCH_person k u => snd (update_person k u w)
  | POST_allergies a => snd (create_allergy a w)
  | GET_allergies _ _ _ _ _ => w
  | GET_allergy k => snd (get_allergy k w)
  | PATCH_allergy k u => snd (update_allergy k u w)
  | POST_medications m => snd (create_medication m w)
  | GET_medications _ _ _ _ _ _ => w
  | GET_medication k => snd (get_medication k w)
  | PATCH_medication k u => snd (update_medication k u w)
  end.

Definition run (rqs : list request) (w : World) : World :=
  fold_left (fun w rq => serve rq w) rqs w.

(** [l'] is [l] followed by further elements. *)
Definition extends {A} (l l' : list A) : Prop := exists t, l' = l ++ t.

(** Every key of every store of [d] is in the same store of [d'], at the
    same place. *)
Definition keys_extend (d d' : DB) : Prop :=
  extends (dict_keys (persons d)) (dict_keys (persons d'))
  /\ extends (dict_keys (addresses d)) (dict_keys (addresses d'))
  /\ extends (dict_keys (allergies d)) (dict_keys (allergies d'))
  /\ extends (dict_keys (medications d)) (dict_keys (medications d')).


(** Every stored record was last updated at or after its creation. *)
Definition timestamps_ordered (d : DB) : Prop :=
  Forall (fun r => (PersonRead.created_at r <= PersonRead.updated_at r)%Z)
    (dict_values (persons d))
  /\ Forall (fun r => (AddressRead.created_at r <= AddressRead.updated_at r)%Z)
       (dict_values (addresses d))
  /\ Forall (fun r => (AllergyRead.created_at r <= AllergyRead.updated_at r)%Z)
       (dict_values (allergies d))
  /\ Forall
       (fun r => (MedicationRead.created_at r <= MedicationRead.updated_at r)%Z)
       (dict_values (medications d)).

(** Every store holds each key once, as a Python [dict] does. *)
Definition keys_unique (d : DB) : Prop :=
  NoDup (dict_keys (persons d))
  /\ NoDup (dict_keys (addresses d))
  /\ NoDup (dict_keys (allergies d))
  /\ NoDup (dict_keys (medications d)).

(** ** Further notions: the rest of the models and of the endpoints *)

(** The constructor [MedicationUpdate], called with keyword arguments that
    are [None] or have the Python type of their field, as the dump of a
    payload gives them.  The conversions pydantic makes from other Python
    values (an ISO string for a [date], an [int] for a [float]) are not
    modelled, such an argument is refused here, and the constructor is used
    on typed arguments only. *)
Definition MedicationUpdate_init (kw : pydict) : result MedicationUpdate.t :=
  match opt_field kw "name" as_str,
        opt_field kw "dose" as_float,
        opt_field kw "dose_unit" (as_literal DoseUnit.of_str),
        opt_field kw "frequency" (as_literal Frequency.of_str),
        opt_field kw "instructions" as_str,
        opt_field kw "start_date" as_date,
        opt_field kw "end_date" as_date,
        opt_field kw "is_current" as_bool with
  | Ok (n, sn), Ok (d, sd), Ok (du, sdu), Ok (f, sf), Ok (i, si),
    Ok (s, ss), Ok (e, se), Ok (c, sc) =>
      Ok (MedicationUpdate.mk n d du f i s e c
            (sn ++ sd ++ sdu ++ sf ++ si ++ ss ++ se ++ sc))
  | _, _, _, _, _, _, _, _ => Raise ValidationError
  end.

(** The field names of the two update payloads, in declaration order. *)
Definition AllergyUpdate_fields : list string :=
  ["allergen"; "allergy_type"; "reaction"; "severity"; "noted_date"].

Definition MedicationUpdate_fields : list string :=
  ["name"; "dose"; "dose_unit"; "frequency"; "instructions"; "start_date";
   "end_date"; "is_current"].

(** A payload as its constructor builds it: [model_fields_set] names fields
    of the model, each once and in declaration order, and a field that was
    not given holds its default [None]. *)
Definition AllergyUpdate_built (u : AllergyUpdate.t) : Prop :=
  let fs := AllergyUpdate.model_fields_set u in
  fs = filter (fun k => is_set k fs) AllergyUpdate_fields
  /\ (is_set "allergen" fs = false -> AllergyUpdate.allergen u = None)
  /\ (is_set "allergy_type" fs = false -> AllergyUpdate.allergy_type u = None)
  /\ (is_set "reaction" fs = false -> AllergyUpdate.reaction u = None)
  /\ (is_set "severity" fs = false -> AllergyUpdate.severity u = None)
  /\ (is_set "noted_date" fs = false -> AllergyUpdate.noted_date u = None).

Definition MedicationUpdate_built (u : MedicationUpdate.t) : Prop :=
  let fs := MedicationUpdate.model_fields_set u in
  fs = filter (fun k => is_set k fs) MedicationUpdate_fields
  /\ (is_set "name" fs = false -> MedicationUpdate.name u = None)
  /\ (is_set "dose" fs = false -> MedicationUpdate.dose u = None)
  /\ (is_set "dose_unit" fs = false -> MedicationUpdate.dose_unit u = None)
  /\ (is_set "frequency" fs = false -> MedicationUpdate.frequency u = None)
  /\ (is_set "instructions" fs = false ->
      MedicationUpdate.instructions u = None)
  /\ (is_set "start_date" fs = false -> MedicationUpdate.start_date u = None)
  /\ (is_set "end_date" fs = false -> MedicationUpdate.end_date u = None)
  /\ (is_set "is_current" fs = false -> MedicationUpdate.is_current u = None).

(** The Python types of the fields of the two update payloads, as their
    annotations give them inside [Optional[...]]. *)
Inductive pytype :=
| TStr
| TFloat
| TBool
| TDate
| TLiteral (allowed : list string).

Definition AllergySeverity_literal : list string :=
  ["mild"; "moderate"; "severe"].

Definition AllergyType_literal : list string :=
  ["drug"; "food"; "environment"; "other"].

Definition DoseUnit_literal : list string :=
  ["mg"; "mcg"; "g"; "mL"; "units"; "puffs"; "drops"].

Definition Frequency_literal : list string :=
  ["once_daily"; "twice_daily"; "three_times_daily"; "as_needed"; "other"].

(** [isinstance(v, t)]; for a [Literal], [v] is one of the listed
    strings. *)
Definition isinstance (v : value) (t : pytype) : bool :=
  match t, v with
  | TStr, VStr _ => true
  | TFloat, VFloat _ => true
  | TBool, VBool _ => true
  | TDate, VDate _ => true
  | TLiteral allowed, VStr s => existsb (String.eqb s) allowed
  | _, _ => false
  end.

(** The keyword argument [name] of a field annotated [Optional[t]] is not
    given, is [None], or is an instance of [t]. *)
Definition optional_kw (kw : pydict) (name : string) (t : pytype) : bool :=
  match kw_get name kw with
  | None => true
  | Some VNone => true
  | Some v => isinstance v t
  end.

(** Keyword arguments whose values, for the fields of the payload, are
    [None] or of the type of the field; other keywords are free. *)
Definition AllergyUpdate_typed (kw : pydict) : bool :=
  optional_kw kw "allergen" TStr
  && optional_kw kw "allergy_type" (TLiteral AllergyType_literal)
  && optional_kw kw "reaction" TStr
  && optional_kw kw "severity" (TLiteral AllergySeverity_literal)
  && optional_kw kw "noted_date" TDate.

Definition MedicationUpdate_typed (kw : pydict) : bool :=
  optional_kw kw "name" TStr
  && optional_kw kw "dose" TFloat
  && optional_kw kw "dose_unit" (TLiteral DoseUnit_literal)
  && optional_kw kw "frequency" (TLiteral Frequency_literal)
  && optional_kw kw "instructions" TStr
  && optional_kw kw "start_date" TDate
  && optional_kw kw "end_date" TDate
  && optional_kw kw "is_current" TBool.

(** A payload that gives [None] for a field the Medication record
    requires. *)
Definition MedicationUpdate_required_null (u : MedicationUpdate.t) : Prop :=
  let fs := MedicationUpdate.model_fields_set u in
  (is_set "name" fs = true /\ MedicationUpdate.name u = None)
  \/ (is_set "frequency" fs = true /\ MedicationUpdate.frequency u = None)
  \/ (is_set "is_current" fs = true /\ MedicationUpdate.is_current u = None).

(** A payload that gives no field of the model. *)
Definition AllergyUpdate_gives_nothing (u : AllergyUpdate.t) : Prop :=
  forall k, In k AllergyUpdate_fields ->
            is_set k (AllergyUpdate.model_fields_set u) = false.

Definition MedicationUpdate_gives_nothing (u : MedicationUpdate.t) : Prop :=
  forall k, In k MedicationUpdate_fields ->
            is_set k (MedicationUpdate.model_fields_set u) = false.

(** The dates that [datetime.date] can hold have a year from 1 to 9999, a
    month from 1 to 12 and a day from 1 to at most 31. *)
Definition date_in_range (d : date) : Prop :=
  1 <= year d < 100 * 100 /\ 1 <= month d <= 12 /\ 1 <= day d <= 31.

(** A query that asks for no more than another: each parameter is either
    not supplied or the one of the other. *)
Definition asks_less {P} (p' p : option P) : Prop := p' = None \/ p' = p.

(** Every stored Allergy and Medication refers to a stored Person. *)
Definition owners_exist (d : DB) : Prop :=
  Forall (fun r => contains (AllergyBase.person_id (AllergyRead.base r))
                     (persons d) = true)
    (dict_values (allergies d))
  /\ Forall
       (fun r => contains (MedicationBase.person_id (MedicationRead.base r))
                   (persons d) = true)
       (dict_values (medications d)).

(** Every Allergy and Medication is stored under its own identifier. *)
Definition keyed_by_id (d : DB) : Prop :=
  Forall (fun kv => AllergyBase.id (AllergyRead.base (snd kv)) = fst kv)
    (allergies d)
  /\ Forall
       (fun kv => MedicationBase.id (MedicationRead.base (snd kv)) = fst kv)
       (medications d).

(** A fresh process: the four stores are empty. *)
Definition empty_db : DB := mkDB [] [] [] [].

(** What one request can do to the stores: nothing; one assignment to the
    Person or to the Address store; the addition of a new Allergy or
    Medication whose owner is stored; or the replacement of a stored
    Allergy or Medication by its merge with an update payload. *)
Inductive db_step (d : DB) : DB -> Prop :=
| step_none : db_step d d
| step_person k r :
    db_step d
      (mkDB (dict_set N.eqb k r (persons d)) (addresses d) (allergies d)
         (medications d))
| step_address k r :
    db_step d
      (mkDB (persons d) (dict_set N.eqb k r (addresses d)) (allergies d)
         (medications d))
| step_allergy_created (a : AllergyCreate) c u :
    contains (AllergyBase.person_id a) (persons d) = true ->
    contains (AllergyBase.id a) (allergies d) = false ->
    db_step d
      (mkDB (persons d) (addresses d)
         (dict_set N.eqb (AllergyBase.id a) (AllergyRead.mk a c u)
            (allergies d))
         (medications d))
| step_allergy_updated k r0 r u :
    dict_get N.eqb k (allergies d) = Some r0 ->
    AllergyRead_merge r0 u = Ok r ->
    db_step d
      (mkDB (persons d) (addresses d) (dict_set N.eqb k r (allergies d))
         (medications d))
| step_medication_created (m : MedicationCreate) c u :
    contains (MedicationBase.person_id m) (persons d) = true ->
    contains (MedicationBase.id m) (medications d) = false ->
    db_step d
      (mkDB (persons d) (addresses d) (allergies d)
         (dict_set N.eqb (MedicationBase.id m) (MedicationRead.mk m c u)
            (medications d)))
| step_medication_updated k r0 r u :
    dict_get N.eqb k (medications d) = Some r0 ->
    MedicationRead_merge r0 u = Ok r ->
    db_step d
      (mkDB (persons d) (addresses d) (allergies d)
         (dict_set N.eqb k r (medications d))).

(** The identifier, the owner and the two timestamps of a stored Allergy
    or Medication. *)
Definition allergy_fixed_fields (r : AllergyRead.t)
  : UUID * UUID * datetime * datetime :=
  (AllergyBase.id (AllergyRead.base r),
   AllergyBase.person_id (AllergyRead.base r),
   AllergyRead.created_at r, AllergyRead.updated_at r).

Definition medication_fixed_fields (r : MedicationRead.t)
  : UUID * UUID * datetime * datetime :=
  (MedicationBase.id (MedicationRead.base r),
   MedicationBase.person_id (MedicationRead.base r),
   MedicationRead.created_at r, MedicationRead.updated_at r).
(** * Properties *)

(** ** Dictionaries *)

Section DictFacts.
Variables K V : Type.
Variable eqb : K -> K -> bool.
Hypothesis eqb_eq : forall a b, eqb a b = true <-> a = b.

Lemma eqb_refl' (k : K) : eqb k k = true.
Proof. now apply eqb_eq. Qed.

Lemma eqb_neq (a b : K) : a <> b -> eqb a b = false.
Proof.
  intros Hab. destruct (eqb a b) eqn:E; [|reflexivity].
  apply eqb_eq in E. contradiction.
Qed.

Lemma dict_get_None (k : K) (d : dict K V) :
  dict_get eqb k d = None <-> ~ In k (dict_keys d).
Proof.
  induction d as [|[k' v] r IH]; simpl.
  - tauto.
  - destruct (eqb k k') eqn:E.
    + apply eqb_eq in E. subst. split; [discriminate | tauto].
    + rewrite IH. split.
      * intros Hn [Hk | Hk]; [|tauto].
        subst. rewrite eqb_refl' in E. discriminate.
      * tauto.
Qed.

Lemma dict_get_In (k : K) (v : V) (d : dict K V) :
  dict_get eqb k d = Some v -> In v (dict_values d).
Proof.
  induction d as [|[k' v'] r IH]; simpl; [discriminate|].
  destruct (eqb k k'); intros H.
  - left. congruence.
  - right. auto.
Qed.

Lemma dict_get_set_same (k : K) (v : V) (d : dict K V) :
  dict_get eqb k (dict_set eqb k v d) = Some v.
Proof.
  induction d as [|[k' v'] r IH]; simpl.
  - now rewrite eqb_refl'.
  - destruct (eqb k k') eqn:E; simpl; rewrite E; auto.
Qed.

Lemma dict_get_set_other (k k0 : K) (v : V) (d : dict K V) :
  k0 <> k -> dict_get eqb k0 (dict_set eqb k v d) = dict_get eqb k0 d.
Proof.
  intros Hne. induction d as [|[k' v'] r IH]; simpl.
  - now rewrite eqb_neq.
  - destruct (eqb k k') eqn:E; simpl.
    + apply eqb_eq in E. subst. now rewrite eqb_neq.
    + now rewrite IH.
Qed.

(** Assigning to a key that is present keeps every key where it is. *)
Lemma dict_keys_set_present (k : K) (v : V) (d : dict K V) :
  dict_contains eqb k d = true ->
  dict_keys (dict_set eqb k v d) = dict_keys d.
Proof.
  unfold dict_contains.
  induction d as [|[k' v'] r IH]; simpl; [discriminate|].
  destruct (eqb k k') eqn:E; simpl; [reflexivity|].
  intros H. now rewrite IH.
Qed.

(** Assigning to a new key adds the entry at the end. *)
Lemma dict_set_absent (k : K) (v : V) (d : dict K V) :
  dict_contains eqb k d = false -> dict_set eqb k v d = d ++ [(k, v)].
Proof.
  unfold dict_contains.
  induction d as [|[k' v'] r IH]; simpl; [reflexivity|].
  destruct (eqb k k') eqn:E; [discriminate|].
  intros H. now rewrite IH.
Qed.

(** In either case the keys that were there stay, in their order. *)
Lemma dict_keys_set (k : K) (v : V) (d : dict K V) :
  exists t, dict_keys (dict_set eqb k v d) = dict_keys d ++ t.
Proof.
  destruct (dict_contains eqb k d) eqn:E.
  - exists []. rewrite dict_keys_set_present by assumption.
    now rewrite app_nil_r.
  - exists [k]. rewrite dict_set_absent by assumption.
    unfold dict_keys. now rewrite map_app.
Qed.

Lemma dict_keys_set_NoDup (k : K) (v : V) (d : dict K V) :
  NoDup (dict_keys d) -> NoDup (dict_keys (dict_set eqb k v d)).
Proof.
  intros Hd. destruct (dict_contains eqb k d) eqn:E.
  - now rewrite dict_keys_set_present.
  - rewrite dict_set_absent by assumption.
    unfold dict_keys. rewrite map_app. simpl.
    apply NoDup_app; [assumption | repeat constructor; simpl; tauto |].
    intros x Hx [Hk | []]. subst x.
    unfold dict_contains in E.
    destruct (dict_get eqb k d) eqn:G; [discriminate|].
    now apply dict_get_None in G.
Qed.

Lemma dict_get_filter (p : K -> bool) (k : K) (d : dict K V) :
  dict_get eqb k (filter (fun kv => p (fst kv)) d)
  = if p k then dict_get eqb k d else None.
Proof.
  induction d as [|[k' v] r IH]; simpl.
  - now destruct (p k).
  - destruct (p k') eqn:P; simpl.
    + destruct (eqb k k') eqn:E; [|exact IH].
      apply eqb_eq in E. subst. now rewrite P.
    + rewrite IH. destruct (eqb k k') eqn:E; [|reflexivity].
      apply eqb_eq in E. subst. now rewrite P.
Qed.

Lemma dict_keys_filter_NoDup (p : K * V -> bool) (d : dict K V) :
  NoDup (dict_keys d) -> NoDup (dict_keys (filter p d)).
Proof.
  unfold dict_keys.
  induction d as [|[k v] r IH]; simpl; intros H; [constructor|].
  inversion H as [|? ? Hn Hr]; subst.
  destruct (p (k, v)); simpl; auto.
  constructor; auto.
  intros Hin. apply Hn.
  apply in_map_iff in Hin. destruct Hin as [x [Hx Hf]].
  apply filter_In in Hf. apply in_map_iff. exists x. tauto.
Qed.

(** [d.update(other)], one key at a time, when [other] has each key once. *)
Lemma dict_get_update (k : K) (d other : dict K V) :
  NoDup (dict_keys other) ->
  dict_get eqb k (dict_update eqb d other)
  = match dict_get eqb k other with
    | Some v => Some v
    | None => dict_get eqb k d
    end.
Proof.
  unfold dict_update. revert d.
  induction other as [|[k' v'] r IH]; intros d Hnd; simpl; [reflexivity|].
  inversion Hnd as [|? ? Hn Hr]; subst.
  rewrite IH by assumption.
  destruct (eqb k k') eqn:E.
  - apply eqb_eq in E. subst k'.
    assert (G : dict_get eqb k r = None) by now apply dict_get_None.
    rewrite G. apply dict_get_set_same.
  - destruct (dict_get eqb k r); [reflexivity|].
    apply dict_get_set_other. intros ->. rewrite eqb_refl' in E.
    discriminate.
Qed.
End DictFacts.

Arguments dict_get_None {K V eqb} eqb_eq k d.
Arguments dict_get_set_same {K V eqb} eqb_eq k v d.
Arguments dict_get_set_other {K V eqb} eqb_eq k k0 v d.
Arguments dict_keys_set_present {K V eqb} k v d.
Arguments dict_set_absent {K V eqb} k v d.
Arguments dict_keys_set {K V eqb} k v d.
Arguments dict_keys_set_NoDup {K V eqb} eqb_eq k v d.

(** ** Lists: filters and subsequences *)

Lemma subseq_refl {A} (l : list A) : subseq l l.
Proof. induction l; [constructor | now apply subseq_keep]. Qed.

Lemma subseq_trans {A} (l1 l2 l3 : list A) :
  subseq l1 l2 -> subseq l2 l3 -> subseq l1 l3.
Proof.
  intros H12 H23. revert l1 H12.
  induction H23; intros l0 H12.
  - assumption.
  - constructor. auto.
  - inversion H12; subst.
    + apply subseq_skip. auto.
    + apply subseq_keep. auto.
Qed.

Lemma filter_subseq {A} (p : A -> bool) (l : list A) : subseq (filter p l) l.
Proof.
  induction l as [|x l IH]; simpl; [constructor|].
  destruct (p x); [now apply subseq_keep | now apply subseq_skip].
Qed.

Lemma filter_filter {A} (p q : A -> bool) (l : list A) :
  filter p (filter q l) = filter (fun x => q x && p x) l.
Proof.
  induction l as [|x l IH]; simpl; [reflexivity|].
  destruct (q x); simpl; [destruct (p x)|]; now rewrite IH.
Qed.

Lemma where_filter {A P} (param : option P) (p : P -> A -> bool) (l : list A) :
  where_ param p l = filter (holds param p) l.
Proof.
  destruct param; simpl; [reflexivity|].
  induction l as [|x l IH]; simpl; congruence.
Qed.

Lemma where_subseq {A P} (param : option P) (p : P -> A -> bool) (l : list A) :
  subseq (where_ param p l) l.
Proof. rewrite where_filter. apply filter_subseq. Qed.

(** ** The clock and the state monad *)

Lemma utcnow_spec (e : Env) :
  exists t e',
    utcnow e = (Ok t, e') /\ (now e <= t)%Z /\ now e' = t.
Proof.
  unfold utcnow. destruct (ticks e) as [|d r].
  - exists (now e), e. repeat split. lia.
  - eexists _, _. split; [reflexivity|]. simpl. split; [lia | reflexivity].
Qed.

Lemma bind_lift_result {S A B} (r : result A) (f : A -> ST S B) (s : S) :
  bind (lift_result r) f s
  = match r with Ok a => f a s | Raise e => (Raise e, s) end.
Proof. unfold bind, lift_result. now destruct r. Qed.

Lemma bind_ret {S A B} (a : A) (f : A -> ST S B) (s : S) :
  bind (ret a) f s = f a s.
Proof. reflexivity. Qed.

Lemma bind_raise {S A B} (x : exn) (f : A -> ST S B) (s : S) :
  bind (raise x) f s = (Raise x, s).
Proof. reflexivity. Qed.

Lemma bind_get_db {B} (f : DB -> M B) (w : World) :
  bind get_db f w = f (db w) w.
Proof. reflexivity. Qed.

Lemma bind_with_env {A B} (m : ST Env A) (f : A -> M B) (w : World) :
  bind (with_env m) f w
  = match m (env w) with
    | (Ok a, e) => f a (mkWorld (db w) e)
    | (Raise x, e) => (Raise x, mkWorld (db w) e)
    end.
Proof.
  unfold bind, with_env. now destruct (m (env w)) as [[a|x] e].
Qed.

Lemma world_eta (w : World) : mkWorld (db w) (env w) = w.
Proof. now destruct w. Qed.

Lemma db_eta (d : DB) :
  mkDB (persons d) (addresses d) (allergies d) (medications d) = d.
Proof. now destruct d. Qed.

(** ** Validation of dumped values *)

Lemma AllergyType_roundtrip (x : AllergyType.t) :
  as_literal AllergyType.of_str (VStr (AllergyType.str x)) = Ok x.
Proof. now destruct x. Qed.

Lemma AllergySeverity_roundtrip (x : AllergySeverity.t) :
  as_literal AllergySeverity.of_str (VStr (AllergySeverity.str x)) = Ok x.
Proof. now destruct x. Qed.

Lemma DoseUnit_roundtrip (x : DoseUnit.t) :
  as_literal DoseUnit.of_str (VStr (DoseUnit.str x)) = Ok x.
Proof. now destruct x. Qed.

Lemma Frequency_roundtrip (x : Frequency.t) :
  as_literal Frequency.of_str (VStr (Frequency.str x)) = Ok x.
Proof. now destruct x. Qed.

Lemma as_optional_roundtrip {A} (inj : A -> value) (f : value -> result A)
    (o : option A) :
  (forall a, f (inj a) = Ok a) ->
  (forall a, inj a <> VNone) ->
  as_optional f (dump_opt inj o) = Ok o.
Proof.
  intros Hf Hn. destruct o as [a|]; simpl; [|reflexivity].
  unfold as_optional. specialize (Hf a). specialize (Hn a).
  destruct (inj a); try contradiction; now rewrite Hf.
Qed.

Lemma field_given {A} (kw : pydict) (name : string) (v : value)
    (validate : value -> result A) (default : ST Env A) :
  kw_get name kw = Some v ->
  field kw name validate default = lift_result (validate v).
Proof. unfold field. now intros ->. Qed.

Lemma field_missing {A} (kw : pydict) (name : string)
    (validate : value -> result A) (default : ST Env A) :
  kw_get name kw = None ->
  field kw name validate default = default.
Proof. unfold field. now intros ->. Qed.

(** ** Small checks of the embedding *)

Example date_str_iso : date_str (mkdate 2023 5 20) = "2023-05-20".
Proof. reflexivity. Qed.

Example date_str_padded : date_str (mkdate 987 1 2) = "0987-01-02".
Proof. reflexivity. Qed.

Example payloads_as_given :
  AllergyUpdate.init [("reaction", VStr "Rash")] = Ok Sample.reaction_rash
  /\ AllergyUpdate.init [("reaction", VNone)] = Ok Sample.reaction_null
  /\ AllergyUpdate.init [] = Ok Sample.nothing
  /\ AllergyUpdate.init [("severity", VStr "extreme")] = Raise ValidationError.
Proof. repeat split; reflexivity. Qed.

Example exclude_unset_dumps :
  AllergyUpdate.model_dump_exclude_unset Sample.reaction_rash
  = [("reaction", VStr "Rash")]
  /\ AllergyUpdate.model_dump_exclude_unset Sample.reaction_null
     = [("reaction", VNone)]
  /\ AllergyUpdate.model_dump_exclude_unset Sample.nothing = [].
Proof. repeat split; reflexivity. Qed.

Example list_allergies_noted_date :
  map (fun r => AllergyBase.allergen (AllergyRead.base r))
    (list_allergies None None None None (Some "2023-05-20")
       (db Sample.clinic)) = ["Peanuts"]
  /\ list_allergies None None None None (Some "2023-5-20") (db Sample.clinic)
     = [].
Proof. split; reflexivity. Qed.

(** ** The merged keyword arguments of an update *)

Section Merged.
Variables stored upd : pydict.
Variable fs : list string.
Hypothesis upd_keys : NoDup (dict_keys upd).

Let kw := dict_update String.eqb stored (exclude_unset fs upd).

Lemma kw_get_merged (k : string) :
  kw_get k kw
  = if is_set k fs
    then match kw_get k upd with Some v => Some v | None => kw_get k stored end
    else kw_get k stored.
Proof.
  unfold kw, kw_get, exclude_unset.
  rewrite (@dict_get_update _ _ String.eqb String.eqb_eq).
  - rewrite (@dict_get_filter _ _ String.eqb String.eqb_eq
             (fun k => is_set k fs)).
    now destruct (is_set k fs).
  - now apply dict_keys_filter_NoDup.
Qed.

(** A field the payload's schema does not have keeps the stored value. *)
Lemma field_kept {A} (k : string) (v : value) (a : A)
    (validate : value -> result A) (default : ST Env A) :
  kw_get k upd = None ->
  kw_get k stored = Some v ->
  validate v = Ok a ->
  field kw k validate default = lift_result (Ok a).
Proof.
  intros Hu Hs Hv.
  rewrite (@field_given _ _ _ v).
  - now rewrite Hv.
  - rewrite kw_get_merged, Hu, Hs. now destruct (is_set k fs).
Qed.

(** A field of the payload's schema whose type in the record does not
    admit [None]. *)
Lemma field_merged_nonnull {A} (k : string) (inj : A -> value)
    (new : option A) (old : A)
    (validate : value -> result A) (default : ST Env A) :
  kw_get k upd = Some (dump_opt inj new) ->
  kw_get k stored = Some (inj old) ->
  (forall a, validate (inj a) = Ok a) ->
  validate VNone = Raise ValidationError ->
  field kw k validate default
  = lift_result (choose k fs (nonnull new) old).
Proof.
  intros Hu Hs Hv Hn. unfold choose.
  destruct (is_set k fs) eqn:E.
  - rewrite (@field_given _ _ _ (dump_opt inj new)).
    + destruct new; simpl; now rewrite ?Hv, ?Hn.
    + now rewrite kw_get_merged, E, Hu.
  - rewrite (@field_given _ _ _ (inj old)).
    + now rewrite Hv.
    + now rewrite kw_get_merged, E, Hs.
Qed.

(** A field of the payload's schema that is [Optional] in the record. *)
Lemma field_merged_nullable {A} (k : string) (inj : A -> value)
    (new old : option A)
    (validate : value -> result A) (default : ST Env (option A)) :
  kw_get k upd = Some (dump_opt inj new) ->
  kw_get k stored = Some (dump_opt inj old) ->
  (forall a, validate (inj a) = Ok a) ->
  (forall a, inj a <> VNone) ->
  field kw k (as_optional validate) default
  = lift_result (choose k fs (Ok new) old).
Proof.
  intros Hu Hs Hv Hn. unfold choose.
  destruct (is_set k fs) eqn:E.
  - rewrite (@field_given _ _ _ (dump_opt inj new)).
    + now rewrite as_optional_roundtrip.
    + now rewrite kw_get_merged, E, Hu.
  - rewrite (@field_given _ _ _ (dump_opt inj old)).
    + now rewrite as_optional_roundtrip.
    + now rewrite kw_get_merged, E, Hs.
Qed.
End Merged.

(** ** Allergy: what the constructor returns *)

Lemma AllergyUpdate_keys (u : AllergyUpdate.t) :
  NoDup (dict_keys (AllergyUpdate.model_dump u)).
Proof.
  simpl. repeat constructor; simpl; intuition discriminate.
Qed.

Ltac destruct_chosen :=
  repeat match goal with
         | |- context [choose ?k ?fs ?n ?o] => destruct (choose k fs n o)
         end.

Lemma VStr_not_None (s : string) : VStr s <> VNone.
Proof. discriminate. Qed.

Lemma VDate_not_None (d : date) : VDate d <> VNone.
Proof. discriminate. Qed.

Lemma VFloat_not_None (f : float) : VFloat f <> VNone.
Proof. discriminate. Qed.

(** On the dump of a stored record updated with the payload's dump, the
    constructor reads neither the clock nor [uuid4]: every key is there. *)
Lemma AllergyRead_init_merged (r : AllergyRead.t) (u : AllergyUpdate.t)
    (e : Env) :
  AllergyRead.init
    (dict_update String.eqb (AllergyRead.model_dump r)
       (AllergyUpdate.model_dump_exclude_unset u)) e
  = (AllergyRead_merge r u, e).
Proof.
  pose proof (AllergyUpdate_keys u) as Hk.
  set (b := AllergyRead.base r).
  unfold AllergyRead.init, AllergyBase.init,
    AllergyUpdate.model_dump_exclude_unset.
  rewrite (@field_kept _ _ _ Hk _ "id" (VUUID (AllergyBase.id b))
             (AllergyBase.id b)) by reflexivity.
  rewrite (@field_kept _ _ _ Hk _ "person_id"
             (VUUID (AllergyBase.person_id b)) (AllergyBase.person_id b))
    by reflexivity.
  rewrite (@field_merged_nonnull _ _ _ Hk _ "allergen" VStr
             (AllergyUpdate.allergen u) (AllergyBase.allergen b))
    by reflexivity.
  rewrite (@field_merged_nonnull _ _ _ Hk _ "allergy_type"
             (fun x => VStr (AllergyType.str x))
             (AllergyUpdate.allergy_type u) (AllergyBase.allergy_type b));
    [| reflexivity | reflexivity | apply AllergyType_roundtrip | reflexivity].
  rewrite (@field_merged_nullable _ _ _ Hk _ "reaction" VStr
             (AllergyUpdate.reaction u) (AllergyBase.reaction b));
    [| reflexivity | reflexivity | reflexivity | apply VStr_not_None].
  rewrite (@field_merged_nonnull _ _ _ Hk _ "severity"
             (fun x => VStr (AllergySeverity.str x))
             (AllergyUpdate.severity u) (AllergyBase.severity b));
    [| reflexivity | reflexivity | apply AllergySeverity_roundtrip
     | reflexivity].
  rewrite (@field_merged_nullable _ _ _ Hk _ "noted_date" VDate
             (AllergyUpdate.noted_date u) (AllergyBase.noted_date b));
    [| reflexivity | reflexivity | reflexivity | apply VDate_not_None].
  rewrite (@field_kept _ _ _ Hk _ "created_at"
             (VDatetime (AllergyRead.created_at r)) (AllergyRead.created_at r))
    by reflexivity.
  rewrite (@field_kept _ _ _ Hk _ "updated_at"
             (VDatetime (AllergyRead.updated_at r)) (AllergyRead.updated_at r))
    by reflexivity.
  unfold AllergyRead_merge, and_then, bind, lift_result, ret. fold b.
  destruct_chosen; reflexivity.
Qed.

(** On the dump of a create payload the constructor finds every field of
    the base and takes the two timestamps from the clock, one reading
    each. *)
Lemma AllergyBase_init_dump (a : AllergyBase.t) (e : Env) :
  AllergyBase.init (AllergyBase.model_dump a) e = (Ok a, e).
Proof.
  unfold AllergyBase.init.
  rewrite (@field_given _ _ _ (VUUID (AllergyBase.id a))) by reflexivity.
  rewrite (@field_given _ _ _ (VUUID (AllergyBase.person_id a)))
    by reflexivity.
  rewrite (@field_given _ _ _ (VStr (AllergyBase.allergen a))) by reflexivity.
  rewrite (@field_given _ _ _
             (VStr (AllergyType.str (AllergyBase.allergy_type a))))
    by reflexivity.
  rewrite (@field_given _ _ _ (dump_opt VStr (AllergyBase.reaction a)))
    by reflexivity.
  rewrite (@field_given _ _ _
             (VStr (AllergySeverity.str (AllergyBase.severity a))))
    by reflexivity.
  rewrite (@field_given _ _ _ (dump_opt VDate (AllergyBase.noted_date a)))
    by reflexivity.
  rewrite AllergyType_roundtrip, AllergySeverity_roundtrip.
  rewrite (as_optional_roundtrip VStr as_str) by (reflexivity || discriminate).
  rewrite (as_optional_roundtrip VDate as_date)
    by (reflexivity || discriminate).
  now destruct a.
Qed.

Lemma AllergyRead_init_create (a : AllergyCreate) (e : Env) :
  AllergyRead.init (AllergyBase.model_dump a) e
  = (c <- utcnow ;; u <- utcnow ;; ret (AllergyRead.mk a c u)) e.
Proof.
  unfold AllergyRead.init, bind at 1.
  rewrite AllergyBase_init_dump.
  rewrite !field_missing by reflexivity.
  reflexivity.
Qed.

(** ** Allergy endpoints *)

Lemma update_allergy_spec (allergy_id : UUID) (u : AllergyUpdate.t)
    (w : World) :
  update_allergy allergy_id u w
  = match dict_get N.eqb allergy_id (allergies (db w)) with
    | None => (Raise (HTTPException 404 "Allergy not found"), w)
    | Some r =>
        match AllergyRead_merge r u with
        | Ok r' => (Ok r', world_set_allergy allergy_id r' w)
        | Raise x => (Raise x, w)
        end
    end.
Proof.
  unfold update_allergy. rewrite bind_get_db.
  unfold contains, dict_contains, subscript.
  destruct (dict_get N.eqb allergy_id (allergies (db w))) as [r|] eqn:G;
    cbn [negb]; [|reflexivity].
  rewrite bind_ret, bind_with_env, AllergyRead_init_merged.
  destruct (AllergyRead_merge r u) as [r'|x]; rewrite world_eta;
    [|reflexivity].
  unfold world_set_allergy, bind, set_allergy, bind, get_db, put_db. simpl.
  now rewrite (dict_get_set_same N.eqb_eq).
Qed.

Lemma create_allergy_ok (a : AllergyCreate) (w : World) :
  contains (AllergyBase.person_id a) (persons (db w)) = true ->
  contains (AllergyBase.id a) (allergies (db w)) = false ->
  exists c u e',
    create_allergy a w
    = (Ok (AllergyRead.mk a c u),
       mkWorld (mkDB (persons (db w)) (addresses (db w))
                  (allergies (db w)
                   ++ [(AllergyBase.id a, AllergyRead.mk a c u)])
                  (medications (db w))) e')
    /\ (now (env w) <= c <= u)%Z /\ now e' = u.
Proof.
  intros Hp Hi.
  destruct (utcnow_spec (env w)) as [c [e1 [H1 [L1 N1]]]].
  destruct (utcnow_spec e1) as [u [e2 [H2 [L2 N2]]]].
  exists c, u, e2. split; [|lia].
  unfold create_allergy. rewrite bind_get_db, Hp, Hi.
  cbn [negb andb truthy_uuid].
  rewrite bind_with_env, AllergyRead_init_create.
  unfold bind at 1. rewrite H1. unfold bind at 1. rewrite H2.
  unfold ret at 1.
  unfold bind, set_allergy, bind, get_db, put_db, subscript. simpl.
  rewrite (dict_get_set_same N.eqb_eq).
  now rewrite dict_set_absent.
Qed.

Lemma get_allergy_spec (allergy_id : UUID) (w : World) :
  get_allergy allergy_id w
  = match dict_get N.eqb allergy_id (allergies (db w)) with
    | Some r => (Ok r, w)
    | None => (Raise (HTTPException 404 "Allergy not found"), w)
    end.
Proof.
  unfold get_allergy, contains, dict_contains, subscript, bind, get_db.
  now destruct (dict_get N.eqb allergy_id (allergies (db w))).
Qed.

(** ** Medication: what the constructor returns, and the endpoints *)

Lemma MedicationUpdate_keys (u : MedicationUpdate.t) :
  NoDup (dict_keys (MedicationUpdate.model_dump u)).
Proof.
  simpl. repeat constructor; simpl; intuition discriminate.
Qed.

Lemma MedicationRead_init_merged (r : MedicationRead.t)
    (u : MedicationUpdate.t) (e : Env) :
  MedicationRead.init
    (dict_update String.eqb (MedicationRead.model_dump r)
       (MedicationUpdate.model_dump_exclude_unset u)) e
  = (MedicationRead_merge r u, e).
Proof.
  pose proof (MedicationUpdate_keys u) as Hk.
  set (b := MedicationRead.base r).
  unfold MedicationRead.init, MedicationBase.init,
    MedicationUpdate.model_dump_exclude_unset.
  rewrite (@field_kept _ _ _ Hk _ "id" (VUUID (MedicationBase.id b))
             (MedicationBase.id b)) by reflexivity.
  rewrite (@field_kept _ _ _ Hk _ "person_id"
             (VUUID (MedicationBase.person_id b))
             (MedicationBase.person_id b)) by reflexivity.
  rewrite (@field_merged_nonnull _ _ _ Hk _ "name" VStr
             (MedicationUpdate.name u) (MedicationBase.name b))
    by reflexivity.
  rewrite (@field_merged_nullable _ _ _ Hk _ "dose" VFloat
             (MedicationUpdate.dose u) (MedicationBase.dose b));
    [| reflexivity | reflexivity | reflexivity | apply VFloat_not_None].
  rewrite (@field_merged_nullable _ _ _ Hk _ "dose_unit"
             (fun x => VStr (DoseUnit.str x))
             (MedicationUpdate.dose_unit u) (MedicationBase.dose_unit b));
    [| reflexivity | reflexivity | apply DoseUnit_roundtrip
     | intros x; apply VStr_not_None].
  rewrite (@field_merged_nonnull _ _ _ Hk _ "frequency"
             (fun x => VStr (Frequency.str x))
             (MedicationUpdate.frequency u) (MedicationBase.frequency b));
    [| reflexivity | reflexivity | apply Frequency_roundtrip | reflexivity].
  rewrite (@field_merged_nullable _ _ _ Hk _ "instructions" VStr
             (MedicationUpdate.instructions u)
             (MedicationBase.instructions b));
    [| reflexivity | reflexivity | reflexivity | apply VStr_not_None].
  rewrite (@field_merged_nullable _ _ _ Hk _ "start_date" VDate
             (MedicationUpdate.start_date u) (MedicationBase.start_date b));
    [| reflexivity | reflexivity | reflexivity | apply VDate_not_None].
  rewrite (@field_merged_nullable _ _ _ Hk _ "end_date" VDate
             (MedicationUpdate.end_date u) (MedicationBase.end_date b));
    [| reflexivity | reflexivity | reflexivity | apply VDate_not_None].
  rewrite (@field_merged_nonnull _ _ _ Hk _ "is_current" VBool
             (MedicationUpdate.is_current u) (MedicationBase.is_current b))
    by reflexivity.
  rewrite (@field_kept _ _ _ Hk _ "created_at"
             (VDatetime (MedicationRead.created_at r))
             (MedicationRead.created_at r)) by reflexivity.
  rewrite (@field_kept _ _ _ Hk _ "updated_at"
             (VDatetime (MedicationRead.updated_at r))
             (MedicationRead.updated_at r)) by reflexivity.
  unfold MedicationRead_merge, and_then, bind, lift_result, ret. fold b.
  destruct_chosen; reflexivity.
Qed.

Lemma MedicationBase_init_dump (m : MedicationBase.t) (e : Env) :
  MedicationBase.init (MedicationBase.model_dump m) e = (Ok m, e).
Proof.
  unfold MedicationBase.init.
  rewrite (@field_given _ _ _ (VUUID (MedicationBase.id m))) by reflexivity.
  rewrite (@field_given _ _ _ (VUUID (MedicationBase.person_id m)))
    by reflexivity.
  rewrite (@field_given _ _ _ (VStr (MedicationBase.name m))) by reflexivity.
  rewrite (@field_given _ _ _ (dump_opt VFloat (MedicationBase.dose m)))
    by reflexivity.
  rewrite (@field_given _ _ _
             (dump_opt (fun x => VStr (DoseUnit.str x))
                (MedicationBase.dose_unit m))) by reflexivity.
  rewrite (@field_given _ _ _
             (VStr (Frequency.str (MedicationBase.frequency m))))
    by reflexivity.
  rewrite (@field_given _ _ _ (dump_opt VStr (MedicationBase.instructions m)))
    by reflexivity.
  rewrite (@field_given _ _ _ (dump_opt VDate (MedicationBase.start_date m)))
    by reflexivity.
  rewrite (@field_given _ _ _ (dump_opt VDate (MedicationBase.end_date m)))
    by reflexivity.
  rewrite (@field_given _ _ _ (VBool (MedicationBase.is_current m)))
    by reflexivity.
  rewrite Frequency_roundtrip.
  rewrite (as_optional_roundtrip VFloat as_float)
    by (reflexivity || discriminate).
  rewrite (as_optional_roundtrip (fun x => VStr (DoseUnit.str x))
             (as_literal DoseUnit.of_str))
    by (apply DoseUnit_roundtrip || discriminate).
  rewrite (as_optional_roundtrip VStr as_str) by (reflexivity || discriminate).
  rewrite !(as_optional_roundtrip VDate as_date)
    by (reflexivity || discriminate).
  now destruct m.
Qed.

Lemma MedicationRead_init_create (m : MedicationCreate) (e : Env) :
  MedicationRead.init (MedicationBase.model_dump m) e
  = (c <- utcnow ;; u <- utcnow ;; ret (MedicationRead.mk m c u)) e.
Proof.
  unfold MedicationRead.init, bind at 1.
  rewrite MedicationBase_init_dump.
  rewrite !field_missing by reflexivity.
  reflexivity.
Qed.

Lemma update_medication_spec (medication_id : UUID) (u : MedicationUpdate.t)
    (w : World) :
  update_medication medication_id u w
  = match dict_get N.eqb medication_id (medications (db w)) with
    | None => (Raise (HTTPException 404 "Medication not found"), w)
    | Some r =>
        match MedicationRead_merge r u with
        | Ok r' => (Ok r', world_set_medication medication_id r' w)
        | Raise x => (Raise x, w)
        end
    end.
Proof.
  unfold update_medication. rewrite bind_get_db.
  unfold contains, dict_contains, subscript.
  destruct (dict_get N.eqb medication_id (medications (db w))) as [r|] eqn:G;
    cbn [negb]; [|reflexivity].
  rewrite bind_ret, bind_with_env, MedicationRead_init_merged.
  destruct (MedicationRead_merge r u) as [r'|x]; rewrite world_eta;
    [|reflexivity].
  unfold world_set_medication, bind, set_medication, bind, get_db, put_db.
  simpl.
  now rewrite (dict_get_set_same N.eqb_eq).
Qed.

Lemma create_medication_ok (m : MedicationCreate) (w : World) :
  contains (MedicationBase.person_id m) (persons (db w)) = true ->
  contains (MedicationBase.id m) (medications (db w)) = false ->
  exists c u e',
    create_medication m w
    = (Ok (MedicationRead.mk m c u),
       mkWorld (mkDB (persons (db w)) (addresses (db w)) (allergies (db w))
                  (medications (db w)
                   ++ [(MedicationBase.id m, MedicationRead.mk m c u)])) e')
    /\ (now (env w) <= c <= u)%Z /\ now e' = u.
Proof.
  intros Hp Hi.
  destruct (utcnow_spec (env w)) as [c [e1 [H1 [L1 N1]]]].
  destruct (utcnow_spec e1) as [u [e2 [H2 [L2 N2]]]].
  exists c, u, e2. split; [|lia].
  unfold create_medication. rewrite bind_get_db, Hp, Hi.
  cbn [negb andb truthy_uuid].
  rewrite bind_with_env, MedicationRead_init_create.
  unfold bind at 1. rewrite H1. unfold bind at 1. rewrite H2.
  unfold ret at 1.
  unfold bind, set_medication, bind, get_db, put_db, subscript. simpl.
  rewrite (dict_get_set_same N.eqb_eq).
  now rewrite dict_set_absent.
Qed.

Lemma get_medication_spec (medication_id : UUID) (w : World) :
  get_medication medication_id w
  = match dict_get N.eqb medication_id (medications (db w)) with
    | Some r => (Ok r, w)
    | None => (Raise (HTTPException 404 "Medication not found"), w)
    end.
Proof.
  unfold get_medication, contains, dict_contains, subscript, bind, get_db.
  now destruct (dict_get N.eqb medication_id (medications (db w))).
Qed.

(** ** The merge, field by field *)

Lemma and_then_Ok {A B} (r : result A) (f : A -> result B) (b : B) :
  and_then r f = Ok b -> exists a, r = Ok a /\ f a = Ok b.
Proof. destruct r as [a|x]; simpl; [eauto | discriminate]. Qed.

Lemma choose_nonnull_Ok {A} (k : string) (fs : list string)
    (new : option A) (old a : A) :
  choose k fs (nonnull new) old = Ok a ->
  merged_field k fs new (Some old) (Some a).
Proof.
  unfold choose, merged_field. destruct (is_set k fs).
  - destruct new; simpl; congruence.
  - congruence.
Qed.

Lemma choose_nullable_Ok {A} (k : string) (fs : list string)
    (new old a : option A) :
  choose k fs (Ok new) old = Ok a -> merged_field k fs new old a.
Proof.
  unfold choose, merged_field. destruct (is_set k fs); congruence.
Qed.

Lemma choose_nonnull_total {A} (k : string) (fs : list string)
    (new : option A) (old : A) :
  (is_set k fs = true -> new <> None) ->
  exists a, choose k fs (nonnull new) old = Ok a.
Proof.
  unfold choose. destruct (is_set k fs); [|eauto].
  destruct new as [a|]; simpl; [eauto|].
  intros H. now destruct H.
Qed.

Lemma choose_nonnull_None {A} (k : string) (fs : list string) (old : A) :
  is_set k fs = true ->
  choose k fs (nonnull None) old = Raise ValidationError.
Proof. unfold choose. now intros ->. Qed.

Lemma choose_nullable_total {A} (k : string) (fs : list string)
    (new old : option A) :
  exists a, choose k fs (Ok new) old = Ok a.
Proof. unfold choose. destruct (is_set k fs); eauto. Qed.

Ltac and_then_inv H :=
  let a := fresh "a" in
  let Ha := fresh "Ha" in
  apply and_then_Ok in H; destruct H as [a [Ha H]].

Lemma AllergyRead_merge_Ok (r r' : AllergyRead.t) (u : AllergyUpdate.t) :
  AllergyRead_merge r u = Ok r' ->
  allergy_fields_merged u r r'
  /\ AllergyBase.id (AllergyRead.base r') = AllergyBase.id (AllergyRead.base r)
  /\ AllergyBase.person_id (AllergyRead.base r')
     = AllergyBase.person_id (AllergyRead.base r)
  /\ AllergyRead.created_at r' = AllergyRead.created_at r
  /\ AllergyRead.updated_at r' = AllergyRead.updated_at r.
Proof.
  unfold AllergyRead_merge. cbv zeta. intros H.
  do 5 and_then_inv H. inversion H; subst r'; clear H.
  unfold allergy_fields_merged. simpl.
  repeat split;
    first [ now apply choose_nonnull_Ok | now apply choose_nullable_Ok ].
Qed.

Lemma AllergyRead_merge_total (r : AllergyRead.t) (u : AllergyUpdate.t) :
  AllergyUpdate_admissible u -> exists r', AllergyRead_merge r u = Ok r'.
Proof.
  intros [Ha [Ht Hs]]. unfold AllergyRead_merge. cbv zeta.
  destruct (choose_nonnull_total "allergen" _
              (AllergyBase.allergen (AllergyRead.base r)) Ha) as [? ->].
  destruct (choose_nonnull_total "allergy_type" _
              (AllergyBase.allergy_type (AllergyRead.base r)) Ht) as [? ->].
  destruct (choose_nullable_total "reaction"
              (AllergyUpdate.model_fields_set u) (AllergyUpdate.reaction u)
              (AllergyBase.reaction (AllergyRead.base r))) as [? ->].
  destruct (choose_nonnull_total "severity" _
              (AllergyBase.severity (AllergyRead.base r)) Hs) as [? ->].
  destruct (choose_nullable_total "noted_date"
              (AllergyUpdate.model_fields_set u) (AllergyUpdate.noted_date u)
              (AllergyBase.noted_date (AllergyRead.base r))) as [? ->].
  simpl. eauto.
Qed.

Lemma choose_nonnull_Raise {A} (k : string) (fs : list string)
    (new : option A) (old : A) (x : exn) :
  choose k fs (nonnull new) old = Raise x -> x = ValidationError.
Proof.
  unfold choose. destruct (is_set k fs); [|discriminate].
  destruct new; simpl; congruence.
Qed.

Lemma choose_nullable_Raise {A} (k : string) (fs : list string)
    (new old : option A) (x : exn) :
  choose k fs (Ok new) old = Raise x -> x = ValidationError.
Proof. unfold choose. destruct (is_set k fs); discriminate. Qed.

Ltac chosen_raise :=
  repeat match goal with
         | |- context [choose ?k ?fs ?n ?o] =>
             let E := fresh "E" in
             destruct (choose k fs n o) eqn:E; cbn [and_then];
             [| intros H; inversion H; subst;
                first [ now apply choose_nonnull_Raise in E
                      | now apply choose_nullable_Raise in E ] ]
         end.

(** The only failure of a merge is a validation error. *)
Lemma AllergyRead_merge_Raise (r : AllergyRead.t) (u : AllergyUpdate.t)
    (x : exn) :
  AllergyRead_merge r u = Raise x -> x = ValidationError.
Proof.
  unfold AllergyRead_merge. cbv zeta. chosen_raise. discriminate.
Qed.

Lemma MedicationRead_merge_Raise (r : MedicationRead.t)
    (u : MedicationUpdate.t) (x : exn) :
  MedicationRead_merge r u = Raise x -> x = ValidationError.
Proof.
  unfold MedicationRead_merge. cbv zeta. chosen_raise. discriminate.
Qed.

Lemma MedicationRead_merge_Ok (r r' : MedicationRead.t)
    (u : MedicationUpdate.t) :
  MedicationRead_merge r u = Ok r' ->
  medication_fields_merged u r r'
  /\ MedicationBase.id (MedicationRead.base r')
     = MedicationBase.id (MedicationRead.base r)
  /\ MedicationBase.person_id (MedicationRead.base r')
     = MedicationBase.person_id (MedicationRead.base r)
  /\ MedicationRead.created_at r' = MedicationRead.created_at r
  /\ MedicationRead.updated_at r' = MedicationRead.updated_at r.
Proof.
  unfold MedicationRead_merge. cbv zeta. intros H.
  do 8 and_then_inv H. inversion H; subst r'; clear H.
  unfold medication_fields_merged. simpl.
  repeat split;
    first [ now apply choose_nonnull_Ok | now apply choose_nullable_Ok ].
Qed.

Lemma MedicationRead_merge_total (r : MedicationRead.t)
    (u : MedicationUpdate.t) :
  MedicationUpdate_admissible u -> exists r', MedicationRead_merge r u = Ok r'.
Proof.
  intros [Hn [Hf Hc]]. unfold MedicationRead_merge. cbv zeta.
  destruct (choose_nonnull_total "name" _
              (MedicationBase.name (MedicationRead.base r)) Hn) as [? ->].
  destruct (choose_nullable_total "dose"
              (MedicationUpdate.model_fields_set u) (MedicationUpdate.dose u)
              (MedicationBase.dose (MedicationRead.base r))) as [? ->].
  destruct (choose_nullable_total "dose_unit"
              (MedicationUpdate.model_fields_set u)
              (MedicationUpdate.dose_unit u)
              (MedicationBase.dose_unit (MedicationRead.base r))) as [? ->].
  destruct (choose_nonnull_total "frequency" _
              (MedicationBase.frequency (MedicationRead.base r)) Hf)
    as [? ->].
  destruct (choose_nullable_total "instructions"
              (MedicationUpdate.model_fields_set u)
              (MedicationUpdate.instructions u)
              (MedicationBase.instructions (MedicationRead.base r)))
    as [? ->].
  destruct (choose_nullable_total "start_date"
              (MedicationUpdate.model_fields_set u)
              (MedicationUpdate.start_date u)
              (MedicationBase.start_date (MedicationRead.base r))) as [? ->].
  destruct (choose_nullable_total "end_date"
              (MedicationUpdate.model_fields_set u)
              (MedicationUpdate.end_date u)
              (MedicationBase.end_date (MedicationRead.base r))) as [? ->].
  destruct (choose_nonnull_total "is_current" _
              (MedicationBase.is_current (MedicationRead.base r)) Hc)
    as [? ->].
  simpl. eauto.
Qed.

Lemma allergies_after_set (k : UUID) (v : AllergyRead.t) (w : World) :
  allergies (db (world_set_allergy k v w))
  = dict_set N.eqb k v (allergies (db w)).
Proof. reflexivity. Qed.

Lemma medications_after_set (k : UUID) (v : MedicationRead.t) (w : World) :
  medications (db (world_set_medication k v w))
  = dict_set N.eqb k v (medications (db w)).
Proof. reflexivity. Qed.

Lemma update_allergy_Ok (allergy_id : UUID) (u : AllergyUpdate.t)
    (w w' : World) (r r' : AllergyRead.t) :
  dict_get N.eqb allergy_id (allergies (db w)) = Some r ->
  update_allergy allergy_id u w = (Ok r', w') ->
  AllergyRead_merge r u = Ok r' /\ w' = world_set_allergy allergy_id r' w.
Proof.
  intros G. rewrite update_allergy_spec, G.
  destruct (AllergyRead_merge r u); intros H; inversion H; subst; auto.
Qed.

Lemma update_medication_Ok (medication_id : UUID) (u : MedicationUpdate.t)
    (w w' : World) (r r' : MedicationRead.t) :
  dict_get N.eqb medication_id (medications (db w)) = Some r ->
  update_medication medication_id u w = (Ok r', w') ->
  MedicationRead_merge r u = Ok r'
  /\ w' = world_set_medication medication_id r' w.
Proof.
  intros G. rewrite update_medication_spec, G.
  destruct (MedicationRead_merge r u); intros H; inversion H; subst; auto.
Qed.

(** An update never reads the clock: [updated_at] is the stored one. *)
Lemma update_allergy_updated_at (allergy_id : UUID) (u : AllergyUpdate.t)
    (w w' : World) (r r' : AllergyRead.t) :
  dict_get N.eqb allergy_id (allergies (db w)) = Some r ->
  update_allergy allergy_id u w = (Ok r', w') ->
  AllergyRead.updated_at r' = AllergyRead.updated_at r /\ env w' = env w.
Proof.
  intros G H. destruct (update_allergy_Ok _ _ _ G H) as [Hm ->].
  apply AllergyRead_merge_Ok in Hm. split; [tauto | reflexivity].
Qed.

Lemma update_medication_updated_at (medication_id : UUID)
    (u : MedicationUpdate.t) (w w' : World) (r r' : MedicationRead.t) :
  dict_get N.eqb medication_id (medications (db w)) = Some r ->
  update_medication medication_id u w = (Ok r', w') ->
  MedicationRead.updated_at r' = MedicationRead.updated_at r
  /\ env w' = env w.
Proof.
  intros G H. destruct (update_medication_Ok _ _ _ G H) as [Hm ->].
  apply MedicationRead_merge_Ok in Hm. split; [tauto | reflexivity].
Qed.

(** ** Partial updates *)

(** C9. For every stored Allergy or Medication and every update payload:
    the payload's dump has no key [id], [person_id] or [created_at]; the
    record an update returns has the identifier, the owner reference and
    the creation timestamp of the stored one; and whatever the outcome of
    the update, so has the record stored under that identifier after it. *)
Theorem update_keeps_identity :
  (forall u k, In k ["id"; "person_id"; "created_at"] ->
     kw_get k (AllergyUpdate.model_dump u) = None)
  /\ (forall u k, In k ["id"; "person_id"; "created_at"] ->
        kw_get k (MedicationUpdate.model_dump u) = None)
  /\ (forall allergy_id u w r,
        dict_get N.eqb allergy_id (allergies (db w)) = Some r ->
        (forall r' w', update_allergy allergy_id u w = (Ok r', w') ->
           allergy_identity_kept r r')
        /\ exists r2,
             dict_get N.eqb allergy_id
               (allergies (db (snd (update_allergy allergy_id u w)))) = Some r2
             /\ allergy_identity_kept r r2)
  /\ (forall medication_id u w r,
        dict_get N.eqb medication_id (medications (db w)) = Some r ->
        (forall r' w', update_medication medication_id u w = (Ok r', w') ->
           medication_identity_kept r r')
        /\ exists r2,
             dict_get N.eqb medication_id
               (medications (db (snd (update_medication medication_id u w))))
             = Some r2
             /\ medication_identity_kept r r2).
Proof.
  split; [|split; [|split]].
  - intros u k Hk. simpl in Hk.
    destruct Hk as [<- | [<- | [<- | []]]]; reflexivity.
  - intros u k Hk. simpl in Hk.
    destruct Hk as [<- | [<- | [<- | []]]]; reflexivity.
  - intros allergy_id u w r G. split.
    + intros r' w' H. destruct (update_allergy_Ok _ _ _ G H) as [Hm _].
      apply AllergyRead_merge_Ok in Hm. unfold allergy_identity_kept. tauto.
    + rewrite update_allergy_spec, G.
      destruct (AllergyRead_merge r u) as [r'|x] eqn:Hm; cbn [snd].
      * exists r'. rewrite allergies_after_set.
        rewrite (dict_get_set_same N.eqb_eq).
        apply AllergyRead_merge_Ok in Hm.
        unfold allergy_identity_kept. tauto.
      * exists r. unfold allergy_identity_kept. tauto.
  - intros medication_id u w r G. split.
    + intros r' w' H. destruct (update_medication_Ok _ _ _ G H) as [Hm _].
      apply MedicationRead_merge_Ok in Hm.
      unfold medication_identity_kept. tauto.
    + rewrite update_medication_spec, G.
      destruct (MedicationRead_merge r u) as [r'|x] eqn:Hm; cbn [snd].
      * exists r'. rewrite medications_after_set.
        rewrite (dict_get_set_same N.eqb_eq).
        apply MedicationRead_merge_Ok in Hm.
        unfold medication_identity_kept. tauto.
      * exists r. unfold medication_identity_kept. tauto.
Qed.

Lemma update_keeps_identity_witness :
  exists r r2,
    dict_get N.eqb 11%N (allergies (db Sample.clinic)) = Some r
    /\ dict_get N.eqb 11%N
         (allergies
            (db (snd (update_allergy 11%N Sample.reaction_rash Sample.clinic))))
       = Some r2
    /\ allergy_identity_kept r r2.
Proof.
  destruct update_keeps_identity as [_ [_ [HA _]]].
  eexists.
  destruct (HA 11%N Sample.reaction_rash Sample.clinic _ eq_refl)
    as [_ [r2 [H2 K2]]].
  exists r2. split; [reflexivity | split; assumption].
Defined.



(** C10. The payloads [{"severity": null}] and [{"allergy_type": null}]
    are accepted by the constructor of [AllergyUpdate], which records the
    field as given with the value [None]; and for every stored Allergy, an
    update whose payload gives [None] to a field the record requires raises
    a validation error and leaves the whole state, the stored record with
    it, as it was. *)
Theorem update_allergy_null_on_required (allergy_id : UUID)
    (u : AllergyUpdate.t) (w : World) :
  contains allergy_id (allergies (db w)) = true ->
  AllergyUpdate_required_null u ->
  AllergyUpdate.init [("severity", VNone)] = Ok Sample.severity_null
  /\ AllergyUpdate.init [("allergy_type", VNone)] = Ok Sample.allergy_type_null
  /\ AllergyUpdate_required_null Sample.severity_null
  /\ AllergyUpdate_required_null Sample.allergy_type_null
  /\ update_allergy allergy_id u w = (Raise ValidationError, w).
Proof.
  intros Hc Hu.
  split; [reflexivity|]. split; [reflexivity|].
  split; [right; right; split; reflexivity|].
  split; [right; left; split; reflexivity|].
  rewrite update_allergy_spec.
  unfold contains, dict_contains in Hc.
  destruct (dict_get N.eqb allergy_id (allergies (db w))) as [r|];
    [clear Hc | discriminate].
  assert (Hm : AllergyRead_merge r u = Raise ValidationError).
  { destruct (AllergyRead_merge r u) as [r'|x] eqn:Hm.
    - exfalso. apply AllergyRead_merge_Ok in Hm.
      destruct Hm as [[Ha [Ht [_ [Hs _]]]] _].
      unfold merged_field in Ha, Ht, Hs.
      destruct Hu as [[E N] | [[E N] | [E N]]];
        rewrite E, N in *; discriminate.
    - f_equal. now apply AllergyRead_merge_Raise in Hm. }
  now rewrite Hm.
Qed.

Lemma update_allergy_null_on_required_witness :
  contains 11%N (allergies (db Sample.clinic)) = true
  /\ AllergyUpdate_required_null Sample.severity_null
  /\ update_allergy 11%N Sample.severity_null Sample.clinic
     = (Raise ValidationError, Sample.clinic).
Proof.
  assert (Hc : contains 11%N (allergies (db Sample.clinic)) = true)
    by reflexivity.
  assert (Hu : AllergyUpdate_required_null Sample.severity_null)
    by (right; right; split; reflexivity).
  split; [exact Hc|]. split; [exact Hu|].
  apply (@update_allergy_null_on_required 11%N Sample.severity_null
           Sample.clinic Hc Hu).
Defined.

(** C2, at a failing input.  The allergy stored at 4 microseconds is
    updated with [{reaction: "Rash"}] when the clock shows 1000: the update
    succeeds, the record stored and returned has the new reaction, and its
    [updated_at] is still 4; the clock has not been read.  The same holds
    of a medication. *)
Theorem update_leaves_updated_at_stale :
  now (env Sample.later) = 1000%Z
  /\ (exists r r',
        dict_get N.eqb 11%N (allergies (db Sample.later)) = Some r
        /\ update_allergy 11%N Sample.reaction_rash Sample.later
           = (Ok r', world_set_allergy 11%N r' Sample.later)
        /\ AllergyBase.reaction (AllergyRead.base r') = Some "Rash"
        /\ AllergyRead.updated_at r = 4%Z
        /\ AllergyRead.updated_at r' = 4%Z
        /\ env (world_set_allergy 11%N r' Sample.later) = env Sample.later)
  /\ (exists r r',
        dict_get N.eqb 21%N (medications (db Sample.later)) = Some r
        /\ update_medication 21%N Sample.dose_5ml Sample.later
           = (Ok r', world_set_medication 21%N r' Sample.later)
        /\ MedicationBase.dose (MedicationRead.base r') = Some 5%float
        /\ MedicationRead.updated_at r = 6%Z
        /\ MedicationRead.updated_at r' = 6%Z).
Proof.
  split; [reflexivity|]. split.
  - do 2 eexists. split; [reflexivity|].
    rewrite update_allergy_spec. cbn. repeat split; reflexivity.
  - do 2 eexists. split; [reflexivity|].
    rewrite update_medication_spec. cbn. repeat split; reflexivity.
Qed.

(** ** Address and Person: what the constructor returns on a create *)

Lemma AddressBase_init_dump (a : AddressBase.t) (e : Env) :
  AddressBase.init (AddressBase.model_dump a) e = (Ok a, e).
Proof.
  unfold AddressBase.init.
  rewrite (@field_given _ _ _ (VUUID (AddressBase.id a))) by reflexivity.
  rewrite (@field_given _ _ _ (dump_opt VStr (AddressBase.street a)))
    by reflexivity.
  rewrite (@field_given _ _ _ (dump_opt VStr (AddressBase.city a)))
    by reflexivity.
  rewrite (@field_given _ _ _ (dump_opt VStr (AddressBase.state a)))
    by reflexivity.
  rewrite (@field_given _ _ _ (dump_opt VStr (AddressBase.postal_code a)))
    by reflexivity.
  rewrite (@field_given _ _ _ (dump_opt VStr (AddressBase.country a)))
    by reflexivity.
  rewrite !(as_optional_roundtrip VStr as_str)
    by (reflexivity || discriminate).
  now destruct a.
Qed.

Lemma AddressRead_init_create (a : AddressCreate) (e : Env) :
  AddressRead.init (AddressBase.model_dump a) e
  = (c <- utcnow ;; u <- utcnow ;; ret (AddressRead.mk a c u)) e.
Proof.
  unfold AddressRead.init, bind at 1.
  rewrite AddressBase_init_dump.
  rewrite !field_missing by reflexivity.
  reflexivity.
Qed.

Lemma as_addresses_dump (l : list AddressBase.t) (e : Env) :
  PersonBase.as_addresses
    (VList (map (fun a => VDict (AddressBase.model_dump a)) l)) e
  = (Ok l, e).
Proof.
  unfold PersonBase.as_addresses.
  induction l as [|a l IH]; [reflexivity|].
  cbn [map mapM]. unfold bind at 1. rewrite AddressBase_init_dump.
  unfold bind at 1. now rewrite IH.
Qed.

Lemma PersonBase_init_dump (p : PersonBase.t) (e : Env) :
  PersonBase.init (PersonBase.model_dump p) e = (Ok p, e).
Proof.
  unfold PersonBase.init.
  rewrite (@field_given _ _ _ (VUUID (PersonBase.id p))) by reflexivity.
  rewrite (@field_given _ _ _ (dump_opt VStr (PersonBase.uni p)))
    by reflexivity.
  rewrite (@field_given _ _ _ (dump_opt VStr (PersonBase.first_name p)))
    by reflexivity.
  rewrite (@field_given _ _ _ (dump_opt VStr (PersonBase.last_name p)))
    by reflexivity.
  rewrite (@field_given _ _ _ (dump_opt VStr (PersonBase.email p)))
    by reflexivity.
  rewrite (@field_given _ _ _ (dump_opt VStr (PersonBase.phone p)))
    by reflexivity.
  rewrite (@field_given _ _ _ (dump_opt VDate (PersonBase.birth_date p)))
    by reflexivity.
  rewrite !(as_optional_roundtrip VStr as_str)
    by (reflexivity || discriminate).
  rewrite (as_optional_roundtrip VDate as_date)
    by (reflexivity || discriminate).
  cbn [PersonBase.model_dump kw_get dict_get String.eqb Ascii.eqb Bool.eqb].
  unfold lift_result, bind. rewrite as_addresses_dump.
  now destruct p.
Qed.

Lemma PersonRead_init_create (p : PersonCreate) (e : Env) :
  PersonRead.init (PersonBase.model_dump p) e
  = (c <- utcnow ;; u <- utcnow ;; ret (PersonRead.mk p c u)) e.
Proof.
  unfold PersonRead.init, bind at 1.
  rewrite PersonBase_init_dump.
  rewrite !field_missing by reflexivity.
  reflexivity.
Qed.

(** ** Address and Person endpoints *)

Lemma create_address_ok (a : AddressCreate) (w : World) :
  contains (AddressBase.id a) (addresses (db w)) = false ->
  exists c u e',
    create_address a w
    = (Ok (AddressRead.mk a c u),
       mkWorld (mkDB (persons (db w))
                  (addresses (db w)
                   ++ [(AddressBase.id a, AddressRead.mk a c u)])
                  (allergies (db w)) (medications (db w))) e')
    /\ (now (env w) <= c <= u)%Z /\ now e' = u.
Proof.
  intros Hi.
  destruct (utcnow_spec (env w)) as [c [e1 [H1 [L1 N1]]]].
  destruct (utcnow_spec e1) as [u [e2 [H2 [L2 N2]]]].
  exists c, u, e2. split; [|lia].
  unfold create_address. rewrite bind_get_db, Hi.
  rewrite bind_with_env, AddressRead_init_create.
  unfold bind at 1. rewrite H1. unfold bind at 1. rewrite H2.
  unfold ret at 1.
  unfold bind, set_address, bind, get_db, put_db, subscript. simpl.
  rewrite (dict_get_set_same N.eqb_eq).
  now rewrite dict_set_absent.
Qed.

Lemma get_address_spec (address_id : UUID) (w : World) :
  get_address address_id w
  = match dict_get N.eqb address_id (addresses (db w)) with
    | Some r => (Ok r, w)
    | None => (Raise (HTTPException 404 "Address not found"), w)
    end.
Proof.
  unfold get_address, contains, dict_contains, subscript, bind, get_db.
  now destruct (dict_get N.eqb address_id (addresses (db w))).
Qed.

(** [create_person] tests nothing: it builds the record and assigns it. *)
Lemma create_person_ok (p : PersonCreate) (w : World) :
  exists c u e',
    create_person p w
    = (Ok (PersonRead.mk p c u),
       mkWorld (mkDB (dict_set N.eqb (PersonBase.id p) (PersonRead.mk p c u)
                        (persons (db w)))
                  (addresses (db w)) (allergies (db w)) (medications (db w)))
         e')
    /\ (now (env w) <= c <= u)%Z /\ now e' = u.
Proof.
  destruct (utcnow_spec (env w)) as [c [e1 [H1 [L1 N1]]]].
  destruct (utcnow_spec e1) as [u [e2 [H2 [L2 N2]]]].
  exists c, u, e2. split; [|lia].
  unfold create_person.
  rewrite bind_with_env, PersonRead_init_create.
  unfold bind at 1. rewrite H1. unfold bind at 1. rewrite H2.
  unfold ret at 1. reflexivity.
Qed.

Lemma get_person_spec (person_id : UUID) (w : World) :
  get_person person_id w
  = match dict_get N.eqb person_id (persons (db w)) with
    | Some r => (Ok r, w)
    | None => (Raise (HTTPException 404 "Person not found"), w)
    end.
Proof.
  unfold get_person, contains, dict_contains, subscript, bind, get_db.
  now destruct (dict_get N.eqb person_id (persons (db w))).
Qed.

(** ** Creation *)

(** C4. A create of an Allergy or of a Medication whose [person_id] is not
    a key of the Person store raises [HTTPException(400, "person_id does not
    exist")] and leaves the whole state as it was, so that no record is
    added; when [person_id] is a key, the create is either the success that
    adds the record or the failure of the identifier test, never that of
    the owner test. *)
Theorem create_checks_owner :
  (forall (a : AllergyCreate) w,
     contains (AllergyBase.person_id a) (persons (db w)) = false ->
     create_allergy a w
     = (Raise (HTTPException 400 "person_id does not exist"), w))
  /\ (forall (a : AllergyCreate) w,
        contains (AllergyBase.person_id a) (persons (db w)) = true ->
        create_allergy a w
        = (Raise (HTTPException 400 "Allergy with this ID already exists"), w)
        \/ exists r w', create_allergy a w = (Ok r, w')
                        /\ In r (dict_values (allergies (db w'))))
  /\ (forall (m : MedicationCreate) w,
        contains (MedicationBase.person_id m) (persons (db w)) = false ->
        create_medication m w
        = (Raise (HTTPException 400 "person_id does not exist"), w))
  /\ (forall (m : MedicationCreate) w,
        contains (MedicationBase.person_id m) (persons (db w)) = true ->
        create_medication m w
        = (Raise (HTTPException 400 "Medication with this ID already exists"),
           w)
        \/ exists r w', create_medication m w = (Ok r, w')
                        /\ In r (dict_values (medications (db w')))).
Proof.
  split; [|split; [|split]].
  - intros a w Hp. unfold create_allergy. now rewrite bind_get_db, Hp.
  - intros a w Hp.
    destruct (contains (AllergyBase.id a) (allergies (db w))) eqn:Hi.
    + left. unfold create_allergy. now rewrite bind_get_db, Hp, Hi.
    + right. destruct (create_allergy_ok a w Hp Hi) as [c [u [e' [H _]]]].
      do 2 eexists. split; [exact H|]. cbn.
      unfold dict_values. rewrite map_app. apply in_or_app. right. now left.
  - intros m w Hp. unfold create_medication. now rewrite bind_get_db, Hp.
  - intros m w Hp.
    destruct (contains (MedicationBase.id m) (medications (db w))) eqn:Hi.
    + left. unfold create_medication. now rewrite bind_get_db, Hp, Hi.
    + right. destruct (create_medication_ok m w Hp Hi) as [c [u [e' [H _]]]].
      do 2 eexists. split; [exact H|]. cbn.
      unfold dict_values. rewrite map_app. apply in_or_app. right. now left.
Qed.

Lemma create_checks_owner_witness :
  contains 99%N (persons (db Sample.clinic)) = false
  /\ create_allergy Sample.orphan Sample.clinic
     = (Raise (HTTPException 400 "person_id does not exist"), Sample.clinic)
  /\ list_allergies None None None None None (db Sample.clinic)
     = list_allergies None None None None None
         (db (snd (create_allergy Sample.orphan Sample.clinic))).
Proof.
  destruct create_checks_owner as [HA _].
  assert (Hp : contains (AllergyBase.person_id Sample.orphan)
                 (persons (db Sample.clinic)) = false) by reflexivity.
  split; [exact Hp|].
  split; [exact (HA Sample.orphan Sample.clinic Hp)|].
  now rewrite (HA Sample.orphan Sample.clinic Hp).
Defined.

(** C1, as amended.  A create of an Address, of an Allergy or of a
    Medication whose identifier is already a key of that kind's store
    raises an [HTTPException] of status 400 and leaves the whole state as
    it was, the record stored under that identifier with it.  For an
    Address the failure is always that of the identifier test; for an
    Allergy and a Medication it is that one when [person_id] is a key of
    the Person store, and the failure of the owner test, which comes
    first, when it is not. *)
Theorem create_existing_id_rejected :
  (forall (a : AddressCreate) w,
     contains (AddressBase.id a) (addresses (db w)) = true ->
     create_address a w
     = (Raise (HTTPException 400 "Address with this ID already exists"), w))
  /\ (forall (a : AllergyCreate) w,
        contains (AllergyBase.id a) (allergies (db w)) = true ->
        create_allergy a w
        = (Raise (HTTPException 400
                    (if contains (AllergyBase.person_id a) (persons (db w))
                     then "Allergy with this ID already exists"
                     else "person_id does not exist")), w))
  /\ (forall (m : MedicationCreate) w,
        contains (MedicationBase.id m) (medications (db w)) = true ->
        create_medication m w
        = (Raise (HTTPException 400
                    (if contains (MedicationBase.person_id m) (persons (db w))
                     then "Medication with this ID already exists"
                     else "person_id does not exist")), w)).
Proof.
  split; [|split].
  - intros a w Hi. unfold create_address. now rewrite bind_get_db, Hi.
  - intros a w Hi. unfold create_allergy. rewrite bind_get_db, Hi.
    now destruct (contains (AllergyBase.person_id a) (persons (db w))).
  - intros m w Hi. unfold create_medication. rewrite bind_get_db, Hi.
    now destruct (contains (MedicationBase.person_id m) (persons (db w))).
Qed.

Lemma create_existing_id_rejected_witness :
  contains 11%N (allergies (db Sample.clinic)) = true
  /\ create_allergy Sample.peanuts Sample.clinic
     = (Raise (HTTPException 400 "Allergy with this ID already exists"),
        Sample.clinic).
Proof.
  destruct create_existing_id_rejected as [_ [HA _]].
  assert (Hi : contains (AllergyBase.id Sample.peanuts)
                 (allergies (db Sample.clinic)) = true) by reflexivity.
  split; [exact Hi|].
  exact (HA Sample.peanuts Sample.clinic Hi).
Defined.

(** C1 as stated fails.  An Allergy whose identifier is present and whose
    owner reference does not resolve is refused by the owner test, not as a
    conflict; and a Person whose identifier is present is not refused at
    all: the create succeeds and the record stored under that identifier
    is replaced. *)
Lemma create_existing_id_counterexample :
  (contains (AllergyBase.id Sample.orphan) (allergies (db Sample.clinic))
   = true
   /\ fst (create_allergy Sample.orphan Sample.clinic)
      = Raise (HTTPException 400 "person_id does not exist")
   /\ fst (create_allergy Sample.orphan Sample.clinic)
      <> Raise (HTTPException 400 "Allergy with this ID already exists"))
  /\ (contains (PersonBase.id Sample.augusta) (persons (db Sample.clinic))
      = true
      /\ exists r w',
           create_person Sample.augusta Sample.clinic = (Ok r, w')
           /\ PersonRead.base r = Sample.augusta
           /\ dict_get N.eqb 1%N (persons (db w')) = Some r
           /\ dict_get N.eqb 1%N (persons (db Sample.clinic)) <> Some r).
Proof.
  split.
  - split; [reflexivity|]. split; [reflexivity | discriminate].
  - split; [reflexivity|].
    do 2 eexists. split; [reflexivity|].
    split; [reflexivity|]. split; [reflexivity | discriminate].
Qed.

(** [create_person] never fails, whatever the store holds. *)
Lemma create_person_replaces (p : PersonCreate) (w : World) :
  exists r w',
    create_person p w = (Ok r, w')
    /\ PersonRead.base r = p
    /\ dict_get N.eqb (PersonBase.id p) (persons (db w')) = Some r
    /\ dict_keys (persons (db w'))
       = if contains (PersonBase.id p) (persons (db w))
         then dict_keys (persons (db w))
         else dict_keys (persons (db w)) ++ [PersonBase.id p].
Proof.
  destruct (create_person_ok p w) as [c [u [e' [H _]]]].
  do 2 eexists. split; [exact H|]. cbn.
  split; [reflexivity|].
  split; [apply (dict_get_set_same N.eqb_eq)|].
  destruct (contains (PersonBase.id p) (persons (db w))) eqn:E.
  - now apply dict_keys_set_present.
  - rewrite dict_set_absent by assumption.
    unfold dict_keys. now rewrite map_app.
Qed.

(** C8, as amended.  For each resource kind, a create that succeeds,
    followed by a read of the identifier of its payload, returns the record
    the create returned; the fields of its base are those of the payload;
    its [created_at] is at or before its [updated_at], each being one
    reading of the clock; and both are at or after the time at which the
    create began. *)
Theorem create_then_get :
  (forall (a : AllergyCreate) w,
     contains (AllergyBase.person_id a) (persons (db w)) = true ->
     contains (AllergyBase.id a) (allergies (db w)) = false ->
     exists r w',
       create_allergy a w = (Ok r, w')
       /\ get_allergy (AllergyBase.id a) w' = (Ok r, w')
       /\ AllergyRead.base r = a
       /\ (now (env w) <= AllergyRead.created_at r
           <= AllergyRead.updated_at r)%Z)
  /\ (forall (m : MedicationCreate) w,
        contains (MedicationBase.person_id m) (persons (db w)) = true ->
        contains (MedicationBase.id m) (medications (db w)) = false ->
        exists r w',
          create_medication m w = (Ok r, w')
          /\ get_medication (MedicationBase.id m) w' = (Ok r, w')
          /\ MedicationRead.base r = m
          /\ (now (env w) <= MedicationRead.created_at r
              <= MedicationRead.updated_at r)%Z)
  /\ (forall (a : AddressCreate) w,
        contains (AddressBase.id a) (addresses (db w)) = false ->
        exists r w',
          create_address a w = (Ok r, w')
          /\ get_address (AddressBase.id a) w' = (Ok r, w')
          /\ AddressRead.base r = a
          /\ (now (env w) <= AddressRead.created_at r
              <= AddressRead.updated_at r)%Z)
  /\ (forall (p : PersonCreate) w,
        exists r w',
          create_person p w = (Ok r, w')
          /\ get_person (PersonBase.id p) w' = (Ok r, w')
          /\ PersonRead.base r = p
          /\ (now (env w) <= PersonRead.created_at r
              <= PersonRead.updated_at r)%Z).
Proof.
  split; [|split; [|split]].
  - intros a w Hp Hi.
    destruct (create_allergy_ok a w Hp Hi) as [c [u [e' [H [L _]]]]].
    do 2 eexists. split; [exact H|].
    rewrite get_allergy_spec. cbn [db allergies].
    rewrite <- (dict_set_absent _ _ _ Hi), (dict_get_set_same N.eqb_eq).
    repeat split; cbn; lia.
  - intros m w Hp Hi.
    destruct (create_medication_ok m w Hp Hi) as [c [u [e' [H [L _]]]]].
    do 2 eexists. split; [exact H|].
    rewrite get_medication_spec. cbn [db medications].
    rewrite <- (dict_set_absent _ _ _ Hi), (dict_get_set_same N.eqb_eq).
    repeat split; cbn; lia.
  - intros a w Hi.
    destruct (create_address_ok a w Hi) as [c [u [e' [H [L _]]]]].
    do 2 eexists. split; [exact H|].
    rewrite get_address_spec. cbn [db addresses].
    rewrite <- (dict_set_absent _ _ _ Hi), (dict_get_set_same N.eqb_eq).
    repeat split; cbn; lia.
  - intros p w.
    destruct (create_person_ok p w) as [c [u [e' [H [L _]]]]].
    do 2 eexists. split; [exact H|].
    rewrite get_person_spec. cbn [db persons].
    rewrite (dict_get_set_same N.eqb_eq).
    repeat split; cbn; lia.
Qed.

Lemma create_then_get_witness :
  contains 1%N (persons (db (Sample.after (create_person Sample.ada)
                               Sample.start))) = true
  /\ exists r w',
       create_allergy Sample.peanuts
         (Sample.after (create_person Sample.ada) Sample.start) = (Ok r, w')
       /\ get_allergy 11%N w' = (Ok r, w')
       /\ AllergyRead.base r = Sample.peanuts
       /\ (2 <= AllergyRead.created_at r <= AllergyRead.updated_at r)%Z.
Proof.
  destruct create_then_get as [HA _].
  split; [reflexivity|].
  exact (HA Sample.peanuts
           (Sample.after (create_person Sample.ada) Sample.start)
           eq_refl eq_refl).
Defined.

(** C8 as stated fails: the two timestamps are two readings of the clock,
    and differ when it advances between them. *)
Lemma create_then_get_counterexample :
  exists r w',
    create_allergy Sample.peanuts
      (Sample.after (create_person Sample.ada) Sample.start) = (Ok r, w')
    /\ get_allergy 11%N w' = (Ok r, w')
    /\ AllergyRead.created_at r = 3%Z
    /\ AllergyRead.updated_at r = 4%Z
    /\ AllergyRead.created_at r <> AllergyRead.updated_at r.
Proof.
  do 2 eexists. split; [reflexivity|].
  split; [reflexivity|]. split; [reflexivity|]. split; [reflexivity|].
  discriminate.
Qed.

(** ** Listing *)

Lemma In_where {A P} (param : option P) (p : P -> A -> bool) (l : list A)
    (a : A) :
  In a (where_ param p l) <-> In a l /\ holds param p a = true.
Proof. rewrite where_filter. apply filter_In. Qed.

Lemma supplied_true {P} (param : option P) (test : P -> bool) :
  supplied param test = true <-> forall v, param = Some v -> test v = true.
Proof.
  destruct param as [x|]; simpl.
  - split; [intros H v [= <-]; exact H | auto].
  - split; [discriminate | reflexivity].
Qed.

Lemma opt_str_eqb_eq (x : option string) (s : string) :
  opt_str_eqb x s = true <-> x = Some s.
Proof.
  destruct x as [s'|]; simpl.
  - rewrite String.eqb_eq. split; congruence.
  - split; discriminate.
Qed.

Lemma date_is_true (x : option date) (v : string) :
  date_is x v = true <-> exists d, x = Some d /\ date_str d = v.
Proof.
  destruct x as [d|]; cbn [date_is].
  - rewrite String.eqb_eq. split.
    + eauto.
    + now intros [d' [[= <-] H]].
  - split; [discriminate | now intros [d [H _]]].
Qed.

Lemma allergy_matches_satisfies pid al ty sev nd (r : AllergyRead.t) :
  allergy_matches pid al ty sev nd r = true
  <-> allergy_satisfies pid al ty sev nd r.
Proof.
  unfold allergy_matches, allergy_satisfies. cbv zeta.
  rewrite !andb_true_iff, !supplied_true.
  setoid_rewrite N.eqb_eq. setoid_rewrite String.eqb_eq.
  setoid_rewrite date_is_true. tauto.
Qed.

Lemma medication_matches_satisfies pid nm fr cur sd ed (r : MedicationRead.t) :
  medication_matches pid nm fr cur sd ed r = true
  <-> medication_satisfies pid nm fr cur sd ed r.
Proof.
  unfold medication_matches, medication_satisfies. cbv zeta.
  rewrite !andb_true_iff, !supplied_true.
  setoid_rewrite N.eqb_eq. setoid_rewrite String.eqb_eq.
  setoid_rewrite Bool.eqb_true_iff.
  setoid_rewrite date_is_true. tauto.
Qed.

Lemma address_matches_satisfies st ci sa pc co (r : AddressRead.t) :
  address_matches st ci sa pc co r = true
  <-> address_satisfies st ci sa pc co r.
Proof.
  unfold address_matches, address_satisfies. cbv zeta.
  rewrite !andb_true_iff, !supplied_true.
  setoid_rewrite opt_str_eqb_eq. tauto.
Qed.

Lemma list_allergies_filter pid al ty sev nd (d : DB) :
  list_allergies pid al ty sev nd d
  = filter (allergy_matches pid al ty sev nd) (dict_values (allergies d)).
Proof.
  unfold list_allergies. cbv zeta.
  rewrite !where_filter, !filter_filter.
  apply filter_ext. intros r.
  rewrite !andb_assoc. destruct pid, al, ty, sev, nd; reflexivity.
Qed.

Lemma list_medications_filter pid nm fr cur sd ed (d : DB) :
  list_medications pid nm fr cur sd ed d
  = filter (medication_matches pid nm fr cur sd ed)
      (dict_values (medications d)).
Proof.
  unfold list_medications. cbv zeta.
  rewrite !where_filter, !filter_filter.
  apply filter_ext. intros r.
  rewrite !andb_assoc. destruct pid, nm, fr, cur, sd, ed; reflexivity.
Qed.

Lemma list_addresses_filter st ci sa pc co (d : DB) :
  list_addresses st ci sa pc co d
  = filter (address_matches st ci sa pc co) (dict_values (addresses d)).
Proof.
  unfold list_addresses. cbv zeta.
  rewrite !where_filter, !filter_filter.
  apply filter_ext. intros r.
  rewrite !andb_assoc. destruct st, ci, sa, pc, co; reflexivity.
Qed.

(** X17. For the Allergy, Medication and Address stores and every choice
    of query parameters, the list operation returns the values of the store,
    in its order, filtered by one test: the conjunction, over the parameters
    that are supplied, of the equality of the record's field with the
    expected value (a string compared as it is, an enumerated value by its
    string, a date by [str], a flag and an identifier by value).  A record
    is in the result exactly when it is in the store and satisfies every
    supplied pair, and a record whose optional field is [None] is not in the
    result when that field is filtered on. *)
Theorem list_is_conjunctive_filter :
  (forall pid al ty sev nd d,
     list_allergies pid al ty sev nd d
     = filter (allergy_matches pid al ty sev nd) (dict_values (allergies d))
     /\ (forall r,
           In r (list_allergies pid al ty sev nd d)
           <-> In r (dict_values (allergies d))
               /\ allergy_satisfies pid al ty sev nd r)
     /\ (forall r v,
           nd = Some v ->
           AllergyBase.noted_date (AllergyRead.base r) = None ->
           ~ In r (list_allergies pid al ty sev nd d)))
  /\ (forall pid nm fr cur sd ed d,
        list_medications pid nm fr cur sd ed d
        = filter (medication_matches pid nm fr cur sd ed)
            (dict_values (medications d))
        /\ (forall r,
              In r (list_medications pid nm fr cur sd ed d)
              <-> In r (dict_values (medications d))
                  /\ medication_satisfies pid nm fr cur sd ed r)
        /\ (forall r v,
              (sd = Some v
               /\ MedicationBase.start_date (MedicationRead.base r) = None)
              \/ (ed = Some v
                  /\ MedicationBase.end_date (MedicationRead.base r) = None) ->
              ~ In r (list_medications pid nm fr cur sd ed d)))
  /\ (forall st ci sa pc co d,
        list_addresses st ci sa pc co d
        = filter (address_matches st ci sa pc co) (dict_values (addresses d))
        /\ (forall r,
              In r (list_addresses st ci sa pc co d)
              <-> In r (dict_values (addresses d))
                  /\ address_satisfies st ci sa pc co r)
        /\ (forall r v,
              (st = Some v /\ AddressBase.street (AddressRead.base r) = None)
              \/ (ci = Some v /\ AddressBase.city (AddressRead.base r) = None)
              \/ (sa = Some v /\ AddressBase.state (AddressRead.base r) = None)
              \/ (pc = Some v
                  /\ AddressBase.postal_code (AddressRead.base r) = None)
              \/ (co = Some v
                  /\ AddressBase.country (AddressRead.base r) = None) ->
              ~ In r (list_addresses st ci sa pc co d))).
Proof.
  split; [|split].
  - intros pid al ty sev nd d.
    assert (HI : forall r,
               In r (list_allergies pid al ty sev nd d)
               <-> In r (dict_values (allergies d))
                   /\ allergy_satisfies pid al ty sev nd r).
    { intros r. rewrite list_allergies_filter, filter_In.
      now rewrite allergy_matches_satisfies. }
    split; [apply list_allergies_filter|]. split; [exact HI|].
    intros r v Hv Hn Hin. apply HI in Hin.
    destruct Hin as [_ [_ [_ [_ [_ H]]]]].
    destruct (H v Hv) as [x [Hx _]]. congruence.
  - intros pid nm fr cur sd ed d.
    assert (HI : forall r,
               In r (list_medications pid nm fr cur sd ed d)
               <-> In r (dict_values (medications d))
                   /\ medication_satisfies pid nm fr cur sd ed r).
    { intros r. rewrite list_medications_filter, filter_In.
      now rewrite medication_matches_satisfies. }
    split; [apply list_medications_filter|]. split; [exact HI|].
    intros r v Hv Hin. apply HI in Hin.
    destruct Hin as [_ [_ [_ [_ [_ [Hs He]]]]]].
    destruct Hv as [[Hv Hn] | [Hv Hn]].
    + destruct (Hs v Hv) as [x [Hx _]]. congruence.
    + destruct (He v Hv) as [x [Hx _]]. congruence.
  - intros st ci sa pc co d.
    assert (HI : forall r,
               In r (list_addresses st ci sa pc co d)
               <-> In r (dict_values (addresses d))
                   /\ address_satisfies st ci sa pc co r).
    { intros r. rewrite list_addresses_filter, filter_In.
      now rewrite address_matches_satisfies. }
    split; [apply list_addresses_filter|]. split; [exact HI|].
    intros r v Hv Hin. apply HI in Hin.
    destruct Hin as [_ [H1 [H2 [H3 [H4 H5]]]]].
    destruct Hv as [[Hv Hn] | [[Hv Hn] | [[Hv Hn] | [[Hv Hn] | [Hv Hn]]]]].
    + specialize (H1 v Hv). congruence.
    + specialize (H2 v Hv). congruence.
    + specialize (H3 v Hv). congruence.
    + specialize (H4 v Hv). congruence.
    + specialize (H5 v Hv). congruence.
Qed.

Lemma list_is_conjunctive_filter_witness :
  (exists r,
     list_medications None (Some "X") None (Some true) None None
       (db Sample.pharmacy) = [r]
     /\ MedicationRead.base r = Sample.x_current)
  /\ List.length (list_medications None (Some "X") None None None None
               (db Sample.pharmacy)) = 2
  /\ list_medications None None None None None (Some "2025-02-10")
       (db Sample.pharmacy) = [].
Proof.
  destruct list_is_conjunctive_filter as [_ [HM _]].
  split; [|split].
  - eexists.
    rewrite (proj1 (HM None (Some "X") None (Some true) None None
                      (db Sample.pharmacy))).
    split; reflexivity.
  - rewrite (proj1 (HM None (Some "X") None None None None
                      (db Sample.pharmacy))).
    reflexivity.
  - rewrite (proj1 (HM None None None None None (Some "2025-02-10")
                      (db Sample.pharmacy))).
    reflexivity.
Defined.

(** ** The nested filter of list_persons *)

Lemma has_city_existsb (p : PersonRead.t) (v : string) :
  existsb (fun addr => opt_str_eqb (AddressBase.city addr) v)
    (PersonBase.addresses (PersonRead.base p)) = true
  <-> has_city p v.
Proof.
  unfold has_city. rewrite existsb_exists.
  now setoid_rewrite opt_str_eqb_eq.
Qed.

Lemma has_country_existsb (p : PersonRead.t) (v : string) :
  existsb (fun addr => opt_str_eqb (AddressBase.country addr) v)
    (PersonBase.addresses (PersonRead.base p)) = true
  <-> has_country p v.
Proof.
  unfold has_country. rewrite existsb_exists.
  now setoid_rewrite opt_str_eqb_eq.
Qed.

(** C6.  With the city, or the country, as the only filter, a Person of
    the store is listed if and only if one at least of its embedded
    addresses has exactly that city, or that country; next to other filters
    the two tests are added to them.  Ada, whose embedded addresses are in
    NYC and in SF, is returned for [city=SF] and for [city=NYC], not for
    [city=LA]. *)
Theorem list_persons_nested_filter :
  (forall d p v,
     In p (dict_values (persons d)) ->
     (In p (list_persons None None None None None None (Some v) None d)
      <-> has_city p v)
     /\ (In p (list_persons None None None None None None None (Some v) d)
         <-> has_country p v))
  /\ (forall uni fn ln em ph bd city country d p,
        In p (list_persons uni fn ln em ph bd city country d)
        <-> In p (list_persons uni fn ln em ph bd None None d)
            /\ (forall v, city = Some v -> has_city p v)
            /\ (forall v, country = Some v -> has_country p v))
  /\ (exists ada,
        dict_values (persons (db Sample.clinic)) = [ada]
        /\ map AddressBase.city (PersonBase.addresses (PersonRead.base ada))
           = [Some "NYC"; Some "SF"]
        /\ list_persons None None None None None None (Some "SF") None
             (db Sample.clinic) = [ada]
        /\ list_persons None None None None None None (Some "NYC") None
             (db Sample.clinic) = [ada]
        /\ list_persons None None None None None None (Some "LA") None
             (db Sample.clinic) = []).
Proof.
  split; [|split].
  - intros d p v Hp. unfold list_persons. cbv zeta.
    rewrite !In_where. cbn [holds].
    rewrite has_city_existsb, has_country_existsb. tauto.
  - intros uni fn ln em ph bd city country d p.
    unfold list_persons. cbv zeta. rewrite !In_where.
    destruct city as [c|], country as [k|]; cbn [holds];
      rewrite ?has_city_existsb, ?has_country_existsb;
      (split;
       [ intros H; repeat split; try tauto; intros v [= <-]; tauto
       | intros [H [Hc Hk]]; repeat split; try tauto; auto ]).
  - eexists. repeat split; reflexivity.
Qed.

Lemma list_persons_nested_filter_witness :
  exists ada,
    In ada (dict_values (persons (db Sample.clinic)))
    /\ In ada (list_persons None None None None None None (Some "SF") None
                 (db Sample.clinic))
    /\ ~ has_city ada "LA".
Proof.
  destruct list_persons_nested_filter as [H1 _].
  eexists. split; [left; reflexivity|].
  split; [left; reflexivity|].
  intros Hc.
  apply (proj1 (H1 (db Sample.clinic) _ "LA" (or_introl eq_refl))) in Hc.
  exact Hc.
Defined.

(** ** The order of the stores *)

Lemma extends_refl {A} (l : list A) : extends l l.
Proof. exists []. now rewrite app_nil_r. Qed.

Lemma extends_trans {A} (l1 l2 l3 : list A) :
  extends l1 l2 -> extends l2 l3 -> extends l1 l3.
Proof.
  intros [t1 ->] [t2 ->]. exists (t1 ++ t2). now rewrite app_assoc.
Qed.

Lemma extends_set {V} (k : UUID) (v : V) (d : dict UUID V) :
  extends (dict_keys d) (dict_keys (dict_set N.eqb k v d)).
Proof. apply dict_keys_set. Qed.

Lemma keys_extend_refl (d : DB) : keys_extend d d.
Proof. repeat split; apply extends_refl. Qed.

Lemma keys_extend_trans (d1 d2 d3 : DB) :
  keys_extend d1 d2 -> keys_extend d2 d3 -> keys_extend d1 d3.
Proof.
  intros [A1 [B1 [C1 D1]]] [A2 [B2 [C2 D2]]].
  repeat split; eapply extends_trans; eassumption.
Qed.

Create HintDb store.

#[local] Hint Resolve extends_refl extends_set keys_extend_refl : store.

Ltac keys_extend_step :=
  repeat split; cbn [persons addresses allergies medications];
  auto with store.

(** What an endpoint that builds a record and assigns it does to the
    stores: nothing when it raises, one assignment when it returns. *)
Lemma create_address_db (a : AddressCreate) (w : World) :
  db (snd (create_address a w)) = db w
  \/ exists r,
       contains (AddressBase.id a) (addresses (db w)) = false
       /\ db (snd (create_address a w))
          = mkDB (persons (db w))
              (dict_set N.eqb (AddressBase.id a) r (addresses (db w)))
              (allergies (db w)) (medications (db w)).
Proof.
  unfold create_address. rewrite bind_get_db.
  destruct (contains (AddressBase.id a) (addresses (db w))) eqn:Hi;
    [now left|].
  rewrite bind_with_env.
  destruct (AddressRead.init (AddressBase.model_dump a) (env w))
    as [[r|x] e]; [|now left].
  right. exists r. split; [reflexivity|].
  unfold bind, set_address, bind, get_db, put_db, subscript. cbn.
  now rewrite (dict_get_set_same N.eqb_eq).
Qed.

Lemma update_address_db (k : UUID) (u : AddressUpdate.t) (w : World) :
  db (snd (update_address k u w)) = db w
  \/ exists r,
       contains k (addresses (db w)) = true
       /\ db (snd (update_address k u w))
          = mkDB (persons (db w)) (dict_set N.eqb k r (addresses (db w)))
              (allergies (db w)) (medications (db w)).
Proof.
  unfold update_address. rewrite bind_get_db.
  unfold contains, dict_contains, subscript.
  destruct (dict_get N.eqb k (addresses (db w))) as [r0|] eqn:G; cbn [negb];
    [|now left].
  rewrite bind_ret, bind_with_env.
  destruct (AddressRead.init _ (env w)) as [[r|x] e']; [|now left].
  right. exists r. split; [reflexivity|].
  unfold bind, set_address, bind, get_db, put_db. cbn.
  now rewrite (dict_get_set_same N.eqb_eq).
Qed.

Lemma create_person_db (p : PersonCreate) (w : World) :
  db (snd (create_person p w)) = db w
  \/ exists k r,
       db (snd (create_person p w))
       = mkDB (dict_set N.eqb k r (persons (db w))) (addresses (db w))
           (allergies (db w)) (medications (db w)).
Proof.
  unfold create_person. rewrite bind_with_env.
  destruct (PersonRead.init (PersonBase.model_dump p) (env w))
    as [[r|x] e]; [|now left].
  right. now exists (PersonRead.id r), r.
Qed.

Lemma update_person_db (k : UUID) (u : PersonUpdate.t) (w : World) :
  db (snd (update_person k u w)) = db w
  \/ exists r,
       contains k (persons (db w)) = true
       /\ db (snd (update_person k u w))
          = mkDB (dict_set N.eqb k r (persons (db w))) (addresses (db w))
              (allergies (db w)) (medications (db w)).
Proof.
  unfold update_person. rewrite bind_get_db.
  unfold contains, dict_contains, subscript.
  destruct (dict_get N.eqb k (persons (db w))) as [r0|] eqn:G; cbn [negb];
    [|now left].
  rewrite bind_ret, bind_with_env.
  destruct (PersonRead.init _ (env w)) as [[r|x] e']; [|now left].
  right. exists r. split; [reflexivity|].
  unfold bind, set_person, bind, get_db, put_db. cbn.
  now rewrite (dict_get_set_same N.eqb_eq).
Qed.

Lemma create_allergy_db (a : AllergyCreate) (w : World) :
  db (snd (create_allergy a w)) = db w
  \/ exists r,
       contains (AllergyBase.id a) (allergies (db w)) = false
       /\ db (snd (create_allergy a w))
          = mkDB (persons (db w)) (addresses (db w))
              (dict_set N.eqb (AllergyBase.id a) r (allergies (db w)))
              (medications (db w)).
Proof.
  unfold create_allergy. rewrite bind_get_db.
  destruct (truthy_uuid (AllergyBase.person_id a)
            && negb (contains (AllergyBase.person_id a) (persons (db w))));
    [now left|].
  destruct (contains (AllergyBase.id a) (allergies (db w))) eqn:Hi;
    [now left|].
  rewrite bind_with_env.
  destruct (AllergyRead.init (AllergyBase.model_dump a) (env w))
    as [[r|x] e]; [|now left].
  right. exists r. split; [reflexivity|].
  unfold bind, set_allergy, bind, get_db, put_db, subscript. cbn.
  now rewrite (dict_get_set_same N.eqb_eq).
Qed.

Lemma update_allergy_db (k : UUID) (u : AllergyUpdate.t) (w : World) :
  db (snd (update_allergy k u w)) = db w
  \/ exists r,
       contains k (allergies (db w)) = true
       /\ db (snd (update_allergy k u w))
          = mkDB (persons (db w)) (addresses (db w))
              (dict_set N.eqb k r (allergies (db w))) (medications (db w)).
Proof.
  rewrite update_allergy_spec. unfold contains, dict_contains.
  destruct (dict_get N.eqb k (allergies (db w))) as [r0|]; [|now left].
  destruct (AllergyRead_merge r0 u) as [r|x]; [|now left].
  right. now exists r.
Qed.

Lemma create_medication_db (m : MedicationCreate) (w : World) :
  db (snd (create_medication m w)) = db w
  \/ exists r,
       contains (MedicationBase.id m) (medications (db w)) = false
       /\ db (snd (create_medication m w))
          = mkDB (persons (db w)) (addresses (db w)) (allergies (db w))
              (dict_set N.eqb (MedicationBase.id m) r (medications (db w))).
Proof.
  unfold create_medication. rewrite bind_get_db.
  destruct (truthy_uuid (MedicationBase.person_id m)
            && negb (contains (MedicationBase.person_id m) (persons (db w))));
    [now left|].
  destruct (contains (MedicationBase.id m) (medications (db w))) eqn:Hi;
    [now left|].
  rewrite bind_with_env.
  destruct (MedicationRead.init (MedicationBase.model_dump m) (env w))
    as [[r|x] e]; [|now left].
  right. exists r. split; [reflexivity|].
  unfold bind, set_medication, bind, get_db, put_db, subscript. cbn.
  now rewrite (dict_get_set_same N.eqb_eq).
Qed.

Lemma update_medication_db (k : UUID) (u : MedicationUpdate.t) (w : World) :
  db (snd (update_medication k u w)) = db w
  \/ exists r,
       contains k (medications (db w)) = true
       /\ db (snd (update_medication k u w))
          = mkDB (persons (db w)) (addresses (db w)) (allergies (db w))
              (dict_set N.eqb k r (medications (db w))).
Proof.
  rewrite update_medication_spec. unfold contains, dict_contains.
  destruct (dict_get N.eqb k (medications (db w))) as [r0|]; [|now left].
  destruct (MedicationRead_merge r0 u) as [r|x]; [|now left].
  right. now exists r.
Qed.

Lemma serve_keys_extend (rq : request) (w : World) :
  keys_extend (db w) (db (serve rq w)).
Proof.
  destruct rq; cbn [serve]; auto with store.
  - destruct (create_address_db address w) as [-> | [r [_ ->]]];
      keys_extend_step.
  - rewrite get_address_spec.
    destruct (dict_get N.eqb address_id (addresses (db w)));
      auto with store.
  - destruct (update_address_db address_id update w) as [-> | [r [_ ->]]];
      keys_extend_step.
  - destruct (create_person_db person w) as [-> | [k [r ->]]];
      keys_extend_step.
  - rewrite get_person_spec.
    destruct (dict_get N.eqb person_id (persons (db w))); auto with store.
  - destruct (update_person_db person_id update w) as [-> | [r [_ ->]]];
      keys_extend_step.
  - destruct (create_allergy_db allergy w) as [-> | [r [_ ->]]];
      keys_extend_step.
  - rewrite get_allergy_spec.
    destruct (dict_get N.eqb allergy_id (allergies (db w)));
      auto with store.
  - destruct (update_allergy_db allergy_id update w) as [-> | [r [_ ->]]];
      keys_extend_step.
  - destruct (create_medication_db med w) as [-> | [r [_ ->]]];
      keys_extend_step.
  - rewrite get_medication_spec.
    destruct (dict_get N.eqb medication_id (medications (db w)));
      auto with store.
  - destruct (update_medication_db medication_id update w)
      as [-> | [r [_ ->]]]; keys_extend_step.
Qed.

Lemma run_keys_extend (rqs : list request) (w : World) :
  keys_extend (db w) (db (run rqs w)).
Proof.
  unfold run. revert w.
  induction rqs as [|rq rqs IH]; intros w; cbn [fold_left].
  - apply keys_extend_refl.
  - eapply keys_extend_trans; [apply serve_keys_extend | apply IH].
Qed.

Lemma keys_after_update {V} (k : UUID) (r : V) (d : dict UUID V) :
  contains k d = true -> dict_keys (dict_set N.eqb k r d) = dict_keys d.
Proof. apply dict_keys_set_present. Qed.

Lemma keys_after_create {V} (k : UUID) (r : V) (d : dict UUID V) :
  contains k d = false -> dict_keys (dict_set N.eqb k r d) = dict_keys d ++ [k].
Proof.
  intros H. unfold contains in H. rewrite dict_set_absent by assumption.
  unfold dict_keys. now rewrite map_app.
Qed.


Example order_kept_by_updates :
  let w :=
    run [ POST_persons Sample.ada;
          POST_allergies Sample.peanuts;
          POST_allergies Sample.pollen;
          PATCH_allergy 11%N Sample.reaction_rash;
          PATCH_allergy 12%N Sample.severity_null;
          POST_allergies Sample.orphan ] Sample.start in
  dict_keys (allergies (db w)) = [11%N; 12%N]
  /\ map (fun r => AllergyBase.allergen (AllergyRead.base r))
       (list_allergies None None None None None (db w))
     = ["Peanuts"; "Pollen"]
  /\ map (fun r => AllergyBase.reaction (AllergyRead.base r))
       (list_allergies None None None (Some "mild") None (db w))
     = [None].
Proof. repeat split; reflexivity. Qed.

(** ** Invariants of the stores *)

Lemma Forall_values_set {V} (P : V -> Prop) (k : UUID) (v : V)
    (d : dict UUID V) :
  Forall P (dict_values d) -> P v ->
  Forall P (dict_values (dict_set N.eqb k v d)).
Proof.
  intros Hd Hv. induction d as [|[k' v'] r IH]; simpl.
  - now constructor.
  - inversion Hd; subst. destruct (N.eqb k k'); simpl; constructor; auto.
Qed.

Lemma Forall_values_get {V} (P : V -> Prop) (k : UUID) (v : V)
    (d : dict UUID V) :
  Forall P (dict_values d) -> dict_get N.eqb k d = Some v -> P v.
Proof.
  intros Hd Hg. rewrite Forall_forall in Hd. apply Hd.
  eapply dict_get_In. eassumption.
Qed.

Lemma keys_set_NoDup {V} (k : UUID) (v : V) (d : dict UUID V) :
  NoDup (dict_keys d) -> NoDup (dict_keys (dict_set N.eqb k v d)).
Proof. apply (dict_keys_set_NoDup N.eqb_eq). Qed.

Ltac unique_step :=
  repeat split; cbn [persons addresses allergies medications];
  first [ assumption | now apply keys_set_NoDup ].

Lemma run_keys_unique (rqs : list request) (w : World) :
  keys_unique (db w) -> keys_unique (db (run rqs w)).
Proof.
  unfold run. revert w.
  induction rqs as [|rq rqs IH]; intros w Hw; cbn [fold_left]; [assumption|].
  apply IH. clear IH. destruct Hw as [Hp [Ha [Hl Hm]]].
  assert (Hw : keys_unique (db w)) by (repeat split; assumption).
  destruct rq; cbn [serve]; try assumption.
  - destruct (create_address_db address w) as [-> | [r [_ ->]]];
      [assumption|].
    unique_step.
  - rewrite get_address_spec.
    now destruct (dict_get N.eqb address_id (addresses (db w))).
  - destruct (update_address_db address_id update w) as [-> | [r [_ ->]]];
      [assumption|].
    unique_step.
  - destruct (create_person_db person w) as [-> | [k [r ->]]];
      [assumption|].
    unique_step.
  - rewrite get_person_spec.
    now destruct (dict_get N.eqb person_id (persons (db w))).
  - destruct (update_person_db person_id update w) as [-> | [r [_ ->]]];
      [assumption|].
    unique_step.
  - destruct (create_allergy_db allergy w) as [-> | [r [_ ->]]];
      [assumption|].
    unique_step.
  - rewrite get_allergy_spec.
    now destruct (dict_get N.eqb allergy_id (allergies (db w))).
  - destruct (update_allergy_db allergy_id update w) as [-> | [r [_ ->]]];
      [assumption|].
    unique_step.
  - destruct (create_medication_db med w) as [-> | [r [_ ->]]];
      [assumption|].
    unique_step.
  - rewrite get_medication_spec.
    now destruct (dict_get N.eqb medication_id (medications (db w))).
  - destruct (update_medication_db medication_id update w)
      as [-> | [r [_ ->]]]; [assumption|].
    unique_step.
Qed.

(** The timestamps of a new record are two readings of the clock, the
    second after the first. *)
Lemma create_address_stamps (a : AddressCreate) (w : World) :
  db (snd (create_address a w)) = db w
  \/ exists r,
       (AddressRead.created_at r <= AddressRead.updated_at r)%Z
       /\ db (snd (create_address a w))
          = mkDB (persons (db w))
              (dict_set N.eqb (AddressBase.id a) r (addresses (db w)))
              (allergies (db w)) (medications (db w)).
Proof.
  destruct (contains (AddressBase.id a) (addresses (db w))) eqn:Hi.
  - left. unfold create_address. now rewrite bind_get_db, Hi.
  - right. destruct (create_address_ok a w Hi) as [c [u [e' [H [L _]]]]].
    eexists. rewrite H. cbn [snd db]. split; [|now rewrite dict_set_absent].
    cbn. lia.
Qed.

Lemma create_person_stamps (p : PersonCreate) (w : World) :
  exists r,
    (PersonRead.created_at r <= PersonRead.updated_at r)%Z
    /\ db (snd (create_person p w))
       = mkDB (dict_set N.eqb (PersonBase.id p) r (persons (db w)))
           (addresses (db w)) (allergies (db w)) (medications (db w)).
Proof.
  destruct (create_person_ok p w) as [c [u [e' [H [L _]]]]].
  eexists. rewrite H. cbn [snd db]. split; [|reflexivity]. cbn. lia.
Qed.

Lemma create_allergy_stamps (a : AllergyCreate) (w : World) :
  db (snd (create_allergy a w)) = db w
  \/ exists r,
       (AllergyRead.created_at r <= AllergyRead.updated_at r)%Z
       /\ db (snd (create_allergy a w))
          = mkDB (persons (db w)) (addresses (db w))
              (dict_set N.eqb (AllergyBase.id a) r (allergies (db w)))
              (medications (db w)).
Proof.
  destruct (contains (AllergyBase.person_id a) (persons (db w))) eqn:Hp;
    [|left; unfold create_allergy; now rewrite bind_get_db, Hp].
  destruct (contains (AllergyBase.id a) (allergies (db w))) eqn:Hi;
    [left; unfold create_allergy; now rewrite bind_get_db, Hp, Hi|].
  right. destruct (create_allergy_ok a w Hp Hi) as [c [u [e' [H [L _]]]]].
  eexists. rewrite H. cbn [snd db]. split; [|now rewrite dict_set_absent].
  cbn. lia.
Qed.

Lemma create_medication_stamps (m : MedicationCreate) (w : World) :
  db (snd (create_medication m w)) = db w
  \/ exists r,
       (MedicationRead.created_at r <= MedicationRead.updated_at r)%Z
       /\ db (snd (create_medication m w))
          = mkDB (persons (db w)) (addresses (db w)) (allergies (db w))
              (dict_set N.eqb (MedicationBase.id m) r (medications (db w))).
Proof.
  destruct (contains (MedicationBase.person_id m) (persons (db w))) eqn:Hp;
    [|left; unfold create_medication; now rewrite bind_get_db, Hp].
  destruct (contains (MedicationBase.id m) (medications (db w))) eqn:Hi;
    [left; unfold create_medication; now rewrite bind_get_db, Hp, Hi|].
  right. destruct (create_medication_ok m w Hp Hi) as [c [u [e' [H [L _]]]]].
  eexists. rewrite H. cbn [snd db]. split; [|now rewrite dict_set_absent].
  cbn. lia.
Qed.

(** An update rebuilds the record with the timestamps of the stored one:
    both are among the keyword arguments, so neither default is used. *)
Lemma AddressUpdate_keys (u : AddressUpdate.t) :
  NoDup (dict_keys (AddressUpdate.model_dump u)).
Proof.
  simpl. repeat constructor; simpl; intuition discriminate.
Qed.

Lemma PersonUpdate_keys (u : PersonUpdate.t) :
  NoDup (dict_keys (PersonUpdate.model_dump u)).
Proof.
  simpl. repeat constructor; simpl; intuition discriminate.
Qed.

Lemma AddressRead_init_merged_stamps (r r' : AddressRead.t)
    (u : AddressUpdate.t) (e e' : Env) :
  AddressRead.init
    (dict_update String.eqb (AddressRead.model_dump r)
       (AddressUpdate.model_dump_exclude_unset u)) e = (Ok r', e') ->
  AddressRead.created_at r' = AddressRead.created_at r
  /\ AddressRead.updated_at r' = AddressRead.updated_at r.
Proof.
  pose proof (AddressUpdate_keys u) as Hk.
  unfold AddressRead.init, AddressUpdate.model_dump_exclude_unset.
  rewrite (@field_kept _ _ _ Hk _ "created_at"
             (VDatetime (AddressRead.created_at r)) (AddressRead.created_at r))
    by reflexivity.
  rewrite (@field_kept _ _ _ Hk _ "updated_at"
             (VDatetime (AddressRead.updated_at r)) (AddressRead.updated_at r))
    by reflexivity.
  unfold bind at 1.
  destruct (AddressBase.init _ e) as [[b|x] e1]; [|discriminate].
  unfold bind, lift_result, ret. intros H. inversion H. now subst.
Qed.

Lemma PersonRead_init_merged_stamps (r r' : PersonRead.t)
    (u : PersonUpdate.t) (e e' : Env) :
  PersonRead.init
    (dict_update String.eqb (PersonRead.model_dump r)
       (PersonUpdate.model_dump_exclude_unset u)) e = (Ok r', e') ->
  PersonRead.created_at r' = PersonRead.created_at r
  /\ PersonRead.updated_at r' = PersonRead.updated_at r.
Proof.
  pose proof (PersonUpdate_keys u) as Hk.
  unfold PersonRead.init, PersonUpdate.model_dump_exclude_unset.
  rewrite (@field_kept _ _ _ Hk _ "created_at"
             (VDatetime (PersonRead.created_at r)) (PersonRead.created_at r))
    by reflexivity.
  rewrite (@field_kept _ _ _ Hk _ "updated_at"
             (VDatetime (PersonRead.updated_at r)) (PersonRead.updated_at r))
    by reflexivity.
  unfold bind at 1.
  destruct (PersonBase.init _ e) as [[b|x] e1]; [|discriminate].
  unfold bind, lift_result, ret. intros H. inversion H. now subst.
Qed.

Lemma update_address_stamps (k : UUID) (u : AddressUpdate.t) (w : World) :
  db (snd (update_address k u w)) = db w
  \/ exists r0 r,
       dict_get N.eqb k (addresses (db w)) = Some r0
       /\ AddressRead.created_at r = AddressRead.created_at r0
       /\ AddressRead.updated_at r = AddressRead.updated_at r0
       /\ db (snd (update_address k u w))
          = mkDB (persons (db w)) (dict_set N.eqb k r (addresses (db w)))
              (allergies (db w)) (medications (db w)).
Proof.
  unfold update_address. rewrite bind_get_db.
  unfold contains, dict_contains, subscript.
  destruct (dict_get N.eqb k (addresses (db w))) as [r0|] eqn:G; cbn [negb];
    [|now left].
  rewrite bind_ret, bind_with_env.
  destruct (AddressRead.init _ (env w)) as [[r|x] e'] eqn:Hr; [|now left].
  apply AddressRead_init_merged_stamps in Hr. destruct Hr as [Hc Hu].
  right. exists r0, r. repeat split; try assumption.
  unfold bind, set_address, bind, get_db, put_db. cbn.
  now rewrite (dict_get_set_same N.eqb_eq).
Qed.

Lemma update_person_stamps (k : UUID) (u : PersonUpdate.t) (w : World) :
  db (snd (update_person k u w)) = db w
  \/ exists r0 r,
       dict_get N.eqb k (persons (db w)) = Some r0
       /\ PersonRead.created_at r = PersonRead.created_at r0
       /\ PersonRead.updated_at r = PersonRead.updated_at r0
       /\ db (snd (update_person k u w))
          = mkDB (dict_set N.eqb k r (persons (db w))) (addresses (db w))
              (allergies (db w)) (medications (db w)).
Proof.
  unfold update_person. rewrite bind_get_db.
  unfold contains, dict_contains, subscript.
  destruct (dict_get N.eqb k (persons (db w))) as [r0|] eqn:G; cbn [negb];
    [|now left].
  rewrite bind_ret, bind_with_env.
  destruct (PersonRead.init _ (env w)) as [[r|x] e'] eqn:Hr; [|now left].
  apply PersonRead_init_merged_stamps in Hr. destruct Hr as [Hc Hu].
  right. exists r0, r. repeat split; try assumption.
  unfold bind, set_person, bind, get_db, put_db. cbn.
  now rewrite (dict_get_set_same N.eqb_eq).
Qed.

Lemma update_allergy_stamps (k : UUID) (u : AllergyUpdate.t) (w : World) :
  db (snd (update_allergy k u w)) = db w
  \/ exists r0 r,
       dict_get N.eqb k (allergies (db w)) = Some r0
       /\ AllergyRead.created_at r = AllergyRead.created_at r0
       /\ AllergyRead.updated_at r = AllergyRead.updated_at r0
       /\ db (snd (update_allergy k u w))
          = mkDB (persons (db w)) (addresses (db w))
              (dict_set N.eqb k r (allergies (db w))) (medications (db w)).
Proof.
  rewrite update_allergy_spec.
  destruct (dict_get N.eqb k (allergies (db w))) as [r0|]; [|now left].
  destruct (AllergyRead_merge r0 u) as [r|x] eqn:Hm; [|now left].
  apply AllergyRead_merge_Ok in Hm.
  right. exists r0, r. repeat split; try tauto.
Qed.

Lemma update_medication_stamps (k : UUID) (u : MedicationUpdate.t)
    (w : World) :
  db (snd (update_medication k u w)) = db w
  \/ exists r0 r,
       dict_get N.eqb k (medications (db w)) = Some r0
       /\ MedicationRead.created_at r = MedicationRead.created_at r0
       /\ MedicationRead.updated_at r = MedicationRead.updated_at r0
       /\ db (snd (update_medication k u w))
          = mkDB (persons (db w)) (addresses (db w)) (allergies (db w))
              (dict_set N.eqb k r (medications (db w))).
Proof.
  rewrite update_medication_spec.
  destruct (dict_get N.eqb k (medications (db w))) as [r0|]; [|now left].
  destruct (MedicationRead_merge r0 u) as [r|x] eqn:Hm; [|now left].
  apply MedicationRead_merge_Ok in Hm.
  right. exists r0, r. repeat split; try tauto.
Qed.

Ltac stamps_step :=
  repeat split; cbn [persons addresses allergies medications];
  first [ assumption | apply Forall_values_set; [assumption | lia] ].

Ltac stamps_old H G :=
  let L := fresh "L" in
  pose proof (Forall_values_get _ _ H G) as L; cbv beta in L.

(** After any sequence of requests, [updated_at] is at or after
    [created_at] in every stored record. *)
Lemma run_timestamps_ordered (rqs : list request) (w : World) :
  timestamps_ordered (db w) -> timestamps_ordered (db (run rqs w)).
Proof.
  unfold run. revert w.
  induction rqs as [|rq rqs IH]; intros w Hw; cbn [fold_left]; [assumption|].
  apply IH. clear IH. destruct Hw as [Hp [Ha [Hl Hm]]].
  assert (Hw : timestamps_ordered (db w)) by (repeat split; assumption).
  destruct rq; cbn [serve]; try assumption.
  - destruct (create_address_stamps address w) as [-> | [r [L ->]]];
      [assumption | stamps_step].
  - rewrite get_address_spec.
    now destruct (dict_get N.eqb address_id (addresses (db w))).
  - destruct (update_address_stamps address_id update w)
      as [-> | [r0 [r [G [Ec [Eu ->]]]]]]; [assumption|].
    stamps_old Ha G. stamps_step.
  - destruct (create_person_stamps person w) as [r [L ->]]. stamps_step.
  - rewrite get_person_spec.
    now destruct (dict_get N.eqb person_id (persons (db w))).
  - destruct (update_person_stamps person_id update w)
      as [-> | [r0 [r [G [Ec [Eu ->]]]]]]; [assumption|].
    stamps_old Hp G. stamps_step.
  - destruct (create_allergy_stamps allergy w) as [-> | [r [L ->]]];
      [assumption | stamps_step].
  - rewrite get_allergy_spec.
    now destruct (dict_get N.eqb allergy_id (allergies (db w))).
  - destruct (update_allergy_stamps allergy_id update w)
      as [-> | [r0 [r [G [Ec [Eu ->]]]]]]; [assumption|].
    stamps_old Hl G. stamps_step.
  - destruct (create_medication_stamps med w) as [-> | [r [L ->]]];
      [assumption | stamps_step].
  - rewrite get_medication_spec.
    now destruct (dict_get N.eqb medication_id (medications (db w))).
  - destruct (update_medication_stamps medication_id update w)
      as [-> | [r0 [r [G [Ec [Eu ->]]]]]]; [assumption|].
    stamps_old Hm G. stamps_step.
Qed.

(** [list_persons] compares [str(p.birth_date)] with the filter value and
    has no test for [None]: if the birth date of a Person may be [None], as
    this model lets it be, the filter value ["None"] lists that Person. *)
Remark list_persons_birth_date_None :
  exists ada,
    dict_values (persons (db Sample.clinic)) = [ada]
    /\ PersonBase.birth_date (PersonRead.base ada) = None
    /\ list_persons None None None None None (Some "None") None None
         (db Sample.clinic) = [ada].
Proof. eexists. repeat split; reflexivity. Qed.

(** C5, at a failing input.  Ada is stored without a birth date, and
    [GET /persons?birth_date=None] lists her: [list_persons] compares
    [str(p.birth_date)], which is the string of [None], with the filter
    value and has no test for [None].  The sibling filters have that test:
    Ada's medication has no end date and [GET /medications?end_date=None]
    lists nothing, and once her second allergy is stored without a date
    [GET /allergies?noted_date=None] lists nothing either. *)
Theorem list_persons_birth_date_unguarded :
  (exists ada,
     dict_get N.eqb 1%N (persons (db Sample.clinic)) = Some ada
     /\ PersonBase.birth_date (PersonRead.base ada) = None
     /\ list_persons None None None None None (Some "None") None None
          (db Sample.clinic) = [ada])
  /\ (exists m,
        dict_get N.eqb 21%N (medications (db Sample.clinic)) = Some m
        /\ MedicationBase.end_date (MedicationRead.base m) = None
        /\ list_medications None None None None None (Some "None")
             (db Sample.clinic) = [])
  /\ (exists a,
        dict_get N.eqb 12%N
          (allergies
             (db (Sample.after (create_allergy Sample.pollen)
                    Sample.clinic))) = Some a
        /\ AllergyBase.noted_date (AllergyRead.base a) = None
        /\ list_allergies None None None None (Some "None")
             (db (Sample.after (create_allergy Sample.pollen)
                    Sample.clinic)) = []).
Proof.
  split; [|split]; eexists; repeat split; reflexivity.
Qed.

(** * Further properties of the models and of the endpoints *)

(** ** Dictionaries, continued *)

Section DictMore.
Variables K V : Type.
Variable eqb : K -> K -> bool.
Hypothesis eqb_eq : forall a b, eqb a b = true <-> a = b.

(** Assigning to a key the value it has changes nothing. *)
Lemma dict_set_same_value (k : K) (v : V) (d : dict K V) :
  dict_get eqb k d = Some v -> dict_set eqb k v d = d.
Proof.
  induction d as [|[k' v'] r IH]; simpl; [discriminate|].
  destruct (eqb k k'); intros H.
  - congruence.
  - now rewrite IH.
Qed.

(** Assigning twice is assigning once. *)
Lemma dict_set_twice (k : K) (v : V) (d : dict K V) :
  dict_set eqb k v (dict_set eqb k v d) = dict_set eqb k v d.
Proof.
  apply dict_set_same_value. now apply dict_get_set_same.
Qed.

Lemma dict_get_Some_In (k : K) (v : V) (d : dict K V) :
  dict_get eqb k d = Some v -> In (k, v) d.
Proof.
  induction d as [|[k' v'] r IH]; simpl; [discriminate|].
  destruct (eqb k k') eqn:E; intros H.
  - left. apply eqb_eq in E. congruence.
  - right. auto.
Qed.

(** With each key once, an entry of the dictionary is what its key gets. *)
Lemma dict_In_get (k : K) (v : V) (d : dict K V) :
  NoDup (dict_keys d) -> In (k, v) d -> dict_get eqb k d = Some v.
Proof.
  induction d as [|[k' v'] r IH]; simpl; [tauto|].
  intros Hn Hin. inversion Hn as [|? ? Hk Hr]; subst.
  destruct Hin as [Heq | Hin].
  - inversion Heq; subst. now rewrite (proj2 (eqb_eq k k) eq_refl).
  - destruct (eqb k k') eqn:E; [|auto].
    apply eqb_eq in E. subst k'. exfalso. apply Hk.
    unfold dict_keys. apply in_map_iff. now exists (k, v).
Qed.

Lemma dict_contains_In (k : K) (d : dict K V) :
  dict_contains eqb k d = true <-> In k (dict_keys d).
Proof.
  unfold dict_contains.
  destruct (dict_get eqb k d) as [v|] eqn:G.
  - split; [intros _ | reflexivity].
    apply dict_get_Some_In in G.
    unfold dict_keys. apply in_map_iff. now exists (k, v).
  - apply (dict_get_None eqb_eq) in G. split; [discriminate | tauto].
Qed.

(** The entries after an assignment: the old ones, the entry of the key
    apart, and the new one. *)
Lemma dict_set_In (k : K) (v : V) (d : dict K V) (kv : K * V) :
  In kv (dict_set eqb k v d) -> kv = (k, v) \/ In kv d.
Proof.
  induction d as [|[k' v'] r IH]; simpl.
  - intros [H | []]. now left.
  - destruct (eqb k k') eqn:E; simpl.
    + apply eqb_eq in E. subst k'. intros [H | H]; auto.
    + intros [H | H]; auto. destruct (IH H); auto.
Qed.
End DictMore.

Arguments dict_set_same_value {K V eqb} k v d.
Arguments dict_set_twice {K V eqb} eqb_eq k v d.
Arguments dict_get_Some_In {K V eqb} eqb_eq k v d.
Arguments dict_In_get {K V eqb} eqb_eq k v d.
Arguments dict_contains_In {K V eqb} eqb_eq k d.
Arguments dict_set_In {K V eqb} eqb_eq k v d kv.

Lemma world_set_allergy_same (k : UUID) (r : AllergyRead.t) (w : World) :
  dict_get N.eqb k (allergies (db w)) = Some r ->
  world_set_allergy k r w = w.
Proof.
  intros G. unfold world_set_allergy, set_allergy, bind, get_db, put_db.
  cbn [snd fst]. rewrite dict_set_same_value by exact G.
  now rewrite db_eta, world_eta.
Qed.

Lemma world_set_medication_same (k : UUID) (r : MedicationRead.t)
    (w : World) :
  dict_get N.eqb k (medications (db w)) = Some r ->
  world_set_medication k r w = w.
Proof.
  intros G. unfold world_set_medication, set_medication, bind, get_db, put_db.
  cbn [snd fst]. rewrite dict_set_same_value by exact G.
  now rewrite db_eta, world_eta.
Qed.

(** ** Round trip of a stored record through its dump *)

Lemma AllergyRead_init_dump (r : AllergyRead.t) (e : Env) :
  AllergyRead.init (AllergyRead.model_dump r) e = (Ok r, e).
Proof.
  change (AllergyRead.model_dump r)
    with (dict_update String.eqb (AllergyRead.model_dump r)
            (AllergyUpdate.model_dump_exclude_unset Sample.nothing)).
  rewrite AllergyRead_init_merged. now destruct r as [[]].
Qed.

Lemma MedicationRead_init_dump (r : MedicationRead.t) (e : Env) :
  MedicationRead.init (MedicationRead.model_dump r) e = (Ok r, e).
Proof.
  change (MedicationRead.model_dump r)
    with (dict_update String.eqb (MedicationRead.model_dump r)
            (MedicationUpdate.model_dump_exclude_unset
               (MedicationUpdate.mk None None None None None None None None
                  []))).
  rewrite MedicationRead_init_merged. now destruct r as [[]].
Qed.

(** X1. The constructor of a stored Allergy or Medication, and that of
    their create payloads, applied to the dump of a record, returns that
    record and reads neither the clock nor [uuid4]: every field is among
    the keyword arguments, so no default is used. *)
Theorem dump_then_construct :
  (forall (r : AllergyRead.t) e,
     AllergyRead.init (AllergyRead.model_dump r) e = (Ok r, e))
  /\ (forall (a : AllergyBase.t) e,
        AllergyBase.init (AllergyBase.model_dump a) e = (Ok a, e))
  /\ (forall (r : MedicationRead.t) e,
        MedicationRead.init (MedicationRead.model_dump r) e = (Ok r, e))
  /\ (forall (m : MedicationBase.t) e,
        MedicationBase.init (MedicationBase.model_dump m) e = (Ok m, e)).
Proof.
  repeat split; intros.
  - apply AllergyRead_init_dump.
  - apply AllergyBase_init_dump.
  - apply MedicationRead_init_dump.
  - apply MedicationBase_init_dump.
Qed.

(** ** What an update is, case by case *)

Lemma update_allergy_Ok_inv (k : UUID) (u : AllergyUpdate.t) (w w' : World)
    (r' : AllergyRead.t) :
  update_allergy k u w = (Ok r', w') ->
  exists r,
    dict_get N.eqb k (allergies (db w)) = Some r
    /\ AllergyRead_merge r u = Ok r'
    /\ w' = world_set_allergy k r' w.
Proof.
  rewrite update_allergy_spec.
  destruct (dict_get N.eqb k (allergies (db w))) as [r|]; [|discriminate].
  destruct (AllergyRead_merge r u) as [r1|x] eqn:Hm; [|discriminate].
  intros H. inversion H; subst. now exists r.
Qed.

Lemma update_medication_Ok_inv (k : UUID) (u : MedicationUpdate.t)
    (w w' : World) (r' : MedicationRead.t) :
  update_medication k u w = (Ok r', w') ->
  exists r,
    dict_get N.eqb k (medications (db w)) = Some r
    /\ MedicationRead_merge r u = Ok r'
    /\ w' = world_set_medication k r' w.
Proof.
  rewrite update_medication_spec.
  destruct (dict_get N.eqb k (medications (db w))) as [r|]; [|discriminate].
  destruct (MedicationRead_merge r u) as [r1|x] eqn:Hm; [|discriminate].
  intros H. inversion H; subst. now exists r.
Qed.

Lemma choose_unset {A} (k : string) (fs : list string) (new : result A)
    (old : A) :
  is_set k fs = false -> choose k fs new old = Ok old.
Proof. unfold choose. now intros ->. Qed.

Lemma choose_idem {A} (k : string) (fs : list string) (new : result A)
    (old a : A) :
  choose k fs new old = Ok a -> choose k fs new a = Ok a.
Proof. unfold choose. destruct (is_set k fs); congruence. Qed.

Lemma AllergyRead_merge_nothing (r : AllergyRead.t) (u : AllergyUpdate.t) :
  AllergyUpdate_gives_nothing u -> AllergyRead_merge r u = Ok r.
Proof.
  intros Hu. unfold AllergyRead_merge. cbv zeta.
  rewrite !choose_unset by (apply Hu; simpl; tauto).
  now destruct r as [[]].
Qed.

Lemma MedicationRead_merge_nothing (r : MedicationRead.t)
    (u : MedicationUpdate.t) :
  MedicationUpdate_gives_nothing u -> MedicationRead_merge r u = Ok r.
Proof.
  intros Hu. unfold MedicationRead_merge. cbv zeta.
  rewrite !choose_unset by (apply Hu; simpl; tauto).
  now destruct r as [[]].
Qed.

Lemma AllergyRead_merge_idem (r r1 : AllergyRead.t) (u : AllergyUpdate.t) :
  AllergyRead_merge r u = Ok r1 -> AllergyRead_merge r1 u = Ok r1.
Proof.
  unfold AllergyRead_merge at 1. cbv zeta. intros H.
  do 5 and_then_inv H. inversion H; subst r1; clear H.
  unfold AllergyRead_merge. cbv zeta.
  cbn [AllergyRead.base AllergyRead.created_at AllergyRead.updated_at
       AllergyBase.id AllergyBase.person_id AllergyBase.allergen
       AllergyBase.allergy_type AllergyBase.reaction AllergyBase.severity
       AllergyBase.noted_date].
  repeat match goal with
         | H : choose ?k ?fs ?n _ = Ok ?a |- _ =>
             rewrite (choose_idem _ _ _ _ H); clear H
         end.
  reflexivity.
Qed.

Lemma MedicationRead_merge_idem (r r1 : MedicationRead.t)
    (u : MedicationUpdate.t) :
  MedicationRead_merge r u = Ok r1 -> MedicationRead_merge r1 u = Ok r1.
Proof.
  unfold MedicationRead_merge at 1. cbv zeta. intros H.
  do 8 and_then_inv H. inversion H; subst r1; clear H.
  unfold MedicationRead_merge. cbv zeta.
  cbn [MedicationRead.base MedicationRead.created_at
       MedicationRead.updated_at MedicationBase.id MedicationBase.person_id
       MedicationBase.name MedicationBase.dose MedicationBase.dose_unit
       MedicationBase.frequency MedicationBase.instructions
       MedicationBase.start_date MedicationBase.end_date
       MedicationBase.is_current].
  repeat match goal with
         | H : choose ?k ?fs ?n _ = Ok ?a |- _ =>
             rewrite (choose_idem _ _ _ _ H); clear H
         end.
  reflexivity.
Qed.

(** X2. A PATCH of a stored Allergy or Medication whose payload gives no
    field returns the stored record and leaves the whole state as it was. *)
Theorem update_with_nothing_is_identity :
  (forall k u w r,
     dict_get N.eqb k (allergies (db w)) = Some r ->
     AllergyUpdate_gives_nothing u ->
     update_allergy k u w = (Ok r, w))
  /\ (forall k u w r,
        dict_get N.eqb k (medications (db w)) = Some r ->
        MedicationUpdate_gives_nothing u ->
        update_medication k u w = (Ok r, w)).
Proof.
  split; intros k u w r G Hu.
  - rewrite update_allergy_spec, G, AllergyRead_merge_nothing by assumption.
    now rewrite world_set_allergy_same.
  - rewrite update_medication_spec, G, MedicationRead_merge_nothing
      by assumption.
    now rewrite world_set_medication_same.
Qed.

Lemma update_with_nothing_is_identity_witness :
  exists r,
    dict_get N.eqb 11%N (allergies (db Sample.clinic)) = Some r
    /\ AllergyUpdate_gives_nothing Sample.nothing
    /\ update_allergy 11%N Sample.nothing Sample.clinic = (Ok r, Sample.clinic).
Proof.
  destruct update_with_nothing_is_identity as [HA _].
  assert (Hu : AllergyUpdate_gives_nothing Sample.nothing)
    by (intros k _; reflexivity).
  eexists. split; [reflexivity|]. split; [exact Hu|].
  exact (HA 11%N Sample.nothing Sample.clinic _ eq_refl Hu).
Defined.

(** X3. A PATCH is idempotent: sent again after it has succeeded, the same
    payload on the same Allergy or Medication succeeds again, returns the
    same record and leaves the state as the first one left it. *)
Theorem update_twice_is_update_once :
  (forall k u w r1 w1,
     update_allergy k u w = (Ok r1, w1) ->
     update_allergy k u w1 = (Ok r1, w1))
  /\ (forall k u w r1 w1,
        update_medication k u w = (Ok r1, w1) ->
        update_medication k u w1 = (Ok r1, w1)).
Proof.
  split; intros k u w r1 w1 H.
  - destruct (update_allergy_Ok_inv _ _ _ H) as [r [G [Hm ->]]].
    assert (G1 : dict_get N.eqb k
                   (allergies (db (world_set_allergy k r1 w))) = Some r1).
    { rewrite allergies_after_set. apply (dict_get_set_same N.eqb_eq). }
    rewrite update_allergy_spec, G1, (AllergyRead_merge_idem _ _ Hm).
    now rewrite world_set_allergy_same.
  - destruct (update_medication_Ok_inv _ _ _ H) as [r [G [Hm ->]]].
    assert (G1 : dict_get N.eqb k
                   (medications (db (world_set_medication k r1 w)))
                 = Some r1).
    { rewrite medications_after_set. apply (dict_get_set_same N.eqb_eq). }
    rewrite update_medication_spec, G1, (MedicationRead_merge_idem _ _ Hm).
    now rewrite world_set_medication_same.
Qed.

Lemma update_twice_is_update_once_witness :
  exists r1 w1,
    update_allergy 11%N Sample.reaction_rash Sample.clinic = (Ok r1, w1)
    /\ AllergyBase.reaction (AllergyRead.base r1) = Some "Rash"
    /\ update_allergy 11%N Sample.reaction_rash w1 = (Ok r1, w1).
Proof.
  destruct update_twice_is_update_once as [HA _].
  destruct (update_allergy 11%N Sample.reaction_rash Sample.clinic)
    as [[r1|x] w1] eqn:H.
  - exists r1, w1. split; [reflexivity|]. split.
    + vm_compute in H. inversion H. reflexivity.
    + exact (HA 11%N Sample.reaction_rash Sample.clinic r1 w1 H).
  - vm_compute in H. discriminate H.
Defined.

Lemma AllergyUpdate_admissible_or_null (u : AllergyUpdate.t) :
  AllergyUpdate_admissible u \/ AllergyUpdate_required_null u.
Proof.
  unfold AllergyUpdate_admissible, AllergyUpdate_required_null. cbv zeta.
  destruct (AllergyUpdate.allergen u) as [a|];
    [|destruct (is_set "allergen" (AllergyUpdate.model_fields_set u));
      [right; left; now split|]];
    (destruct (AllergyUpdate.allergy_type u) as [t|];
     [|destruct (is_set "allergy_type" (AllergyUpdate.model_fields_set u));
       [right; right; left; now split|]]);
    (destruct (AllergyUpdate.severity u) as [s|];
     [|destruct (is_set "severity" (AllergyUpdate.model_fields_set u));
       [right; right; right; now split|]]);
    left; repeat split; intros; discriminate.
Qed.

Lemma MedicationUpdate_admissible_or_null (u : MedicationUpdate.t) :
  MedicationUpdate_admissible u \/ MedicationUpdate_required_null u.
Proof.
  unfold MedicationUpdate_admissible, MedicationUpdate_required_null.
  cbv zeta.
  destruct (MedicationUpdate.name u) as [a|];
    [|destruct (is_set "name" (MedicationUpdate.model_fields_set u));
      [right; left; now split|]];
    (destruct (MedicationUpdate.frequency u) as [t|];
     [|destruct (is_set "frequency" (MedicationUpdate.model_fields_set u));
       [right; right; left; now split|]]);
    (destruct (MedicationUpdate.is_current u) as [s|];
     [|destruct (is_set "is_current" (MedicationUpdate.model_fields_set u));
       [right; right; right; now split|]]);
    left; repeat split; intros; discriminate.
Qed.

(** X4. The only failures of a PATCH of an Allergy or of a Medication are
    the 404 of an identifier that is not stored and the validation error of
    a payload that gives [None] to a required field of a stored record;
    either way the state after the call is the state before it. *)
Theorem update_fails_in_two_ways :
  (forall k u w x w',
     update_allergy k u w = (Raise x, w') ->
     w' = w
     /\ ((x = HTTPException 404 "Allergy not found"
          /\ contains k (allergies (db w)) = false)
         \/ (x = ValidationError
             /\ contains k (allergies (db w)) = true
             /\ AllergyUpdate_required_null u)))
  /\ (forall k u w x w',
        update_medication k u w = (Raise x, w') ->
        w' = w
        /\ ((x = HTTPException 404 "Medication not found"
             /\ contains k (medications (db w)) = false)
            \/ (x = ValidationError
                /\ contains k (medications (db w)) = true
                /\ MedicationUpdate_required_null u))).
Proof.
  split; intros k u w x w'.
  - rewrite update_allergy_spec. unfold contains, dict_contains.
    destruct (dict_get N.eqb k (allergies (db w))) as [r|].
    + destruct (AllergyRead_merge r u) as [r'|y] eqn:Hm; [discriminate|].
      intros H. inversion H; subst. split; [reflexivity|]. right.
      split; [now apply AllergyRead_merge_Raise in Hm|].
      split; [reflexivity|].
      destruct (AllergyUpdate_admissible_or_null u) as [Ha | Hn];
        [|assumption].
      destruct (AllergyRead_merge_total r Ha) as [r' Hr]. congruence.
    + intros H. inversion H; subst. split; [reflexivity|]. now left.
  - rewrite update_medication_spec. unfold contains, dict_contains.
    destruct (dict_get N.eqb k (medications (db w))) as [r|].
    + destruct (MedicationRead_merge r u) as [r'|y] eqn:Hm; [discriminate|].
      intros H. inversion H; subst. split; [reflexivity|]. right.
      split; [now apply MedicationRead_merge_Raise in Hm|].
      split; [reflexivity|].
      destruct (MedicationUpdate_admissible_or_null u) as [Ha | Hn];
        [|assumption].
      destruct (MedicationRead_merge_total r Ha) as [r' Hr]. congruence.
    + intros H. inversion H; subst. split; [reflexivity|]. now left.
Qed.

Lemma update_fails_in_two_ways_witness :
  update_medication 99%N Sample.dose_5ml Sample.clinic
  = (Raise (HTTPException 404 "Medication not found"), Sample.clinic)
  /\ contains 99%N (medications (db Sample.clinic)) = false.
Proof.
  destruct update_fails_in_two_ways as [_ HM].
  destruct (update_medication 99%N Sample.dose_5ml Sample.clinic)
    as [[r|x] w'] eqn:H.
  - vm_compute in H. discriminate H.
  - destruct (HM 99%N Sample.dose_5ml Sample.clinic x w' H)
      as [-> [[-> Hc] | [_ [Hc _]]]].
    + split; [reflexivity | exact Hc].
    + vm_compute in Hc. discriminate Hc.
Defined.

(** X5. A PATCH of an Allergy or of a Medication that succeeds changes the
    record stored under the identifier and nothing else: the keys of its
    store, the record under every other key, the three other stores, the
    clock and the identifier source are as they were. *)
Theorem update_touches_one_record :
  (forall k u w r' w',
     update_allergy k u w = (Ok r', w') ->
     persons (db w') = persons (db w)
     /\ addresses (db w') = addresses (db w)
     /\ medications (db w') = medications (db w)
     /\ env w' = env w
     /\ dict_keys (allergies (db w')) = dict_keys (allergies (db w))
     /\ dict_get N.eqb k (allergies (db w')) = Some r'
     /\ forall k', k' <> k ->
          dict_get N.eqb k' (allergies (db w'))
          = dict_get N.eqb k' (allergies (db w)))
  /\ (forall k u w r' w',
        update_medication k u w = (Ok r', w') ->
        persons (db w') = persons (db w)
        /\ addresses (db w') = addresses (db w)
        /\ allergies (db w') = allergies (db w)
        /\ env w' = env w
        /\ dict_keys (medications (db w')) = dict_keys (medications (db w))
        /\ dict_get N.eqb k (medications (db w')) = Some r'
        /\ forall k', k' <> k ->
             dict_get N.eqb k' (medications (db w'))
             = dict_get N.eqb k' (medications (db w))).
Proof.
  split; intros k u w r' w' H.
  - destruct (update_allergy_Ok_inv _ _ _ H) as [r [G [Hm ->]]].
    repeat split; try reflexivity.
    + rewrite allergies_after_set. apply keys_after_update.
      unfold contains, dict_contains. now rewrite G.
    + rewrite allergies_after_set. apply (dict_get_set_same N.eqb_eq).
    + intros k' Hk. rewrite allergies_after_set.
      now apply (dict_get_set_other N.eqb_eq).
  - destruct (update_medication_Ok_inv _ _ _ H) as [r [G [Hm ->]]].
    repeat split; try reflexivity.
    + rewrite medications_after_set. apply keys_after_update.
      unfold contains, dict_contains. now rewrite G.
    + rewrite medications_after_set. apply (dict_get_set_same N.eqb_eq).
    + intros k' Hk. rewrite medications_after_set.
      now apply (dict_get_set_other N.eqb_eq).
Qed.

Lemma update_touches_one_record_witness :
  exists r' w',
    update_allergy 11%N Sample.reaction_rash
      (Sample.after (create_allergy Sample.pollen) Sample.clinic) = (Ok r', w')
    /\ dict_keys (allergies (db w')) = [11%N; 12%N]
    /\ dict_get N.eqb 12%N (allergies (db w'))
       = dict_get N.eqb 12%N
           (allergies
              (db (Sample.after (create_allergy Sample.pollen)
                     Sample.clinic)))
    /\ medications (db w') = medications (db Sample.clinic).
Proof.
  destruct update_touches_one_record as [HA _].
  destruct (update_allergy 11%N Sample.reaction_rash
              (Sample.after (create_allergy Sample.pollen) Sample.clinic))
    as [[r'|x] w'] eqn:H.
  - exists r', w'. split; [reflexivity|].
    destruct (HA _ _ _ _ _ H) as [_ [_ [Hm [_ [Hk [_ Ho]]]]]].
    split; [rewrite Hk; reflexivity|].
    split; [apply Ho; discriminate|].
    rewrite Hm. reflexivity.
  - vm_compute in H. discriminate H.
Defined.

(** ** The constructors: defaults, required fields, update payloads *)

Lemma uuid4_Ok (e : Env) : exists i e', uuid4 e = (Ok i, e').
Proof. unfold uuid4. destruct (uuids e); eauto. Qed.

Lemma as_uuid_Raise (v : value) (x : exn) :
  as_uuid v = Raise x -> x = ValidationError.
Proof. destruct v; simpl; congruence. Qed.

Lemma field_required_missing {A} (kw : pydict) (k : string)
    (validate : value -> result A) (e : Env) :
  kw_get k kw = None ->
  field kw k validate required e = (Raise ValidationError, e).
Proof. intros H. now rewrite field_missing. Qed.

(** X6. Called with a [person_id] and an [allergen] only, the constructor
    of an Allergy takes the identifier from [uuid4] and gives the other
    fields their defaults: type [food], severity [moderate], no reaction, no
    date; called without [person_id] or without [allergen] it fails with a
    validation error, whatever the other arguments.  Likewise a Medication
    built from a [person_id] and a [name] has frequency [as_needed], is not
    current and has no dose, unit, instructions or dates, and the
    constructor fails without [person_id] or without [name]. *)
Theorem constructor_defaults_and_required :
  (forall p a e,
     exists i e',
       uuid4 e = (Ok i, e')
       /\ AllergyBase.init [("person_id", VUUID p); ("allergen", VStr a)] e
          = (Ok (AllergyBase.mk i p a AllergyType.food None
                   AllergySeverity.moderate None), e'))
  /\ (forall kw e,
        kw_get "person_id" kw = None \/ kw_get "allergen" kw = None ->
        fst (AllergyBase.init kw e) = Raise ValidationError)
  /\ (forall p n e,
        exists i e',
          uuid4 e = (Ok i, e')
          /\ MedicationBase.init [("person_id", VUUID p); ("name", VStr n)] e
             = (Ok (MedicationBase.mk i p n None None Frequency.as_needed
                      None None None false), e'))
  /\ (forall kw e,
        kw_get "person_id" kw = None \/ kw_get "name" kw = None ->
        fst (MedicationBase.init kw e) = Raise ValidationError).
Proof.
  repeat match goal with |- _ /\ _ => split end.
  - intros p a e. destruct (uuid4_Ok e) as [i [e' H]].
    exists i, e'. split; [exact H|].
    unfold AllergyBase.init.
    rewrite (@field_missing _ _ "id") by reflexivity.
    unfold bind at 1. rewrite H. reflexivity.
  - intros kw e Hm. unfold AllergyBase.init.
    unfold bind at 1.
    destruct (field kw "id" as_uuid uuid4 e) as [[i|x] e1] eqn:Hi.
    + unfold bind at 1.
      destruct (field kw "person_id" as_uuid required e1) as [[p|x] e2]
        eqn:Hp.
      * destruct Hm as [Hm | Hm].
        -- rewrite field_required_missing in Hp by assumption. discriminate.
        -- unfold bind at 1. now rewrite field_required_missing.
      * unfold field in Hp.
        destruct (kw_get "person_id" kw) as [v|].
        -- unfold lift_result in Hp. inversion Hp as [[Hv He]].
           apply as_uuid_Raise in Hv. now subst.
        -- inversion Hp. reflexivity.
    + unfold field in Hi. destruct (kw_get "id" kw) as [v|].
      * unfold lift_result in Hi. inversion Hi as [[Hv He]].
        apply as_uuid_Raise in Hv. now subst.
      * destruct (uuid4_Ok e) as [i [e' H]]. congruence.
  - intros p n e. destruct (uuid4_Ok e) as [i [e' H]].
    exists i, e'. split; [exact H|].
    unfold MedicationBase.init.
    rewrite (@field_missing _ _ "id") by reflexivity.
    unfold bind at 1. rewrite H. reflexivity.
  - intros kw e Hm. unfold MedicationBase.init.
    unfold bind at 1.
    destruct (field kw "id" as_uuid uuid4 e) as [[i|x] e1] eqn:Hi.
    + unfold bind at 1.
      destruct (field kw "person_id" as_uuid required e1) as [[p|x] e2]
        eqn:Hp.
      * destruct Hm as [Hm | Hm].
        -- rewrite field_required_missing in Hp by assumption. discriminate.
        -- unfold bind at 1. now rewrite field_required_missing.
      * unfold field in Hp.
        destruct (kw_get "person_id" kw) as [v|].
        -- unfold lift_result in Hp. inversion Hp as [[Hv He]].
           apply as_uuid_Raise in Hv. now subst.
        -- inversion Hp. reflexivity.
    + unfold field in Hi. destruct (kw_get "id" kw) as [v|].
      * unfold lift_result in Hi. inversion Hi as [[Hv He]].
        apply as_uuid_Raise in Hv. now subst.
      * destruct (uuid4_Ok e) as [i [e' H]]. congruence.
Qed.

Lemma constructor_defaults_and_required_witness :
  kw_get "person_id" [("allergen", VStr "Dust")] = None
  /\ fst (AllergyBase.init [("allergen", VStr "Dust")] (env Sample.start))
     = Raise ValidationError.
Proof.
  destruct constructor_defaults_and_required as [_ [HA _]].
  split; [reflexivity|].
  apply (HA [("allergen", VStr "Dust")] (env Sample.start)).
  left. reflexivity.
Defined.

(** One field of an update payload: given and valid, or not given. *)
Lemma opt_field_Ok {A} (kw : pydict) (k : string)
    (validate : value -> result A) (o : option A) (s : list string) :
  opt_field kw k validate = Ok (o, s) ->
  (s = [k] /\ kw_get k kw <> None)
  \/ (s = [] /\ o = None /\ kw_get k kw = None).
Proof.
  unfold opt_field. destruct (kw_get k kw) as [v|].
  - destruct (as_optional validate v); [|discriminate].
    intros H. inversion H; subst. left. split; [reflexivity | discriminate].
  - intros H. inversion H; subst. now right.
Qed.

Ltac opt_field_cases H :=
  let Hs := fresh "Hs" in
  let Hk := fresh "Hk" in
  let Ho := fresh "Ho" in
  apply opt_field_Ok in H;
  destruct H as [[Hs Hk] | [Hs [Ho Hk]]]; subst.

Ltac roundtrips :=
  repeat first
    [ rewrite (as_optional_roundtrip VStr as_str)
        by (reflexivity || discriminate)
    | rewrite (as_optional_roundtrip VDate as_date)
        by (reflexivity || discriminate)
    | rewrite (as_optional_roundtrip VFloat as_float)
        by (reflexivity || discriminate)
    | rewrite (as_optional_roundtrip VBool as_bool)
        by (reflexivity || discriminate)
    | rewrite (as_optional_roundtrip (fun x => VStr (AllergyType.str x))
                 (as_literal AllergyType.of_str))
        by (apply AllergyType_roundtrip || discriminate)
    | rewrite (as_optional_roundtrip (fun x => VStr (AllergySeverity.str x))
                 (as_literal AllergySeverity.of_str))
        by (apply AllergySeverity_roundtrip || discriminate)
    | rewrite (as_optional_roundtrip (fun x => VStr (DoseUnit.str x))
                 (as_literal DoseUnit.of_str))
        by (apply DoseUnit_roundtrip || discriminate)
    | rewrite (as_optional_roundtrip (fun x => VStr (Frequency.str x))
                 (as_literal Frequency.of_str))
        by (apply Frequency_roundtrip || discriminate) ].

Lemma AllergyUpdate_init_dump (u : AllergyUpdate.t) :
  AllergyUpdate_built u ->
  AllergyUpdate.init (AllergyUpdate.model_dump_exclude_unset u) = Ok u.
Proof.
  destruct u as [a t r s n fs]. unfold AllergyUpdate_built.
  cbn [AllergyUpdate.model_fields_set AllergyUpdate.allergen
       AllergyUpdate.allergy_type AllergyUpdate.reaction
       AllergyUpdate.severity AllergyUpdate.noted_date].
  intros [Hfs [Ha [Ht [Hr [Hs Hn]]]]].
  unfold AllergyUpdate.init, AllergyUpdate.model_dump_exclude_unset,
    opt_field, kw_get, exclude_unset.
  rewrite !(@dict_get_filter _ _ String.eqb String.eqb_eq
              (fun k => is_set k fs)).
  cbn [AllergyUpdate.model_fields_set AllergyUpdate.model_dump
       AllergyUpdate.allergen AllergyUpdate.allergy_type
       AllergyUpdate.reaction AllergyUpdate.severity
       AllergyUpdate.noted_date].
  change (dict_get String.eqb "allergen" _) with (Some (dump_opt VStr a)).
  change (dict_get String.eqb "allergy_type" _)
    with (Some (dump_opt (fun x => VStr (AllergyType.str x)) t)).
  change (dict_get String.eqb "reaction" _) with (Some (dump_opt VStr r)).
  change (dict_get String.eqb "severity" _)
    with (Some (dump_opt (fun x => VStr (AllergySeverity.str x)) s)).
  change (dict_get String.eqb "noted_date" _) with (Some (dump_opt VDate n)).
  unfold AllergyUpdate_fields in Hfs. cbn [filter] in Hfs.
  revert Hfs Ha Ht Hr Hs Hn.
  destruct (is_set "allergen" fs), (is_set "allergy_type" fs),
    (is_set "reaction" fs), (is_set "severity" fs),
    (is_set "noted_date" fs);
    intros Hfs Ha Ht Hr Hs Hn;
    rewrite ?(Ha eq_refl), ?(Ht eq_refl), ?(Hr eq_refl), ?(Hs eq_refl),
      ?(Hn eq_refl);
    subst fs; roundtrips; reflexivity.
Qed.

Ltac built_case :=
  repeat split;
  try reflexivity;
  try (intros; first [ reflexivity | discriminate | assumption ]).

Ltac set_iff_given :=
  let k := fresh "k" in
  let Hin := fresh "Hin" in
  intros k Hin; simpl in Hin;
  repeat (destruct Hin as [<- | Hin]);
  try contradiction;
  (split;
   [ intros Hset; first [ assumption | discriminate Hset ]
   | intros Hgiven; first [ reflexivity | contradiction ] ]).

Lemma AllergyUpdate_init_built (kw : pydict) (u : AllergyUpdate.t) :
  AllergyUpdate.init kw = Ok u ->
  AllergyUpdate_built u
  /\ forall k, In k AllergyUpdate_fields ->
       (is_set k (AllergyUpdate.model_fields_set u) = true
        <-> kw_get k kw <> None).
Proof.
  unfold AllergyUpdate.init.
  destruct (opt_field kw "allergen" as_str) as [[o1 s1]|] eqn:H1;
    [|discriminate].
  destruct (opt_field kw "allergy_type" (as_literal AllergyType.of_str))
    as [[o2 s2]|] eqn:H2; [|discriminate].
  destruct (opt_field kw "reaction" as_str) as [[o3 s3]|] eqn:H3;
    [|discriminate].
  destruct (opt_field kw "severity" (as_literal AllergySeverity.of_str))
    as [[o4 s4]|] eqn:H4; [|discriminate].
  destruct (opt_field kw "noted_date" as_date) as [[o5 s5]|] eqn:H5;
    [|discriminate].
  intros H. inversion H; subst u; clear H.
  opt_field_cases H1; opt_field_cases H2; opt_field_cases H3;
    opt_field_cases H4; opt_field_cases H5;
    (split; [built_case | set_iff_given]).
Qed.

Lemma MedicationUpdate_init_built (kw : pydict) (u : MedicationUpdate.t) :
  MedicationUpdate_init kw = Ok u ->
  MedicationUpdate_built u
  /\ forall k, In k MedicationUpdate_fields ->
       (is_set k (MedicationUpdate.model_fields_set u) = true
        <-> kw_get k kw <> None).
Proof.
  unfold MedicationUpdate_init.
  destruct (opt_field kw "name" as_str) as [[o1 s1]|] eqn:H1;
    [|discriminate].
  destruct (opt_field kw "dose" as_float) as [[o2 s2]|] eqn:H2;
    [|discriminate].
  destruct (opt_field kw "dose_unit" (as_literal DoseUnit.of_str))
    as [[o3 s3]|] eqn:H3; [|discriminate].
  destruct (opt_field kw "frequency" (as_literal Frequency.of_str))
    as [[o4 s4]|] eqn:H4; [|discriminate].
  destruct (opt_field kw "instructions" as_str) as [[o5 s5]|] eqn:H5;
    [|discriminate].
  destruct (opt_field kw "start_date" as_date) as [[o6 s6]|] eqn:H6;
    [|discriminate].
  destruct (opt_field kw "end_date" as_date) as [[o7 s7]|] eqn:H7;
    [|discriminate].
  destruct (opt_field kw "is_current" as_bool) as [[o8 s8]|] eqn:H8;
    [|discriminate].
  intros H. inversion H; subst u; clear H.
  opt_field_cases H1; opt_field_cases H2; opt_field_cases H3;
    opt_field_cases H4; opt_field_cases H5; opt_field_cases H6;
    opt_field_cases H7; opt_field_cases H8;
    (split; [built_case | set_iff_given]).
Qed.

Lemma MedicationUpdate_init_dump (u : MedicationUpdate.t) :
  MedicationUpdate_built u ->
  MedicationUpdate_init (MedicationUpdate.model_dump_exclude_unset u) = Ok u.
Proof.
  destruct u as [n d du f i sd ed c fs]. unfold MedicationUpdate_built.
  cbn [MedicationUpdate.model_fields_set MedicationUpdate.name
       MedicationUpdate.dose MedicationUpdate.dose_unit
       MedicationUpdate.frequency MedicationUpdate.instructions
       MedicationUpdate.start_date MedicationUpdate.end_date
       MedicationUpdate.is_current].
  intros [Hfs [Hn [Hd [Hdu [Hf [Hi [Hsd [Hed Hc]]]]]]]].
  unfold MedicationUpdate_init, MedicationUpdate.model_dump_exclude_unset,
    opt_field, kw_get, exclude_unset.
  rewrite !(@dict_get_filter _ _ String.eqb String.eqb_eq
              (fun k => is_set k fs)).
  cbn [MedicationUpdate.model_fields_set MedicationUpdate.model_dump
       MedicationUpdate.name MedicationUpdate.dose
       MedicationUpdate.dose_unit MedicationUpdate.frequency
       MedicationUpdate.instructions MedicationUpdate.start_date
       MedicationUpdate.end_date MedicationUpdate.is_current].
  change (dict_get String.eqb "name" _) with (Some (dump_opt VStr n)).
  change (dict_get String.eqb "dose" _) with (Some (dump_opt VFloat d)).
  change (dict_get String.eqb "dose_unit" _)
    with (Some (dump_opt (fun x => VStr (DoseUnit.str x)) du)).
  change (dict_get String.eqb "frequency" _)
    with (Some (dump_opt (fun x => VStr (Frequency.str x)) f)).
  change (dict_get String.eqb "instructions" _)
    with (Some (dump_opt VStr i)).
  change (dict_get String.eqb "start_date" _) with (Some (dump_opt VDate sd)).
  change (dict_get String.eqb "end_date" _) with (Some (dump_opt VDate ed)).
  change (dict_get String.eqb "is_current" _) with (Some (dump_opt VBool c)).
  unfold MedicationUpdate_fields in Hfs. cbn [filter] in Hfs.
  revert Hfs Hn Hd Hdu Hf Hi Hsd Hed Hc.
  destruct (is_set "name" fs), (is_set "dose" fs), (is_set "dose_unit" fs),
    (is_set "frequency" fs), (is_set "instructions" fs),
    (is_set "start_date" fs), (is_set "end_date" fs),
    (is_set "is_current" fs);
    intros Hfs Hn Hd Hdu Hf Hi Hsd Hed Hc;
    rewrite ?(Hn eq_refl), ?(Hd eq_refl), ?(Hdu eq_refl), ?(Hf eq_refl),
      ?(Hi eq_refl), ?(Hsd eq_refl), ?(Hed eq_refl), ?(Hc eq_refl);
    subst fs; roundtrips; reflexivity.
Qed.

(** A typed keyword argument passes the validator of its field. *)
Lemma opt_field_typed {A} (kw : pydict) (k : string) (t : pytype)
    (validate : value -> result A) :
  (forall v, isinstance v t = true -> exists a, validate v = Ok a) ->
  optional_kw kw k t = true ->
  exists o s, opt_field kw k validate = Ok (o, s).
Proof.
  intros Hv. unfold optional_kw, opt_field.
  destruct (kw_get k kw) as [v|]; [|eauto].
  intros Ht.
  destruct v; try (now cbn [as_optional]; eauto);
    (destruct (Hv _ Ht) as [a Ha]; cbn [as_optional]; rewrite Ha; eauto).
Qed.

Lemma isinstance_str (v : value) :
  isinstance v TStr = true -> exists a, as_str v = Ok a.
Proof. destruct v; try discriminate. cbn. eauto. Qed.

Lemma isinstance_float (v : value) :
  isinstance v TFloat = true -> exists a, as_float v = Ok a.
Proof. destruct v; try discriminate. cbn. eauto. Qed.

Lemma isinstance_bool (v : value) :
  isinstance v TBool = true -> exists a, as_bool v = Ok a.
Proof. destruct v; try discriminate. cbn. eauto. Qed.

Lemma isinstance_date (v : value) :
  isinstance v TDate = true -> exists a, as_date v = Ok a.
Proof. destruct v; try discriminate. cbn. eauto. Qed.

Ltac listed_literal H :=
  cbn [isinstance existsb] in H;
  repeat (apply orb_true_iff in H; destruct H as [H | H]);
  try discriminate H;
  apply String.eqb_eq in H; subst; eexists; reflexivity.

Lemma isinstance_AllergyType (v : value) :
  isinstance v (TLiteral AllergyType_literal) = true ->
  exists a, as_literal AllergyType.of_str v = Ok a.
Proof.
  destruct v; try discriminate. unfold AllergyType_literal.
  intros H. listed_literal H.
Qed.

Lemma isinstance_AllergySeverity (v : value) :
  isinstance v (TLiteral AllergySeverity_literal) = true ->
  exists a, as_literal AllergySeverity.of_str v = Ok a.
Proof.
  destruct v; try discriminate. unfold AllergySeverity_literal.
  intros H. listed_literal H.
Qed.

Lemma isinstance_DoseUnit (v : value) :
  isinstance v (TLiteral DoseUnit_literal) = true ->
  exists a, as_literal DoseUnit.of_str v = Ok a.
Proof.
  destruct v; try discriminate. unfold DoseUnit_literal.
  intros H. listed_literal H.
Qed.

Lemma isinstance_Frequency (v : value) :
  isinstance v (TLiteral Frequency_literal) = true ->
  exists a, as_literal Frequency.of_str v = Ok a.
Proof.
  destruct v; try discriminate. unfold Frequency_literal.
  intros H. listed_literal H.
Qed.

Lemma AllergyUpdate_init_typed (kw : pydict) :
  AllergyUpdate_typed kw = true -> exists u, AllergyUpdate.init kw = Ok u.
Proof.
  unfold AllergyUpdate_typed. rewrite !andb_true_iff.
  intros [[[[H1 H2] H3] H4] H5].
  destruct (@opt_field_typed _ kw "allergen" _ as_str isinstance_str H1)
    as [o1 [s1 E1]].
  destruct (@opt_field_typed _ kw "allergy_type" _ _ isinstance_AllergyType H2)
    as [o2 [s2 E2]].
  destruct (@opt_field_typed _ kw "reaction" _ as_str isinstance_str H3)
    as [o3 [s3 E3]].
  destruct (@opt_field_typed _ kw "severity" _ _ isinstance_AllergySeverity H4)
    as [o4 [s4 E4]].
  destruct (@opt_field_typed _ kw "noted_date" _ as_date isinstance_date H5)
    as [o5 [s5 E5]].
  unfold AllergyUpdate.init. rewrite E1, E2, E3, E4, E5. eauto.
Qed.

Lemma MedicationUpdate_init_typed (kw : pydict) :
  MedicationUpdate_typed kw = true ->
  exists u, MedicationUpdate_init kw = Ok u.
Proof.
  unfold MedicationUpdate_typed. rewrite !andb_true_iff.
  intros [[[[[[[H1 H2] H3] H4] H5] H6] H7] H8].
  destruct (@opt_field_typed _ kw "name" _ as_str isinstance_str H1)
    as [o1 [s1 E1]].
  destruct (@opt_field_typed _ kw "dose" _ as_float isinstance_float H2)
    as [o2 [s2 E2]].
  destruct (@opt_field_typed _ kw "dose_unit" _ _ isinstance_DoseUnit H3)
    as [o3 [s3 E3]].
  destruct (@opt_field_typed _ kw "frequency" _ _ isinstance_Frequency H4)
    as [o4 [s4 E4]].
  destruct (@opt_field_typed _ kw "instructions" _ as_str isinstance_str H5)
    as [o5 [s5 E5]].
  destruct (@opt_field_typed _ kw "start_date" _ as_date isinstance_date H6)
    as [o6 [s6 E6]].
  destruct (@opt_field_typed _ kw "end_date" _ as_date isinstance_date H7)
    as [o7 [s7 E7]].
  destruct (@opt_field_typed _ kw "is_current" _ as_bool isinstance_bool H8)
    as [o8 [s8 E8]].
  unfold MedicationUpdate_init. rewrite E1, E2, E3, E4, E5, E6, E7, E8. eauto.
Qed.

(** The dump of a payload is typed, whatever fields are left out of it. *)
Lemma optional_kw_dump {A} (f : A -> value) (t : pytype) (fs : list string)
    (d : pydict) (k : string) (o : option A) :
  (forall a, isinstance (f a) t = true) ->
  dict_get String.eqb k d = Some (dump_opt f o) ->
  optional_kw (exclude_unset fs d) k t = true.
Proof.
  intros Hf Hd. unfold optional_kw, kw_get, exclude_unset.
  rewrite (@dict_get_filter _ _ String.eqb String.eqb_eq
             (fun k => is_set k fs)).
  destruct (is_set k fs); [|reflexivity].
  rewrite Hd. destruct o as [a|]; [|reflexivity].
  cbn [dump_opt]. pose proof (Hf a) as Ha.
  destruct (f a); auto.
Qed.

Ltac dumped f o :=
  apply (@optional_kw_dump _ f _ _ _ _ o);
  [ first [ now intros | now intros [] ] | reflexivity ].

Lemma AllergyUpdate_dump_typed (u : AllergyUpdate.t) :
  AllergyUpdate_typed (AllergyUpdate.model_dump_exclude_unset u) = true.
Proof.
  unfold AllergyUpdate_typed, AllergyUpdate.model_dump_exclude_unset.
  rewrite !andb_true_iff. repeat split.
  - dumped VStr (AllergyUpdate.allergen u).
  - dumped (fun x => VStr (AllergyType.str x)) (AllergyUpdate.allergy_type u).
  - dumped VStr (AllergyUpdate.reaction u).
  - dumped (fun x => VStr (AllergySeverity.str x)) (AllergyUpdate.severity u).
  - dumped VDate (AllergyUpdate.noted_date u).
Qed.

Lemma MedicationUpdate_dump_typed (u : MedicationUpdate.t) :
  MedicationUpdate_typed (MedicationUpdate.model_dump_exclude_unset u) = true.
Proof.
  unfold MedicationUpdate_typed, MedicationUpdate.model_dump_exclude_unset.
  rewrite !andb_true_iff. repeat split.
  - dumped VStr (MedicationUpdate.name u).
  - dumped VFloat (MedicationUpdate.dose u).
  - dumped (fun x => VStr (DoseUnit.str x)) (MedicationUpdate.dose_unit u).
  - dumped (fun x => VStr (Frequency.str x)) (MedicationUpdate.frequency u).
  - dumped VStr (MedicationUpdate.instructions u).
  - dumped VDate (MedicationUpdate.start_date u).
  - dumped VDate (MedicationUpdate.end_date u).
  - dumped VBool (MedicationUpdate.is_current u).
Qed.



(** ** Enumerated values and the filters on them *)

Lemma AllergySeverity_of_str_iff (s : string) (x : AllergySeverity.t) :
  AllergySeverity.of_str s = Some x <-> AllergySeverity.str x = s.
Proof.
  split.
  - unfold AllergySeverity.of_str.
    repeat match goal with
           | |- context [String.eqb s ?c] =>
               destruct (String.eqb_spec s c); [subst; intros [= <-]; reflexivity|]
           end.
    discriminate.
  - intros <-. now destruct x.
Qed.

Lemma AllergyType_of_str_iff (s : string) (x : AllergyType.t) :
  AllergyType.of_str s = Some x <-> AllergyType.str x = s.
Proof.
  split.
  - unfold AllergyType.of_str.
    repeat match goal with
           | |- context [String.eqb s ?c] =>
               destruct (String.eqb_spec s c); [subst; intros [= <-]; reflexivity|]
           end.
    discriminate.
  - intros <-. now destruct x.
Qed.

Lemma DoseUnit_of_str_iff (s : string) (x : DoseUnit.t) :
  DoseUnit.of_str s = Some x <-> DoseUnit.str x = s.
Proof.
  split.
  - unfold DoseUnit.of_str.
    repeat match goal with
           | |- context [String.eqb s ?c] =>
               destruct (String.eqb_spec s c); [subst; intros [= <-]; reflexivity|]
           end.
    discriminate.
  - intros <-. now destruct x.
Qed.

Lemma Frequency_of_str_iff (s : string) (x : Frequency.t) :
  Frequency.of_str s = Some x <-> Frequency.str x = s.
Proof.
  split.
  - unfold Frequency.of_str.
    repeat match goal with
           | |- context [String.eqb s ?c] =>
               destruct (String.eqb_spec s c); [subst; intros [= <-]; reflexivity|]
           end.
    discriminate.
  - intros <-. now destruct x.
Qed.

Lemma filter_nothing {A} (p : A -> bool) (l : list A) :
  (forall a, In a l -> p a = false) -> filter p l = [].
Proof.
  induction l as [|x l IH]; intros H; simpl; [reflexivity|].
  rewrite (H x) by now left. apply IH. intros a Ha. apply H. now right.
Qed.

(** X8. A [Literal] field accepts exactly the strings of its list, letter
    case included: a string is read as an enumerated value if and only if
    it is that value's string.  The filters on such fields take any string
    and compare it as it is, so a [severity] or [allergy_type] filter of
    [GET /allergies], or a [frequency] filter of [GET /medications], that
    is not one of the listed strings lists nothing and raises nothing. *)
Theorem unlisted_literal_lists_nothing :
  (forall s x, AllergySeverity.of_str s = Some x <-> AllergySeverity.str x = s)
  /\ (forall s x, AllergyType.of_str s = Some x <-> AllergyType.str x = s)
  /\ (forall s x, DoseUnit.of_str s = Some x <-> DoseUnit.str x = s)
  /\ (forall s x, Frequency.of_str s = Some x <-> Frequency.str x = s)
  /\ (forall s pid al ty nd d,
        AllergySeverity.of_str s = None ->
        list_allergies pid al ty (Some s) nd d = [])
  /\ (forall s pid al sev nd d,
        AllergyType.of_str s = None ->
        list_allergies pid al (Some s) sev nd d = [])
  /\ (forall s pid nm cur sd ed d,
        Frequency.of_str s = None ->
        list_medications pid nm (Some s) cur sd ed d = []).
Proof.
  repeat match goal with |- _ /\ _ => split end.
  - apply AllergySeverity_of_str_iff.
  - apply AllergyType_of_str_iff.
  - apply DoseUnit_of_str_iff.
  - apply Frequency_of_str_iff.
  - intros s pid al ty nd d Hs. rewrite list_allergies_filter.
    apply filter_nothing. intros r _.
    unfold allergy_matches. cbv zeta. cbn [supplied].
    destruct (String.eqb_spec
                (AllergySeverity.str
                   (AllergyBase.severity (AllergyRead.base r))) s) as [E|E].
    + apply AllergySeverity_of_str_iff in E. congruence.
    + now rewrite andb_false_r.
  - intros s pid al sev nd d Hs. rewrite list_allergies_filter.
    apply filter_nothing. intros r _.
    unfold allergy_matches. cbv zeta. cbn [supplied].
    destruct (String.eqb_spec
                (AllergyType.str
                   (AllergyBase.allergy_type (AllergyRead.base r))) s)
      as [E|E].
    + apply AllergyType_of_str_iff in E. congruence.
    + now rewrite andb_false_r.
  - intros s pid nm cur sd ed d Hs. rewrite list_medications_filter.
    apply filter_nothing. intros r _.
    unfold medication_matches. cbv zeta. cbn [supplied].
    destruct (String.eqb_spec
                (Frequency.str
                   (MedicationBase.frequency (MedicationRead.base r))) s)
      as [E|E].
    + apply Frequency_of_str_iff in E. congruence.
    + now rewrite andb_false_r.
Qed.

Lemma unlisted_literal_lists_nothing_witness :
  AllergySeverity.of_str "Severe" = None
  /\ list_allergies None None None (Some "Severe") None (db Sample.clinic) = []
  /\ List.length
       (list_allergies None None None (Some "severe") None (db Sample.clinic))
     = 1.
Proof.
  destruct unlisted_literal_lists_nothing as [_ [_ [_ [_ [HS _]]]]].
  assert (H : AllergySeverity.of_str "Severe" = None) by reflexivity.
  split; [exact H|]. split; [|reflexivity].
  exact (HS "Severe" None None None None (db Sample.clinic) H).
Defined.

(** ** Dates and the filters on them *)

Lemma digit_eq (a b : nat) : digit a = digit b -> a mod 10 = b mod 10.
Proof.
  unfold digit. intros H.
  apply (f_equal nat_of_ascii) in H.
  assert (Ha : a mod 10 < 10) by (apply Nat.mod_upper_bound; discriminate).
  assert (Hb : b mod 10 < 10) by (apply Nat.mod_upper_bound; discriminate).
  rewrite !nat_ascii_embedding in H by lia. lia.
Qed.

Lemma pad2_inj (n m : nat) : n < 100 -> m < 100 -> pad2 n = pad2 m -> n = m.
Proof.
  unfold pad2. intros Hn Hm H. injection H as H1 H0.
  apply digit_eq in H1, H0.
  pose proof (Nat.div_mod_eq n 10). pose proof (Nat.div_mod_eq m 10).
  assert (n / 10 < 10) by (apply Nat.Div0.div_lt_upper_bound; lia).
  assert (m / 10 < 10) by (apply Nat.Div0.div_lt_upper_bound; lia).
  rewrite (Nat.mod_small (n / 10)) in H1 by assumption.
  rewrite (Nat.mod_small (m / 10)) in H1 by assumption.
  lia.
Qed.

Lemma four_digits (n : nat) :
  n < 100 * 100 ->
  n = 1000 * ((n / 1000) mod 10) + 100 * ((n / 100) mod 10)
      + 10 * ((n / 10) mod 10) + n mod 10.
Proof.
  intros Hn.
  assert (E2 : n / 100 = n / 10 / 10)
    by (now rewrite Nat.Div0.div_div).
  assert (E3 : n / 1000 = n / 10 / 10 / 10)
    by (now rewrite !Nat.Div0.div_div).
  rewrite E2, E3.
  pose proof (Nat.div_mod_eq n 10) as D1.
  pose proof (Nat.div_mod_eq (n / 10) 10) as D2.
  pose proof (Nat.div_mod_eq (n / 10 / 10) 10) as D3.
  set (q1 := n / 10) in *. set (q2 := q1 / 10) in *.
  set (q3 := q2 / 10) in *.
  assert (H3 : q3 < 10) by lia.
  rewrite (Nat.mod_small q3) by assumption.
  set (r0 := n mod 10) in *. set (r1 := q1 mod 10) in *.
  set (r2 := q2 mod 10) in *.
  lia.
Qed.

Lemma pad4_inj (n m : nat) :
  n < 100 * 100 -> m < 100 * 100 -> pad4 n = pad4 m -> n = m.
Proof.
  unfold pad4, pad2. intros Hn Hm H. injection H as H3 H2 H1 H0.
  apply digit_eq in H3, H2, H1, H0.
  change (fst (Nat.divmod n 999 0 999)) with (n / 1000) in H3.
  change (fst (Nat.divmod m 999 0 999)) with (m / 1000) in H3.
  change (fst (Nat.divmod n 99 0 99)) with (n / 100) in H2.
  change (fst (Nat.divmod m 99 0 99)) with (m / 100) in H2.
  change (fst (Nat.divmod n 9 0 9)) with (n / 10) in H1.
  change (fst (Nat.divmod m 9 0 9)) with (m / 10) in H1.
  rewrite (four_digits Hn), (four_digits Hm). congruence.
Qed.

Lemma date_str_length (d : date) : String.length (date_str d) = 10.
Proof. reflexivity. Qed.

Lemma String_eq (a b : ascii) (s t : string) :
  String a s = String b t -> a = b /\ s = t.
Proof. intros H. now injection H. Qed.

Lemma date_str_inj (d1 d2 : date) :
  date_in_range d1 -> date_in_range d2 ->
  date_str d1 = date_str d2 -> d1 = d2.
Proof.
  destruct d1 as [y1 m1 a1], d2 as [y2 m2 a2].
  unfold date_in_range, date_str. cbn [year month day].
  intros [Hy1 [Hm1 Ha1]] [Hy2 [Hm2 Ha2]] H.
  unfold pad4, pad2 in H. cbn [append] in H.
  repeat match type of H with
         | String _ _ = String _ _ =>
             let c := fresh "c" in
             apply String_eq in H; destruct H as [c H]
         end.
  assert (Ey : y1 = y2).
  { apply pad4_inj; try lia. unfold pad4, pad2. congruence. }
  assert (Em : m1 = m2).
  { apply pad2_inj; try lia. unfold pad2. congruence. }
  assert (Ea : a1 = a2).
  { apply pad2_inj; try lia. unfold pad2. congruence. }
  congruence.
Qed.

Lemma In_list_allergies pid al ty sev nd (d : DB) (r : AllergyRead.t) :
  In r (list_allergies pid al ty sev nd d)
  <-> In r (dict_values (allergies d))
      /\ allergy_satisfies pid al ty sev nd r.
Proof.
  rewrite list_allergies_filter, filter_In.
  now rewrite allergy_matches_satisfies.
Qed.

Lemma In_list_medications pid nm fr cur sd ed (d : DB)
    (r : MedicationRead.t) :
  In r (list_medications pid nm fr cur sd ed d)
  <-> In r (dict_values (medications d))
      /\ medication_satisfies pid nm fr cur sd ed r.
Proof.
  rewrite list_medications_filter, filter_In.
  now rewrite medication_matches_satisfies.
Qed.

Lemma list_nothing {A} (l : list A) : (forall a, ~ In a l) -> l = [].
Proof.
  destruct l as [|x l]; [reflexivity|].
  intros H. exfalso. apply (H x). now left.
Qed.

(** X9. The string of a date has ten characters, and two dates of the
    range of [datetime.date] with the same string are the same date.  So a
    date filter whose value does not have ten characters lists nothing,
    and, the stored dates being in range, the filter [noted_date=str(d)]
    adds to the other filters exactly the test that the record's date is
    [d]; so does, for a Medication, the filter [start_date=str(d)] whatever
    the [end_date] parameter is, the filter [end_date=str(d)] whatever the
    [start_date] parameter is, and hence the two together. *)
Theorem date_filter_is_exact :
  (forall d, String.length (date_str d) = 10)
  /\ (forall d1 d2,
        date_in_range d1 -> date_in_range d2 ->
        date_str d1 = date_str d2 -> d1 = d2)
  /\ (forall v pid al ty sev d,
        String.length v <> 10 ->
        list_allergies pid al ty sev (Some v) d = [])
  /\ (forall v pid nm fr cur sd ed d,
        String.length v <> 10 ->
        list_medications pid nm fr cur (Some v) ed d = []
        /\ list_medications pid nm fr cur sd (Some v) d = [])
  /\ (forall d0 pid al ty sev d r,
        date_in_range d0 ->
        (forall r' x,
           In r' (dict_values (allergies d)) ->
           AllergyBase.noted_date (AllergyRead.base r') = Some x ->
           date_in_range x) ->
        (In r (list_allergies pid al ty sev (Some (date_str d0)) d)
         <-> In r (list_allergies pid al ty sev None d)
             /\ AllergyBase.noted_date (AllergyRead.base r) = Some d0))
  /\ (forall s0 e0 pid nm fr cur d r,
        date_in_range s0 -> date_in_range e0 ->
        (forall r' x,
           In r' (dict_values (medications d)) ->
           MedicationBase.start_date (MedicationRead.base r') = Some x
           \/ MedicationBase.end_date (MedicationRead.base r') = Some x ->
           date_in_range x) ->
        (In r (list_medications pid nm fr cur (Some (date_str s0))
                 (Some (date_str e0)) d)
         <-> In r (list_medications pid nm fr cur None None d)
             /\ MedicationBase.start_date (MedicationRead.base r) = Some s0
             /\ MedicationBase.end_date (MedicationRead.base r) = Some e0))
  /\ (forall s0 pid nm fr cur ed d r,
        date_in_range s0 ->
        (forall r' x,
           In r' (dict_values (medications d)) ->
           MedicationBase.start_date (MedicationRead.base r') = Some x ->
           date_in_range x) ->
        (In r (list_medications pid nm fr cur (Some (date_str s0)) ed d)
         <-> In r (list_medications pid nm fr cur None ed d)
             /\ MedicationBase.start_date (MedicationRead.base r) = Some s0))
  /\ (forall e0 pid nm fr cur sd d r,
        date_in_range e0 ->
        (forall r' x,
           In r' (dict_values (medications d)) ->
           MedicationBase.end_date (MedicationRead.base r') = Some x ->
           date_in_range x) ->
        (In r (list_medications pid nm fr cur sd (Some (date_str e0)) d)
         <-> In r (list_medications pid nm fr cur sd None d)
             /\ MedicationBase.end_date (MedicationRead.base r) = Some e0)).
Proof.
  repeat match goal with |- _ /\ _ => split end.
  - apply date_str_length.
  - apply date_str_inj.
  - intros v pid al ty sev d Hv. apply list_nothing. intros r Hr.
    apply In_list_allergies in Hr.
    destruct Hr as [_ [_ [_ [_ [_ H]]]]].
    destruct (H v eq_refl) as [x [_ Hx]]. apply Hv. rewrite <- Hx.
    apply date_str_length.
  - intros v pid nm fr cur sd ed d Hv. split.
    + apply list_nothing. intros r Hr.
      apply In_list_medications in Hr.
      destruct Hr as [_ [_ [_ [_ [_ [H _]]]]]].
      destruct (H v eq_refl) as [x [_ Hx]]. apply Hv. rewrite <- Hx.
      apply date_str_length.
    + apply list_nothing. intros r Hr.
      apply In_list_medications in Hr.
      destruct Hr as [_ [_ [_ [_ [_ [_ H]]]]]].
      destruct (H v eq_refl) as [x [_ Hx]]. apply Hv. rewrite <- Hx.
      apply date_str_length.
  - intros d0 pid al ty sev d r H0 Hd.
    rewrite !In_list_allergies. unfold allergy_satisfies. cbv zeta.
    split.
    + intros [Hin [H1 [H2 [H3 [H4 H5]]]]].
      destruct (H5 _ eq_refl) as [x [Hx Hs]].
      assert (x = d0) by (apply date_str_inj; eauto). subst x.
      repeat split; try assumption. discriminate.
    + intros [[Hin [H1 [H2 [H3 [H4 _]]]]] Hn].
      repeat split; try assumption.
      intros v [= <-]. eauto.
  - intros s0 e0 pid nm fr cur d r Hs0 He0 Hd.
    rewrite !In_list_medications. unfold medication_satisfies. cbv zeta.
    split.
    + intros [Hin [H1 [H2 [H3 [H4 [H5 H6]]]]]].
      destruct (H5 _ eq_refl) as [x [Hx Hs]].
      destruct (H6 _ eq_refl) as [y [Hy He]].
      assert (x = s0) by (apply date_str_inj; eauto). subst x.
      assert (y = e0) by (apply date_str_inj; eauto). subst y.
      repeat split; try assumption; discriminate.
    + intros [[Hin [H1 [H2 [H3 [H4 _]]]]] [Hs He]].
      repeat split; try assumption.
      * intros v [= <-]. eauto.
      * intros v [= <-]. eauto.
  - intros s0 pid nm fr cur ed d r Hs0 Hd.
    rewrite !In_list_medications. unfold medication_satisfies. cbv zeta.
    split.
    + intros [Hin [H1 [H2 [H3 [H4 [H5 H6]]]]]].
      destruct (H5 _ eq_refl) as [x [Hx Hs]].
      assert (x = s0) by (apply date_str_inj; eauto). subst x.
      repeat split; try assumption. discriminate.
    + intros [[Hin [H1 [H2 [H3 [H4 [_ H6]]]]]] Hs].
      repeat split; try assumption.
      intros v [= <-]. eauto.
  - intros e0 pid nm fr cur sd d r He0 Hd.
    rewrite !In_list_medications. unfold medication_satisfies. cbv zeta.
    split.
    + intros [Hin [H1 [H2 [H3 [H4 [H5 H6]]]]]].
      destruct (H6 _ eq_refl) as [y [Hy He]].
      assert (y = e0) by (apply date_str_inj; eauto). subst y.
      repeat split; try assumption. discriminate.
    + intros [[Hin [H1 [H2 [H3 [H4 [H5 _]]]]]] He].
      repeat split; try assumption.
      intros v [= <-]. eauto.
Qed.

Lemma date_filter_is_exact_witness :
  date_in_range (mkdate 2023 5 20)
  /\ (exists r,
        list_allergies None None None None (Some "2023-05-20")
          (db Sample.clinic) = [r]
        /\ AllergyBase.noted_date (AllergyRead.base r)
           = Some (mkdate 2023 5 20))
  /\ list_allergies None None None None (Some "2023-5-20") (db Sample.clinic)
     = []
  /\ date_in_range (mkdate 2025 3 1)
  /\ (exists m,
        list_medications None None None None (Some "2025-03-01") None
          (db Sample.clinic) = [m]
        /\ MedicationBase.start_date (MedicationRead.base m)
           = Some (mkdate 2025 3 1)).
Proof.
  destruct date_filter_is_exact as [_ [_ [HL [_ [HA [_ [HS _]]]]]]].
  assert (Hr : date_in_range (mkdate 2023 5 20))
    by (unfold date_in_range; cbn; lia).
  assert (Hm : date_in_range (mkdate 2025 3 1))
    by (unfold date_in_range; cbn; lia).
  split; [exact Hr|]. split; [|split; [|split; [exact Hm|]]].
  - eexists. split; [reflexivity|].
    assert (Hd : forall r' x,
               In r' (dict_values (allergies (db Sample.clinic))) ->
               AllergyBase.noted_date (AllergyRead.base r') = Some x ->
               date_in_range x).
    { intros r' x [<- | []] [= <-]. exact Hr. }
    apply (proj1 (HA (mkdate 2023 5 20) None None None None
                    (db Sample.clinic) _ Hr Hd)).
    left. reflexivity.
  - apply HL. discriminate.
  - eexists. split; [reflexivity|].
    assert (Hd : forall r' x,
               In r' (dict_values (medications (db Sample.clinic))) ->
               MedicationBase.start_date (MedicationRead.base r') = Some x ->
               date_in_range x).
    { intros r' x [<- | []] [= <-]. exact Hm. }
    apply (proj1 (HS (mkdate 2025 3 1) None None None None None
                    (db Sample.clinic) _ Hm Hd)).
    left. reflexivity.
Defined.

(** ** One request, as a step of the stores *)

Lemma create_allergy_step (a : AllergyCreate) (w : World) :
  db_step (db w) (db (snd (create_allergy a w))).
Proof.
  destruct (contains (AllergyBase.person_id a) (persons (db w))) eqn:Hp.
  - destruct (contains (AllergyBase.id a) (allergies (db w))) eqn:Hi.
    + unfold create_allergy. rewrite bind_get_db, Hp, Hi. constructor.
    + destruct (create_allergy_ok a w Hp Hi) as [c [u [e' [H _]]]].
      rewrite H. cbn [snd db].
      rewrite <- (dict_set_absent _ _ _ Hi). now constructor.
  - unfold create_allergy. rewrite bind_get_db, Hp. constructor.
Qed.

Lemma create_medication_step (m : MedicationCreate) (w : World) :
  db_step (db w) (db (snd (create_medication m w))).
Proof.
  destruct (contains (MedicationBase.person_id m) (persons (db w))) eqn:Hp.
  - destruct (contains (MedicationBase.id m) (medications (db w))) eqn:Hi.
    + unfold create_medication. rewrite bind_get_db, Hp, Hi. constructor.
    + destruct (create_medication_ok m w Hp Hi) as [c [u [e' [H _]]]].
      rewrite H. cbn [snd db].
      rewrite <- (dict_set_absent _ _ _ Hi). now constructor.
  - unfold create_medication. rewrite bind_get_db, Hp. constructor.
Qed.

Lemma update_allergy_step (k : UUID) (u : AllergyUpdate.t) (w : World) :
  db_step (db w) (db (snd (update_allergy k u w))).
Proof.
  rewrite update_allergy_spec.
  destruct (dict_get N.eqb k (allergies (db w))) as [r0|] eqn:G;
    [|constructor].
  destruct (AllergyRead_merge r0 u) as [r|x] eqn:Hm; [|constructor].
  cbn [snd]. eapply step_allergy_updated; eassumption.
Qed.

Lemma update_medication_step (k : UUID) (u : MedicationUpdate.t)
    (w : World) :
  db_step (db w) (db (snd (update_medication k u w))).
Proof.
  rewrite update_medication_spec.
  destruct (dict_get N.eqb k (medications (db w))) as [r0|] eqn:G;
    [|constructor].
  destruct (MedicationRead_merge r0 u) as [r|x] eqn:Hm; [|constructor].
  cbn [snd]. eapply step_medication_updated; eassumption.
Qed.

Lemma serve_step (rq : request) (w : World) :
  db_step (db w) (db (serve rq w)).
Proof.
  destruct rq; cbn [serve]; try constructor.
  - destruct (create_address_db address w) as [-> | [r [_ ->]]];
      constructor.
  - rewrite get_address_spec.
    destruct (dict_get N.eqb address_id (addresses (db w))); constructor.
  - destruct (update_address_db address_id update w) as [-> | [r [_ ->]]];
      constructor.
  - destruct (create_person_db person w) as [-> | [k [r ->]]]; constructor.
  - rewrite get_person_spec.
    destruct (dict_get N.eqb person_id (persons (db w))); constructor.
  - destruct (update_person_db person_id update w) as [-> | [r [_ ->]]];
      constructor.
  - apply create_allergy_step.
  - rewrite get_allergy_spec.
    destruct (dict_get N.eqb allergy_id (allergies (db w))); constructor.
  - apply update_allergy_step.
  - apply create_medication_step.
  - rewrite get_medication_spec.
    destruct (dict_get N.eqb medication_id (medications (db w)));
      constructor.
  - apply update_medication_step.
Qed.

(** A property of the stores that every step keeps holds after every
    sequence of requests. *)
Lemma run_invariant (P : DB -> Prop) :
  (forall d d', db_step d d' -> P d -> P d') ->
  forall rqs w, P (db w) -> P (db (run rqs w)).
Proof.
  intros HP rqs. unfold run.
  induction rqs as [|rq rqs IH]; intros w Hw; cbn [fold_left]; [assumption|].
  apply IH. eapply HP; [apply serve_step | assumption].
Qed.

(** ** Invariants kept by every request *)

Lemma contains_set_mono {V} (k k' : UUID) (v : V) (d : dict UUID V) :
  contains k d = true -> contains k (dict_set N.eqb k' v d) = true.
Proof.
  unfold contains. rewrite !(dict_contains_In N.eqb_eq).
  destruct (dict_keys_set (eqb := N.eqb) k' v d) as [t ->].
  intros H. apply in_or_app. now left.
Qed.

Lemma Forall_entries_set {V} (P : UUID * V -> Prop) (k : UUID) (v : V)
    (d : dict UUID V) :
  Forall P d -> P (k, v) -> Forall P (dict_set N.eqb k v d).
Proof.
  intros Hd Hv. induction d as [|[k' v'] r IH]; simpl.
  - now constructor.
  - inversion Hd; subst. destruct (N.eqb_spec k k'); constructor; auto.
    now subst.
Qed.

Lemma owners_exist_step (d d' : DB) :
  db_step d d' -> owners_exist d -> owners_exist d'.
Proof.
  intros Hs [Ha Hm]. unfold owners_exist.
  destruct Hs; cbn [persons allergies medications].
  - now split.
  - split; (eapply Forall_impl; [|eassumption]); cbv beta;
      intros x Hx; now apply contains_set_mono.
  - now split.
  - split; [|assumption]. now apply Forall_values_set.
  - split; [|assumption]. apply Forall_values_set; [assumption|].
    apply AllergyRead_merge_Ok in H0.
    destruct H0 as [_ [_ [-> _]]].
    apply (Forall_values_get _ _ Ha H).
  - split; [assumption|]. now apply Forall_values_set.
  - split; [assumption|]. apply Forall_values_set; [assumption|].
    apply MedicationRead_merge_Ok in H0.
    destruct H0 as [_ [_ [-> _]]].
    apply (Forall_values_get _ _ Hm H).
Qed.

Lemma keyed_by_id_step (d d' : DB) :
  db_step d d' -> keyed_by_id d -> keyed_by_id d'.
Proof.
  intros Hs [Ha Hm]. unfold keyed_by_id.
  destruct Hs; cbn [allergies medications]; try (now split).
  - split; [|assumption]. now apply Forall_entries_set.
  - split; [|assumption]. apply Forall_entries_set; [assumption|].
    cbn [fst snd]. apply AllergyRead_merge_Ok in H0.
    destruct H0 as [_ [-> _]].
    apply (dict_get_Some_In N.eqb_eq) in H.
    rewrite Forall_forall in Ha. apply (Ha _ H).
  - split; [assumption|]. now apply Forall_entries_set.
  - split; [assumption|]. apply Forall_entries_set; [assumption|].
    cbn [fst snd]. apply MedicationRead_merge_Ok in H0.
    destruct H0 as [_ [-> _]].
    apply (dict_get_Some_In N.eqb_eq) in H.
    rewrite Forall_forall in Hm. apply (Hm _ H).
Qed.

Lemma contains_get {V} (k : UUID) (d : dict UUID V) :
  contains k d = true -> exists v, dict_get N.eqb k d = Some v.
Proof.
  unfold contains, dict_contains.
  destruct (dict_get N.eqb k d) as [v|]; [eauto | discriminate].
Qed.

Lemma get_contains {V} (k : UUID) (v : V) (d : dict UUID V) :
  dict_get N.eqb k d = Some v -> contains k d = true.
Proof. unfold contains, dict_contains. now intros ->. Qed.

Lemma In_values_entry {V} (v : V) (d : dict UUID V) :
  In v (dict_values d) -> exists k, In (k, v) d.
Proof.
  unfold dict_values. rewrite in_map_iff.
  intros [[k v'] [E H]]. cbn [snd] in E. subst v'. now exists k.
Qed.

Lemma get_allergy_Ok (k : UUID) (w : World) (r : AllergyRead.t) :
  get_allergy k w = (Ok r, w) <-> dict_get N.eqb k (allergies (db w)) = Some r.
Proof.
  rewrite get_allergy_spec.
  destruct (dict_get N.eqb k (allergies (db w))) as [r0|].
  - split; intros H; inversion H; reflexivity.
  - split; discriminate.
Qed.

Lemma get_medication_Ok (k : UUID) (w : World) (r : MedicationRead.t) :
  get_medication k w = (Ok r, w)
  <-> dict_get N.eqb k (medications (db w)) = Some r.
Proof.
  rewrite get_medication_spec.
  destruct (dict_get N.eqb k (medications (db w))) as [r0|].
  - split; intros H; inversion H; reflexivity.
  - split; discriminate.
Qed.

(** X10. No stored Allergy or Medication is left without its Person.  When
    every stored Allergy and Medication refers to a stored Person, as in a
    fresh process, the same holds after every sequence of requests: for
    every record that [GET /allergies] or [GET /medications] lists, with
    any filters, [GET /persons/{person_id}] succeeds. *)
Theorem owners_always_exist (rqs : list request) (w : World) :
  owners_exist (db w) ->
  (forall pid al ty sev nd r,
     In r (list_allergies pid al ty sev nd (db (run rqs w))) ->
     exists p,
       get_person (AllergyBase.person_id (AllergyRead.base r)) (run rqs w)
       = (Ok p, run rqs w))
  /\ (forall pid nm fr cur sd ed r,
        In r (list_medications pid nm fr cur sd ed (db (run rqs w))) ->
        exists p,
          get_person (MedicationBase.person_id (MedicationRead.base r))
            (run rqs w)
          = (Ok p, run rqs w)).
Proof.
  intros H0.
  destruct (run_invariant owners_exist owners_exist_step rqs w H0)
    as [Ha Hm].
  rewrite Forall_forall in Ha, Hm.
  split.
  - intros pid al ty sev nd r Hr.
    apply In_list_allergies in Hr. destruct Hr as [Hr _].
    destruct (contains_get _ _ (Ha r Hr)) as [p Hp].
    exists p. now rewrite get_person_spec, Hp.
  - intros pid nm fr cur sd ed r Hr.
    apply In_list_medications in Hr. destruct Hr as [Hr _].
    destruct (contains_get _ _ (Hm r Hr)) as [p Hp].
    exists p. now rewrite get_person_spec, Hp.
Qed.

Lemma owners_always_exist_witness :
  owners_exist empty_db
  /\ forall r,
       In r (list_allergies None None None None None
               (db (run [POST_persons Sample.ada;
                         POST_allergies Sample.peanuts;
                         PATCH_allergy 11%N Sample.reaction_rash;
                         POST_persons Sample.augusta] Sample.start))) ->
       exists p,
         get_person (AllergyBase.person_id (AllergyRead.base r))
           (run [POST_persons Sample.ada;
                 POST_allergies Sample.peanuts;
                 PATCH_allergy 11%N Sample.reaction_rash;
                 POST_persons Sample.augusta] Sample.start)
         = (Ok p,
            run [POST_persons Sample.ada;
                 POST_allergies Sample.peanuts;
                 PATCH_allergy 11%N Sample.reaction_rash;
                 POST_persons Sample.augusta] Sample.start).
Proof.
  assert (H : owners_exist empty_db) by (split; constructor).
  split; [exact H|].
  destruct (owners_always_exist
              [POST_persons Sample.ada; POST_allergies Sample.peanuts;
               PATCH_allergy 11%N Sample.reaction_rash;
               POST_persons Sample.augusta] Sample.start H) as [HA _].
  exact (HA None None None None None).
Defined.

(** X11. Reading by identifier and listing agree.  When every Allergy and
    Medication is stored under its own identifier, as in a fresh process,
    then after every sequence of requests [GET /allergies/{k}] returns [r]
    exactly when the unfiltered [GET /allergies] lists [r] and [r.id] is
    [k]; so no two listed records share an identifier.  Likewise for a
    Medication. *)
Theorem get_agrees_with_list (rqs : list request) (w : World) :
  keys_unique (db w) -> keyed_by_id (db w) ->
  (forall k r,
     get_allergy k (run rqs w) = (Ok r, run rqs w)
     <-> In r (list_allergies None None None None None (db (run rqs w)))
         /\ AllergyBase.id (AllergyRead.base r) = k)
  /\ (forall k r,
        get_medication k (run rqs w) = (Ok r, run rqs w)
        <-> In r (list_medications None None None None None None
                    (db (run rqs w)))
            /\ MedicationBase.id (MedicationRead.base r) = k).
Proof.
  intros Hu Hk.
  destruct (run_keys_unique rqs w Hu) as [_ [_ [Ua Um]]].
  destruct (run_invariant keyed_by_id keyed_by_id_step rqs w Hk) as [Ka Km].
  rewrite Forall_forall in Ka, Km.
  split; intros k r.
  - rewrite get_allergy_Ok. cbn [list_allergies where_]. split.
    + intros G. split; [now apply (dict_get_In _ _ _ G)|].
      apply (dict_get_Some_In N.eqb_eq) in G. apply (Ka _ G).
    + intros [Hr Hi]. destruct (In_values_entry _ _ Hr) as [k' Hin].
      pose proof (Ka _ Hin) as E. cbn [fst snd] in E.
      rewrite Hi in E. subst k'.
      now apply (dict_In_get N.eqb_eq).
  - rewrite get_medication_Ok. cbn [list_medications where_]. split.
    + intros G. split; [now apply (dict_get_In _ _ _ G)|].
      apply (dict_get_Some_In N.eqb_eq) in G. apply (Km _ G).
    + intros [Hr Hi]. destruct (In_values_entry _ _ Hr) as [k' Hin].
      pose proof (Km _ Hin) as E. cbn [fst snd] in E.
      rewrite Hi in E. subst k'.
      now apply (dict_In_get N.eqb_eq).
Qed.

Lemma get_agrees_with_list_witness :
  keys_unique empty_db /\ keyed_by_id empty_db
  /\ forall r,
       In r (list_allergies None None None None None
               (db (run [POST_persons Sample.ada;
                         POST_allergies Sample.peanuts;
                         POST_allergies Sample.pollen] Sample.start)))
       /\ AllergyBase.id (AllergyRead.base r) = 12%N ->
       get_allergy 12%N
         (run [POST_persons Sample.ada; POST_allergies Sample.peanuts;
               POST_allergies Sample.pollen] Sample.start)
       = (Ok r,
          run [POST_persons Sample.ada; POST_allergies Sample.peanuts;
               POST_allergies Sample.pollen] Sample.start).
Proof.
  assert (Hu : keys_unique empty_db) by (repeat split; constructor).
  assert (Hk : keyed_by_id empty_db) by (split; constructor).
  split; [exact Hu|]. split; [exact Hk|].
  destruct (get_agrees_with_list
              [POST_persons Sample.ada; POST_allergies Sample.peanuts;
               POST_allergies Sample.pollen] Sample.start Hu Hk) as [HA _].
  intros r. exact (proj2 (HA 12%N r)).
Defined.

(** ** Filters: asking for less *)

Lemma filter_subseq_impl {A} (p q : A -> bool) (l : list A) :
  (forall x, p x = true -> q x = true) -> subseq (filter p l) (filter q l).
Proof.
  intros H. induction l as [|x l IH]; cbn [filter]; [constructor|].
  destruct (p x) eqn:P.
  - rewrite (H x P). now apply subseq_keep.
  - destruct (q x); [now apply subseq_skip | assumption].
Qed.

Lemma supplied_asks_less {P} (p' p : option P) (t : P -> bool) :
  asks_less p' p -> supplied p t = true -> supplied p' t = true.
Proof. intros [-> | ->]; [reflexivity | trivial]. Qed.

(** X12. Dropping query parameters never loses a record.  When each
    parameter of a second query is either absent or the one of the first
    query, what [GET /allergies] lists for the first query is a
    subsequence of what it lists for the second: the same records in the
    same order, with some left out.  Likewise for [GET /medications]. *)
Theorem fewer_filters_list_more :
  (forall pid al ty sev nd pid' al' ty' sev' nd' d,
     asks_less pid' pid -> asks_less al' al -> asks_less ty' ty ->
     asks_less sev' sev -> asks_less nd' nd ->
     subseq (list_allergies pid al ty sev nd d)
       (list_allergies pid' al' ty' sev' nd' d))
  /\ (forall pid nm fr cur sd ed pid' nm' fr' cur' sd' ed' d,
        asks_less pid' pid -> asks_less nm' nm -> asks_less fr' fr ->
        asks_less cur' cur -> asks_less sd' sd -> asks_less ed' ed ->
        subseq (list_medications pid nm fr cur sd ed d)
          (list_medications pid' nm' fr' cur' sd' ed' d)).
Proof.
  split.
  - intros pid al ty sev nd pid' al' ty' sev' nd' d H1 H2 H3 H4 H5.
    rewrite !list_allergies_filter. apply filter_subseq_impl.
    intros x. unfold allergy_matches. cbv zeta.
    rewrite !andb_true_iff. intros [[[[G1 G2] G3] G4] G5].
    repeat split; eapply supplied_asks_less; eassumption.
  - intros pid nm fr cur sd ed pid' nm' fr' cur' sd' ed' d
      H1 H2 H3 H4 H5 H6.
    rewrite !list_medications_filter. apply filter_subseq_impl.
    intros x. unfold medication_matches. cbv zeta.
    rewrite !andb_true_iff. intros [[[[[G1 G2] G3] G4] G5] G6].
    repeat split; eapply supplied_asks_less; eassumption.
Qed.

Lemma fewer_filters_list_more_witness :
  subseq
    (list_medications (Some 1%N) (Some "X") None (Some true) None None
       (db Sample.pharmacy))
    (list_medications None (Some "X") None None None None
       (db Sample.pharmacy)).
Proof.
  destruct fewer_filters_list_more as [_ HM].
  apply HM; first [now left | now right].
Defined.

(** ** Creation *)

Lemma create_allergy_Ok_inv (a : AllergyCreate) (w w' : World)
    (r : AllergyRead.t) :
  create_allergy a w = (Ok r, w') ->
  contains (AllergyBase.person_id a) (persons (db w)) = true
  /\ contains (AllergyBase.id a) (allergies (db w)) = false.
Proof.
  destruct (contains (AllergyBase.person_id a) (persons (db w))) eqn:Hp.
  - destruct (contains (AllergyBase.id a) (allergies (db w))) eqn:Hi.
    + unfold create_allergy. rewrite bind_get_db, Hp, Hi. discriminate.
    + auto.
  - unfold create_allergy. rewrite bind_get_db, Hp. discriminate.
Qed.

Lemma create_medication_Ok_inv (m : MedicationCreate) (w w' : World)
    (r : MedicationRead.t) :
  create_medication m w = (Ok r, w') ->
  contains (MedicationBase.person_id m) (persons (db w)) = true
  /\ contains (MedicationBase.id m) (medications (db w)) = false.
Proof.
  destruct (contains (MedicationBase.person_id m) (persons (db w))) eqn:Hp.
  - destruct (contains (MedicationBase.id m) (medications (db w))) eqn:Hi.
    + unfold create_medication. rewrite bind_get_db, Hp, Hi. discriminate.
    + auto.
  - unfold create_medication. rewrite bind_get_db, Hp. discriminate.
Qed.

Lemma dict_get_app_other {V} (k k0 : UUID) (v : V) (d : dict UUID V) :
  k0 <> k -> dict_get N.eqb k0 (d ++ [(k, v)]) = dict_get N.eqb k0 d.
Proof.
  intros Hne. induction d as [|[k' v'] r IH]; cbn [app dict_get].
  - now rewrite (proj2 (N.eqb_neq k0 k) Hne).
  - now rewrite IH.
Qed.

(** X13. [POST /allergies] succeeds exactly when the payload's [person_id]
    is the identifier of a stored Person and its [id] is not yet the
    identifier of a stored Allergy; the construction of the record and the
    read-back after the assignment cannot fail.  Likewise for
    [POST /medications]. *)
Theorem create_succeeds_exactly_when :
  (forall (a : AllergyCreate) w,
     (exists r w', create_allergy a w = (Ok r, w'))
     <-> contains (AllergyBase.person_id a) (persons (db w)) = true
         /\ contains (AllergyBase.id a) (allergies (db w)) = false)
  /\ (forall (m : MedicationCreate) w,
        (exists r w', create_medication m w = (Ok r, w'))
        <-> contains (MedicationBase.person_id m) (persons (db w)) = true
            /\ contains (MedicationBase.id m) (medications (db w)) = false).
Proof.
  split.
  - intros a w. split.
    + intros [r [w' H]]. apply (create_allergy_Ok_inv _ _ H).
    + intros [Hp Hi].
      destruct (create_allergy_ok a w Hp Hi) as [c [u [e' [H _]]]]. eauto.
  - intros m w. split.
    + intros [r [w' H]]. apply (create_medication_Ok_inv _ _ H).
    + intros [Hp Hi].
      destruct (create_medication_ok m w Hp Hi) as [c [u [e' [H _]]]]. eauto.
Qed.

Lemma create_succeeds_exactly_when_witness :
  (exists r w', create_allergy Sample.pollen Sample.clinic = (Ok r, w'))
  /\ ~ (exists r w', create_allergy Sample.peanuts Sample.clinic = (Ok r, w'))
  /\ ~ (exists r w', create_allergy Sample.orphan Sample.clinic = (Ok r, w')).
Proof.
  destruct create_succeeds_exactly_when as [HA _].
  split; [|split].
  - apply HA. split; reflexivity.
  - intros H. apply HA in H. destruct H as [_ H]. discriminate H.
  - intros H. apply HA in H. destruct H as [H _]. discriminate H.
Defined.

(** X14. A [POST /allergies] that succeeds returns a record with the
    payload's fields, puts it at the end of what [GET /allergies] lists,
    and changes nothing else: every Allergy stored before is still read
    under its identifier, and the Person, Address and Medication stores are
    as they were.  Likewise for [POST /medications]. *)
Theorem create_appends_one_record :
  (forall (a : AllergyCreate) w r w',
     create_allergy a w = (Ok r, w') ->
     AllergyRead.base r = a
     /\ list_allergies None None None None None (db w')
        = list_allergies None None None None None (db w) ++ [r]
     /\ (forall k, k <> AllergyBase.id a ->
           dict_get N.eqb k (allergies (db w'))
           = dict_get N.eqb k (allergies (db w)))
     /\ persons (db w') = persons (db w)
     /\ addresses (db w') = addresses (db w)
     /\ medications (db w') = medications (db w))
  /\ (forall (m : MedicationCreate) w r w',
        create_medication m w = (Ok r, w') ->
        MedicationRead.base r = m
        /\ list_medications None None None None None None (db w')
           = list_medications None None None None None None (db w) ++ [r]
        /\ (forall k, k <> MedicationBase.id m ->
              dict_get N.eqb k (medications (db w'))
              = dict_get N.eqb k (medications (db w)))
        /\ persons (db w') = persons (db w)
        /\ addresses (db w') = addresses (db w)
        /\ allergies (db w') = allergies (db w)).
Proof.
  split.
  - intros a w r w' H.
    destruct (create_allergy_Ok_inv _ _ H) as [Hp Hi].
    destruct (create_allergy_ok a w Hp Hi) as [c [u [e' [H' _]]]].
    rewrite H' in H. inversion H; subst r w'. clear H.
    cbn [db persons addresses allergies medications AllergyRead.base
         list_allergies where_].
    repeat split.
    + unfold dict_values. now rewrite map_app.
    + intros k Hk. now apply dict_get_app_other.
  - intros m w r w' H.
    destruct (create_medication_Ok_inv _ _ H) as [Hp Hi].
    destruct (create_medication_ok m w Hp Hi) as [c [u [e' [H' _]]]].
    rewrite H' in H. inversion H; subst r w'. clear H.
    cbn [db persons addresses allergies medications MedicationRead.base
         list_medications where_].
    repeat split.
    + unfold dict_values. now rewrite map_app.
    + intros k Hk. now apply dict_get_app_other.
Qed.

Lemma create_appends_one_record_witness :
  exists r w',
    create_allergy Sample.pollen Sample.clinic = (Ok r, w')
    /\ AllergyRead.base r = Sample.pollen
    /\ list_allergies None None None None None (db w')
       = list_allergies None None None None None (db Sample.clinic) ++ [r]
    /\ medications (db w') = medications (db Sample.clinic).
Proof.
  destruct create_appends_one_record as [HA _].
  destruct (create_allergy Sample.pollen Sample.clinic)
    as [[r|x] w'] eqn:H.
  - exists r, w'. split; [reflexivity|].
    destruct (HA _ _ _ _ H) as [Hb [Hl [_ [_ [_ Hm]]]]].
    split; [exact Hb|]. split; [exact Hl | exact Hm].
  - vm_compute in H. discriminate H.
Defined.

(** ** What no request changes *)

Lemma allergy_fixed_fields_step (k : UUID) (r : AllergyRead.t) (d d' : DB) :
  db_step d d' ->
  (exists r', dict_get N.eqb k (allergies d) = Some r'
              /\ allergy_fixed_fields r' = allergy_fixed_fields r) ->
  exists r', dict_get N.eqb k (allergies d') = Some r'
             /\ allergy_fixed_fields r' = allergy_fixed_fields r.
Proof.
  intros Hs [r' [G E]].
  destruct Hs; cbn [allergies]; try (now exists r').
  - exists r'. split; [|assumption].
    rewrite (dict_get_set_other N.eqb_eq); [assumption|].
    intros ->. unfold contains, dict_contains in H0.
    rewrite G in H0. discriminate H0.
  - destruct (N.eq_dec k k0) as [<- | Hne].
    + exists r1. split; [apply (dict_get_set_same N.eqb_eq)|].
      rewrite G in H. inversion H; subst r0.
      apply AllergyRead_merge_Ok in H0.
      destruct H0 as [_ [Hi [Hp [Hc Hu]]]].
      rewrite <- E. unfold allergy_fixed_fields. congruence.
    + exists r'. split; [|assumption].
      now rewrite (dict_get_set_other N.eqb_eq).
Qed.

Lemma medication_fixed_fields_step (k : UUID) (r : MedicationRead.t)
    (d d' : DB) :
  db_step d d' ->
  (exists r', dict_get N.eqb k (medications d) = Some r'
              /\ medication_fixed_fields r' = medication_fixed_fields r) ->
  exists r', dict_get N.eqb k (medications d') = Some r'
             /\ medication_fixed_fields r' = medication_fixed_fields r.
Proof.
  intros Hs [r' [G E]].
  destruct Hs; cbn [medications]; try (now exists r').
  - exists r'. split; [|assumption].
    rewrite (dict_get_set_other N.eqb_eq); [assumption|].
    intros ->. unfold contains, dict_contains in H0.
    rewrite G in H0. discriminate H0.
  - destruct (N.eq_dec k k0) as [<- | Hne].
    + exists r1. split; [apply (dict_get_set_same N.eqb_eq)|].
      rewrite G in H. inversion H; subst r0.
      apply MedicationRead_merge_Ok in H0.
      destruct H0 as [_ [Hi [Hp [Hc Hu]]]].
      rewrite <- E. unfold medication_fixed_fields. congruence.
    + exists r'. split; [|assumption].
      now rewrite (dict_get_set_other N.eqb_eq).
Qed.

(** X15. A stored Allergy or Medication stays for good.  Whatever requests
    follow, [GET /allergies/{k}] of an identifier that was readable is
    still readable, and the record it returns has the same [id], the same
    [person_id], the same [created_at] and the same [updated_at] as before:
    no route removes a record, moves it to another Person or restamps
    it. *)
Theorem stored_record_is_permanent (rqs : list request) (w : World) :
  (forall k r,
     get_allergy k w = (Ok r, w) ->
     exists r',
       get_allergy k (run rqs w) = (Ok r', run rqs w)
       /\ allergy_fixed_fields r' = allergy_fixed_fields r)
  /\ (forall k r,
        get_medication k w = (Ok r, w) ->
        exists r',
          get_medication k (run rqs w) = (Ok r', run rqs w)
          /\ medication_fixed_fields r' = medication_fixed_fields r).
Proof.
  split; intros k r H.
  - apply get_allergy_Ok in H.
    destruct (run_invariant _ (@allergy_fixed_fields_step k r) rqs w)
      as [r' [G E]]; [now exists r|].
    exists r'. split; [now apply get_allergy_Ok | assumption].
  - apply get_medication_Ok in H.
    destruct (run_invariant _ (@medication_fixed_fields_step k r) rqs w)
      as [r' [G E]]; [now exists r|].
    exists r'. split; [now apply get_medication_Ok | assumption].
Qed.

Lemma stored_record_is_permanent_witness :
  exists r r',
    get_allergy 11%N Sample.clinic = (Ok r, Sample.clinic)
    /\ get_allergy 11%N
         (run [PATCH_allergy 11%N Sample.reaction_rash;
               POST_allergies Sample.orphan; POST_persons Sample.augusta;
               PATCH_allergy 11%N Sample.severity_null] Sample.clinic)
       = (Ok r',
          run [PATCH_allergy 11%N Sample.reaction_rash;
               POST_allergies Sample.orphan; POST_persons Sample.augusta;
               PATCH_allergy 11%N Sample.severity_null] Sample.clinic)
    /\ allergy_fixed_fields r' = allergy_fixed_fields r.
Proof.
  destruct (get_allergy 11%N Sample.clinic) as [[r|x] w0] eqn:H.
  - assert (Hw : w0 = Sample.clinic)
      by (vm_compute in H; inversion H; reflexivity).
    rewrite Hw in H.
    destruct (stored_record_is_permanent
                [PATCH_allergy 11%N Sample.reaction_rash;
                 POST_allergies Sample.orphan; POST_persons Sample.augusta;
                 PATCH_allergy 11%N Sample.severity_null] Sample.clinic)
      as [HA _].
    destruct (HA 11%N r H) as [r' [G E]].
    exists r, r'. rewrite Hw. split; [reflexivity|]. split; assumption.
  - vm_compute in H. discriminate H.
Defined.

(** ** Reading by identifier *)

(** X16. Reading one record by its identifier is a pure read, for each of
    the four kinds: when the identifier is not a key of the store the call
    fails with the 404 of its kind, otherwise it returns the stored record;
    either way the stores, the clock and the identifier source are left as
    they were. *)
Theorem get_is_a_pure_read (k : UUID) (w : World) :
  (contains k (addresses (db w)) = false
   /\ get_address k w = (Raise (HTTPException 404 "Address not found"), w)
   \/ exists r, dict_get N.eqb k (addresses (db w)) = Some r
                /\ get_address k w = (Ok r, w))
  /\ (contains k (persons (db w)) = false
      /\ get_person k w = (Raise (HTTPException 404 "Person not found"), w)
      \/ exists r, dict_get N.eqb k (persons (db w)) = Some r
                   /\ get_person k w = (Ok r, w))
  /\ (contains k (allergies (db w)) = false
      /\ get_allergy k w = (Raise (HTTPException 404 "Allergy not found"), w)
      \/ exists r, dict_get N.eqb k (allergies (db w)) = Some r
                   /\ get_allergy k w = (Ok r, w))
  /\ (contains k (medications (db w)) = false
      /\ get_medication k w
         = (Raise (HTTPException 404 "Medication not found"), w)
      \/ exists r, dict_get N.eqb k (medications (db w)) = Some r
                   /\ get_medication k w = (Ok r, w)).
Proof.
  rewrite get_address_spec, get_person_spec, get_allergy_spec,
    get_medication_spec.
  unfold contains, dict_contains.
  repeat split.
  - destruct (dict_get N.eqb k (addresses (db w))) as [r|]; eauto.
  - destruct (dict_get N.eqb k (persons (db w))) as [r|]; eauto.
  - destruct (dict_get N.eqb k (allergies (db w))) as [r|]; eauto.
  - destruct (dict_get N.eqb k (medications (db w))) as [r|]; eauto.
Qed.
